(** * Tutorial-Codebase-Knowledge: the validation pipeline of [nodes.py]

    A shallow embedding of the pure parts of [nodes.py]: the context helper
    [get_content_for_indices], the validation passes that follow
    [yaml.safe_load] in [IdentifyAbstractions.exec],
    [AnalyzeRelationships.exec] and [OrderChapters.exec], the heading
    clean-up of [WriteChapters.exec], and the filename and footer
    computations of [WriteChapters.prep] and [CombineTutorial.prep]; then
    the [prep] methods that hand the data from one stage to the next, the
    documents that [CombineTutorial] builds and writes, the project name of
    [FetchRepo.prep] and the filter of [crawl_local_files].

    Conventions.
    - A Python [str] is a [string] whose characters are the code points
      0..255; [isspace], [isalnum] and [lower] follow CPython's tables on
      that range.
    - A Python [int] is a [Z]; [bool] is the subclass of [int] it is in
      Python ([True == 1], [False == 0]). A boolean that the code keeps as
      an index is carried by the integer it equals; it compares, hashes and
      indexes as that integer, and differs from it in [str] only, so the
      statements that show an index as text are made for indices that are
      no booleans.
    - CPython converts between [int] and [str] up to
      [sys.int_max_str_digits] decimal digits (4300 by default) and raises
      [ValueError] beyond. [py_int] is [int] with that limit. [Py.str_Z] is
      the decimal text of an integer, which is its [str] within the limit;
      the indices that the code shows are positions in lists, far within
      it. A message shows values of the response: [Sys.within_limit] says
      of a loaded value that it holds nothing beyond the limit, and
      [message_within_limit] that building a message raises nothing.
    - An exception is a value of [exc]; a computation that may raise is a
      [result]. [try ... except (ValueError, TypeError)] is [try_except].
    - The LLM call and [yaml.safe_load] are outside the model: every
      validation pass takes the loaded YAML value as its input. *)

From Stdlib Require Import ZArith List String Ascii Lia Decimal DecimalString DecimalN.
From stdpp Require Import gmap strings list sorting.

Set Warnings "-register-all".

(** ** Python's string primitives *)

Module Py.

Definition LF : ascii := "010"%char.
Definition HASH : ascii := "#"%char.
Definition UNDERSCORE : ascii := "_"%char.
Definition SPACE : ascii := " "%char.

(** Code-point interval test. *)
Definition between (lo hi : N) (c : ascii) : bool :=
  let n := N_of_ascii c in ((lo <=? n) && (n <=? hi))%N.

(** [str.isspace] of one character. *)
Definition isspace (c : ascii) : bool :=
  between 9 13 c || between 28 32 c || between 133 133 c || between 160 160 c.

(** [str.isdecimal] of one character: the digits that [int] reads. *)
Definition isdecimal (c : ascii) : bool := between 48 57 c.

(** [str.isalnum] of one character. *)
Definition isalnum (c : ascii) : bool :=
  isdecimal c || between 65 90 c || between 97 122 c
  || between 170 170 c || between 181 181 c || between 186 186 c
  || between 178 179 c || between 185 185 c || between 188 190 c
  || between 192 214 c || between 216 246 c || between 248 255 c.

(** [str.lower] of one character. *)
Definition lower_char (c : ascii) : ascii :=
  if between 65 90 c || between 192 214 c || between 216 222 c
  then ascii_of_N (N_of_ascii c + 32)
  else c.

Fixpoint map_chars (f : ascii → ascii) (s : string) : string :=
  match s with
  | EmptyString => EmptyString
  | String c r => String (f c) (map_chars f r)
  end.

Definition lower (s : string) : string := map_chars lower_char s.

Fixpoint all_chars (p : ascii → bool) (s : string) : bool :=
  match s with
  | EmptyString => true
  | String c r => p c && all_chars p r
  end.

(** [c in s] for a one-character [c]. *)
Fixpoint contains (c : ascii) (s : string) : bool :=
  match s with
  | EmptyString => false
  | String d r => Ascii.eqb d c || contains c r
  end.

(** [s.count(c)] for a one-character [c]. *)
Fixpoint count (c : ascii) (s : string) : nat :=
  match s with
  | EmptyString => 0
  | String d r => (if Ascii.eqb d c then 1 else 0) + count c r
  end.

Fixpoint lstrip (s : string) : string :=
  match s with
  | EmptyString => EmptyString
  | String c r => if isspace c then lstrip r else s
  end.

Fixpoint rstrip (s : string) : string :=
  match s with
  | EmptyString => EmptyString
  | String c r =>
      match rstrip r with
      | EmptyString => if isspace c then EmptyString else String c EmptyString
      | r' => String c r'
      end
  end.

(** [s.strip()] *)
Definition strip (s : string) : string := rstrip (lstrip s).

(** [s.split(sep)] for a one-character [sep], as its first piece and the
    pieces after it: the result of [split] is never the empty list. *)
Fixpoint split (sep : ascii) (s : string) : string * list string :=
  match s with
  | EmptyString => (EmptyString, [])
  | String c r =>
      let '(h, t) := split sep r in
      if Ascii.eqb c sep then (EmptyString, h :: t) else (String c h, t)
  end.

Definition split_list (sep : ascii) (s : string) : list string :=
  let '(h, t) := split sep s in h :: t.

(** [s.split(sep)[0]] *)
Definition split_head (sep : ascii) (s : string) : string := fst (split sep s).

(** [sep.join(l)] *)
Fixpoint join (sep : string) (l : list string) : string :=
  match l with
  | [] => EmptyString
  | x :: r =>
      match r with
      | [] => x
      | _ :: _ => x +:+ sep +:+ join sep r
      end
  end.

(** [s.startswith(p)] *)
Definition startswith (s p : string) : bool := String.prefix p s.

(** [s.endswith(p)] *)
Fixpoint endswith (s p : string) : bool :=
  String.eqb s p ||
  match s with
  | EmptyString => false
  | String _ r => endswith r p
  end.

(** [str(n)] for [n >= 0]. *)
Definition str_N (n : N) : string := NilEmpty.string_of_uint (N.to_uint n).

(** The decimal text of an integer: [str(z)] for an [int] of at most
    [sys.int_max_str_digits] decimal digits; beyond, [str] raises
    [ValueError]. *)
Definition str_Z (z : Z) : string :=
  match z with
  | Zneg p => String "-" (str_N (Npos p))
  | _ => str_N (Z.to_N z)
  end.

Definition str_nat (n : nat) : string := str_N (N.of_nat n).

(** [f"{n:02d}"] for [n >= 0]. *)
Definition format_02d (n : nat) : string :=
  let s := str_nat n in
  if String.length s <? 2 then String "0" s else s.

(** The digit groups of an integer literal: single underscores may stand
    between digits, nowhere else. Returns the literal without them. *)
Fixpoint drop_underscores (after_digit : bool) (s : string) : option string :=
  match s with
  | EmptyString => Some EmptyString
  | String c r =>
      if Ascii.eqb c UNDERSCORE then
        let before_digit :=
          match r with String d _ => isdecimal d | EmptyString => false end in
        if after_digit && before_digit then drop_underscores false r else None
      else String c <$> drop_underscores (isdecimal c) r
  end.

(** The magnitude of [int(s)] once whitespace and sign are gone. *)
Definition int_digits (s : string) : option Z :=
  match drop_underscores false s with
  | Some EmptyString | None => None
  | Some d => (λ u, Z.of_N (N.of_uint u)) <$> NilEmpty.uint_of_string d
  end.

(** The integer that a literal stands for, base 10, [None] when the text is
    no integer literal: [int(s)] for a [str] argument of at most
    [sys.int_max_str_digits] decimal digits. [py_int] adds the limit. *)
Definition int (s : string) : option Z :=
  match strip s with
  | EmptyString => None
  | String c r =>
      if Ascii.eqb c "+" then int_digits r
      else if Ascii.eqb c "-" then Z.opp <$> int_digits r
      else int_digits (String c r)
  end.

End Py.

(** ** Loaded YAML values *)

(** What [yaml.safe_load] returns. A float is carried by its [repr], which
    is all that the code under study asks of it. A mapping is the loaded
    [dict] in insertion order, its keys pairwise distinct. *)
Inductive yaml : Type :=
  | YNull
  | YBool (b : bool)
  | YInt (z : Z)
  | YFloat (float_repr : string)
  | YStr (s : string)
  | YSeq (items : list yaml)
  | YMap (entries : list (yaml * yaml)).

Module Yaml.

Definition QUOTE : ascii := "'"%char.
Definition DQUOTE : ascii := "034"%char.
Definition BACKSLASH : ascii := "\"%char.

Definition hex_digit (n : N) : ascii :=
  if (n <? 10)%N then ascii_of_N (48 + n) else ascii_of_N (87 + n).

(** [repr] of one character of a [str] delimited by [q]. *)
Definition repr_char (q c : ascii) : string :=
  if Ascii.eqb c q || Ascii.eqb c BACKSLASH then String BACKSLASH (String c "")
  else if Ascii.eqb c "009" then String BACKSLASH "t"
  else if Ascii.eqb c Py.LF then String BACKSLASH "n"
  else if Ascii.eqb c "013" then String BACKSLASH "r"
  else if Py.between 0 31 c || Py.between 127 160 c || Py.between 173 173 c then
    let n := N_of_ascii c in
    String BACKSLASH (String "x" (String (hex_digit (n / 16)) (String (hex_digit (n mod 16)) "")))
  else String c "".

Fixpoint concat_map_chars (f : ascii → string) (s : string) : string :=
  match s with
  | EmptyString => EmptyString
  | String c r => f c +:+ concat_map_chars f r
  end.

(** [repr(s)] for a [str]: single quotes unless [s] holds one and no
    double quote. *)
Definition repr_str (s : string) : string :=
  let q := if Py.contains QUOTE s && negb (Py.contains DQUOTE s) then DQUOTE else QUOTE in
  String q (concat_map_chars (repr_char q) s +:+ String q "").

(** [repr(v)] *)
Fixpoint repr (v : yaml) : string :=
  match v with
  | YNull => "None"
  | YBool true => "True"
  | YBool false => "False"
  | YInt z => Py.str_Z z
  | YFloat r => r
  | YStr s => repr_str s
  | YSeq l => "[" +:+ Py.join ", " (map repr l) +:+ "]"
  | YMap kvs =>
      "{" +:+ Py.join ", " (map (λ kv, let '(k, x) := kv in repr k +:+ ": " +:+ repr x) kvs) +:+ "}"
  end.

(** [str(v)], which is also what an f-string field [{v}] shows. *)
Definition str (v : yaml) : string :=
  match v with
  | YStr s => s
  | _ => repr v
  end.

(** [isinstance(v, bool)] *)
Definition is_bool (v : yaml) : bool :=
  match v with YBool _ => true | _ => false end.

(** The [repr] of a float is made of digits, a sign, a point, an exponent
    mark or the letters of [inf] and [nan]: it holds no [#]. *)
Definition float_repr_ok (v : yaml) : bool :=
  match v with YFloat r => negb (Py.contains Py.HASH r) | _ => true end.

(** [d.get(key)] on the entries of a loaded [dict], for a [str] key:
    [key in d] is [is_Some (get key d)], and [d[key]] is the value found. *)
Fixpoint get (key : string) (kvs : list (yaml * yaml)) : option yaml :=
  match kvs with
  | [] => None
  | (YStr k, x) :: r => if String.eqb k key then Some x else get key r
  | _ :: r => get key r
  end.

End Yaml.

(** ** The limit of CPython on integer conversions *)

Module Sys.

(** [sys.int_max_str_digits], at its default: [str], [repr] and an f-string
    field raise [ValueError] on an [int] of more decimal digits, and [int]
    raises it on a literal of more decimal digits. *)
Definition int_max_str_digits : nat := 4300.

(** The number of decimal digits that [s] holds. *)
Fixpoint decimal_digits (s : string) : nat :=
  match s with
  | EmptyString => 0
  | String c r => (if Py.isdecimal c then 1 else 0) + decimal_digits r
  end.

(** The integer [z] has at most [int_max_str_digits] decimal digits. *)
Definition int_within_limit (z : Z) : bool :=
  decimal_digits (Py.str_Z z) <=? int_max_str_digits.

(** The loaded value [v] holds no integer and no string of more than
    [int_max_str_digits] decimal digits, at any depth. The validation
    passes convert [v] and its parts with [str], [repr] and [int]; none of
    these conversions then meets the limit, whatever part of a string it is
    applied to. *)
Fixpoint within_limit (v : yaml) : bool :=
  match v with
  | YInt z => int_within_limit z
  | YStr s => decimal_digits s <=? int_max_str_digits
  | YSeq l => forallb within_limit l
  | YMap kvs => forallb (λ kv, let '(k, x) := kv in within_limit k && within_limit x) kvs
  | YNull | YBool _ | YFloat _ => true
  end.

End Sys.

(** ** Exceptions *)

Inductive exc_class : Type := ValueError | TypeError.

(** One constructor per [raise] of [nodes.py] (and one for [int]'s own
    failure), carrying the values its f-string shows. *)
Inductive message : Type :=
  (** [int(s)]: invalid literal for int() with base 10 *)
  | InvalidLiteral (s : string)
  (** [int(s)]: Exceeds the limit (4300 digits) for integer string
      conversion: value has {digits} digits *)
  | ExceedsLimit (digits : nat)
  (** "LLM Output is not a list" *)
  | OutputNotList
  (** "Missing keys in abstraction item: {item}" *)
  | MissingKeys (item : yaml)
  (** "description is not a string in item: {item}" *)
  | DescriptionNotString (item : yaml)
  (** "file_indices is not a list in item: {item}" *)
  | FileIndicesNotList (item : yaml)
  (** "Invalid file index {idx} found in item {item['name']}. Max index is {file_count - 1}." *)
  | InvalidFileIndex (idx : Z) (item_name : yaml) (max_index : Z)
  (** "Could not parse index from entry: {idx_entry} in item {item['name']}" *)
  | CouldNotParseIndex (idx_entry : yaml) (item_name : yaml)
  (** "LLM output is not a dict or missing keys ('summary', 'relationships')" *)
  | NotDictOrMissingKeys
  (** "summary is not a string" *)
  | SummaryNotString
  (** "relationships is not a list" *)
  | RelationshipsNotList
  (** "Missing keys (expected from_abstraction, to_abstraction, label) in relationship item: {rel}" *)
  | RelMissingKeys (rel : yaml)
  (** "Relationship label is not a string: {rel}" *)
  | RelLabelNotString (rel : yaml)
  (** "Invalid index in relationship: from={from_idx}, to={to_idx}. Max index is {num_abstractions-1}." *)
  | InvalidRelIndex (from_idx to_idx : Z) (max_index : Z)
  (** "Could not parse indices from relationship: {rel}" *)
  | CouldNotParseRel (rel : yaml)
  (** "LLM output is not a list" *)
  | OrderNotList
  (** "Invalid index {idx} in ordered list. Max index is {num_abstractions-1}." *)
  | InvalidOrderIndex (idx : Z) (max_index : Z)
  (** "Duplicate index {idx} found in ordered list." *)
  | DuplicateIndex (idx : Z)
  (** "Could not parse index from ordered list entry: {entry}" *)
  | CouldNotParseEntry (entry : yaml)
  (** "Ordered list length ({len(ordered_indices)}) does not match number of
      abstractions ({num_abstractions}). Missing indices:
      {set(range(num_abstractions)) - seen_indices}" *)
  | LengthMismatch (len : nat) (num_abstractions : Z) (missing : gset Z).

Record exc : Type := Exc { exc_type : exc_class; exc_msg : message }.

Inductive result (A : Type) : Type :=
  | Ok (a : A)
  | Raise (e : exc).
Arguments Ok {A} a.
Arguments Raise {A} e.

(** Sequencing: an exception raised by the first step ends the block. *)
Global Instance result_bind : MBind result := λ A B k m,
  match m with
  | Ok a => k a
  | Raise e => Raise e
  end.

(** [raise ValueError(msg)] *)
Definition raise_value_error {A} (msg : message) : result A :=
  Raise (Exc ValueError msg).

(** [try: body  except (ValueError, TypeError): handler]. Both classes of
    the model are caught, so the handler replaces every exception raised
    inside the body. *)
Definition try_except {A} (body : result A) (handler : result A) : result A :=
  match body with
  | Ok a => Ok a
  | Raise (Exc ValueError _) | Raise (Exc TypeError _) => handler
  end.

(** A [for] loop whose body may raise, collecting one value per item. *)
Fixpoint for_each {A B} (f : A → result B) (l : list A) : result (list B) :=
  match l with
  | [] => Ok []
  | x :: r => y ← f x; ys ← for_each f r; Ok (y :: ys)
  end.

(** What a computation returns, [None] when it raises. *)
Definition returned {A} (r : result A) : option A :=
  match r with
  | Ok a => Some a
  | Raise _ => None
  end.

(** [int(s)], raising [ValueError] where CPython does: on a text that is no
    integer literal, and on a literal of more than [sys.int_max_str_digits]
    decimal digits (all the decimal digits of a literal are its own). The
    calls of [int] in [nodes.py] stand inside [try] blocks whose handlers
    replace the exception, so neither message is seen outside. *)
Definition py_int (s : string) : result Z :=
  match Py.int s with
  | Some z =>
      if Sys.int_max_str_digits <? Sys.decimal_digits s
      then raise_value_error (ExceedsLimit (Sys.decimal_digits s))
      else Ok z
  | None => raise_value_error (InvalidLiteral s)
  end.

(** ** Context helper *)

(** The key [f"{i} # {path}"]. *)
Definition content_key (i : Z) (path : string) : string :=
  Py.str_Z i +:+ " # " +:+ path.

(** [get_content_for_indices(files_data, indices)], for [indices] that are
    integers proper. The [dict] it builds is a finite map; the order in
    which Python would iterate over it plays no part here. *)
Definition get_content_for_indices
    (files_data : list (string * string)) (indices : list Z) : gmap string string :=
  foldl (λ content_map i,
           if bool_decide (0 ≤ i < Z.of_nat (length files_data))%Z then
             match files_data !! Z.to_nat i with
             | Some (path, content) => <[content_key i path := content]> content_map
             | None => content_map
             end
           else content_map)
        ∅ indices.

(** ** Shared state between the stages *)

(** One entry of [shared["abstractions"]]. [IdentifyAbstractions.exec]
    checks the type of [description] and builds [files]; it copies [name]
    from the YAML item as it is. *)
Record abstraction : Type := Abstraction {
  name : yaml;
  description : string;
  files : list Z
}.

(** One entry of [shared["relationships"]["details"]]. *)
Record relationship : Type := Relationship {
  rel_from : Z;
  rel_to : Z;
  rel_label : string
}.

(** [shared["relationships"]] *)
Record relationships : Type := Relationships {
  summary : string;
  details : list relationship
}.

Definition NL : string := String Py.LF EmptyString.

(** [sorted(list(set(l)))] on integers. *)
Definition sorted_set (l : list Z) : list Z :=
  merge_sort Z.le (elements (list_to_set l : gset Z)).

(** ** IdentifyAbstractions.exec, from [yaml.safe_load] on *)

Module IdentifyAbstractions.

(** Lines 217-222: the index an entry of [file_indices] stands for. A
    boolean passes [isinstance(idx_entry, int)] and is its own index:
    [True], which is 1, or [False], which is 0. *)
Definition coerce_index (idx_entry : yaml) : result Z :=
  match idx_entry with
  | YInt z => Ok z
  | YBool b => Ok (Z.b2z b)
  | YStr s =>
      if Py.contains Py.HASH s
      then py_int (Py.strip (Py.split_head Py.HASH s))
      else py_int (Py.strip (Yaml.str idx_entry))
  | _ => py_int (Py.strip (Yaml.str idx_entry))
  end.

(** Lines 216-228: the body of the loop over [item["file_indices"]]. The
    range check's [raise] stands inside the [try]. *)
Definition validate_index (file_count : nat) (item_name idx_entry : yaml) : result Z :=
  try_except
    (idx ← coerce_index idx_entry;
     if negb ((0 <=? idx) && (idx <? Z.of_nat file_count))%Z
     then raise_value_error (InvalidFileIndex idx item_name (Z.of_nat file_count - 1))
     else Ok idx)
    (raise_value_error (CouldNotParseIndex idx_entry item_name)).

(** Lines 206-236: the body of the loop over the abstractions. *)
Definition validate_item (file_count : nat) (item : yaml) : result abstraction :=
  match item with
  | YMap kvs =>
      match Yaml.get "name" kvs, Yaml.get "description" kvs, Yaml.get "file_indices" kvs with
      | Some item_name, Some item_description, Some file_indices =>
          match item_description with
          | YStr descr =>
              match file_indices with
              | YSeq idx_entries =>
                  validated_indices ← for_each (validate_index file_count item_name) idx_entries;
                  Ok {| name := item_name;
                        description := descr;
                        files := sorted_set validated_indices |}
              | _ => raise_value_error (FileIndicesNotList item)
              end
          | _ => raise_value_error (DescriptionNotString item)
          end
      | _, _, _ => raise_value_error (MissingKeys item)
      end
  | _ => raise_value_error (MissingKeys item)
  end.

(** Lines 201-239. *)
Definition exec_validate (file_count : nat) (abstractions : yaml) : result (list abstraction) :=
  match abstractions with
  | YSeq items => for_each (validate_item file_count) items
  | _ => raise_value_error OutputNotList
  end.

End IdentifyAbstractions.

(** ** AnalyzeRelationships *)

Module AnalyzeRelationships.

(** Lines 253-259 and 275: the second component of what [prep] returns,
    ["\n".join(abstraction_info_for_prompt)]. *)
Definition abstraction_listing (abstractions : list abstraction) : string :=
  Py.join NL (imap (λ i abstr, Py.str_nat i +:+ " # " +:+ Yaml.str (name abstr)) abstractions).

(** Line 333: [len(abstraction_listing.split('\n'))]. *)
Definition num_abstractions (abstraction_listing : string) : nat :=
  length (Py.split_list Py.LF abstraction_listing).

(** Lines 344-345: [int(str(v).split('#')[0].strip())]. *)
Definition coerce_index (v : yaml) : result Z :=
  py_int (Py.strip (Py.split_head Py.HASH (Yaml.str v))).

(** Lines 336-354: the body of the loop over the relationships. *)
Definition validate_rel (num_abstractions : nat) (rel : yaml) : result relationship :=
  match rel with
  | YMap kvs =>
      match Yaml.get "from_abstraction" kvs, Yaml.get "to_abstraction" kvs, Yaml.get "label" kvs with
      | Some from_abstraction, Some to_abstraction, Some label =>
          match label with
          | YStr label_text =>
              try_except
                (from_idx ← coerce_index from_abstraction;
                 to_idx ← coerce_index to_abstraction;
                 if negb (((0 <=? from_idx) && (from_idx <? Z.of_nat num_abstractions))
                          && ((0 <=? to_idx) && (to_idx <? Z.of_nat num_abstractions)))%Z
                 then raise_value_error
                        (InvalidRelIndex from_idx to_idx (Z.of_nat num_abstractions - 1))
                 else Ok {| rel_from := from_idx; rel_to := to_idx; rel_label := label_text |})
                (raise_value_error (CouldNotParseRel rel))
          | _ => raise_value_error (RelLabelNotString rel)
          end
      | _, _, _ => raise_value_error (RelMissingKeys rel)
      end
  | _ => raise_value_error (RelMissingKeys rel)
  end.

(** Lines 324-360. *)
Definition exec_validate (abstraction_listing : string) (relationships_data : yaml)
    : result relationships :=
  match relationships_data with
  | YMap kvs =>
      match Yaml.get "summary" kvs, Yaml.get "relationships" kvs with
      | Some data_summary, Some data_relationships =>
          match data_summary with
          | YStr summary_text =>
              match data_relationships with
              | YSeq rels =>
                  validated_relationships ←
                    for_each (validate_rel (num_abstractions abstraction_listing)) rels;
                  Ok {| summary := summary_text; details := validated_relationships |}
              | _ => raise_value_error RelationshipsNotList
              end
          | _ => raise_value_error SummaryNotString
          end
      | _, _ => raise_value_error NotDictOrMissingKeys
      end
  | _ => raise_value_error NotDictOrMissingKeys
  end.

(** [prep] followed by the validation of [exec]. *)
Definition run (abstractions : list abstraction) (relationships_data : yaml)
    : result relationships :=
  exec_validate (abstraction_listing abstractions) relationships_data.

End AnalyzeRelationships.

(** ** OrderChapters.exec, from [yaml.safe_load] on *)

Module OrderChapters.

(** Lines 429-434: the same code as lines 217-222. *)
Definition coerce_index (entry : yaml) : result Z :=
  match entry with
  | YInt z => Ok z
  | YBool b => Ok (Z.b2z b)
  | YStr s =>
      if Py.contains Py.HASH s
      then py_int (Py.strip (Py.split_head Py.HASH s))
      else py_int (Py.strip (Yaml.str entry))
  | _ => py_int (Py.strip (Yaml.str entry))
  end.

(** The loop's state: [ordered_indices] and [seen_indices]. *)
Definition loop_state : Type := list Z * gset Z.

(** Lines 428-444: the body of the loop. Both [raise]s of the checks stand
    inside the [try]. *)
Definition loop_body (num_abstractions : nat) (st : loop_state) (entry : yaml)
    : result loop_state :=
  let '(ordered_indices, seen_indices) := st in
  try_except
    (idx ← coerce_index entry;
     if negb ((0 <=? idx) && (idx <? Z.of_nat num_abstractions))%Z
     then raise_value_error (InvalidOrderIndex idx (Z.of_nat num_abstractions - 1))
     else if bool_decide (idx ∈ seen_indices)
     then raise_value_error (DuplicateIndex idx)
     else Ok (ordered_indices ++ [idx], seen_indices ∪ {[idx]}))
    (raise_value_error (CouldNotParseEntry entry)).

Fixpoint loop (num_abstractions : nat) (st : loop_state) (entries : list yaml)
    : result loop_state :=
  match entries with
  | [] => Ok st
  | entry :: rest => st' ← loop_body num_abstractions st entry; loop num_abstractions st' rest
  end.

(** [set(range(n))] *)
Definition range_set (n : nat) : gset Z := list_to_set (seqZ 0 (Z.of_nat n)).

(** Lines 422-451. *)
Definition exec_validate (num_abstractions : nat) (ordered_indices_raw : yaml)
    : result (list Z) :=
  match ordered_indices_raw with
  | YSeq entries =>
      st ← loop num_abstractions ([], ∅) entries;
      let '(ordered_indices, seen_indices) := st in
      if negb (length ordered_indices =? num_abstractions)
      then raise_value_error
             (LengthMismatch (length ordered_indices) (Z.of_nat num_abstractions)
                (range_set num_abstractions ∖ seen_indices))
      else Ok ordered_indices
  | _ => raise_value_error OrderNotList
  end.

End OrderChapters.

(** ** WriteChapters *)

(** From here on an abstraction's [name] is a [str], as [WriteChapters.prep]
    needs it to be when it walks over the name's characters. *)
Module WriteChapters.

(** Line 475: ["".join(c if c.isalnum() else '_' for c in chapter_name).lower()] *)
Definition safe_name (chapter_name : string) : string :=
  Py.lower (Py.map_chars (λ c, if Py.isalnum c then c else Py.UNDERSCORE) chapter_name).

(** Line 476 (and line 673): [f"{i+1:02d}_{safe_name}.md"] for position [i]
    of [enumerate(chapter_order)]. *)
Definition chapter_filename (i : nat) (chapter_name : string) : string :=
  Py.format_02d (i + 1) +:+ "_" +:+ safe_name chapter_name +:+ ".md".

(** Line 592. *)
Definition actual_heading (chapter_num : nat) (abstraction_name : string) : string :=
  "# Chapter " +:+ Py.str_nat chapter_num +:+ ": " +:+ abstraction_name.

(** Lines 592-600: the clean-up of the LLM's response. *)
Definition fix_heading (chapter_num : nat) (abstraction_name chapter_content : string)
    : string :=
  if negb (Py.startswith (Py.strip chapter_content) ("# Chapter " +:+ Py.str_nat chapter_num))
  then
    let '(first_line, more_lines) := Py.split Py.LF (Py.strip chapter_content) in
    if Py.startswith (Py.strip first_line) "#"
    then Py.join NL (actual_heading chapter_num abstraction_name :: more_lines)
    else actual_heading chapter_num abstraction_name +:+ NL +:+ NL +:+ chapter_content
  else chapter_content.

End WriteChapters.

(** ** CombineTutorial.prep *)

Module CombineTutorial.

(** Line 680: the text appended to every chapter. *)
Definition attribution : string :=
  "---" +:+ NL +:+ NL +:+
  "Generated by [AI Codebase Knowledge Builder](https://github.com/The-Pocket/Tutorial-Codebase-Knowledge)".

(** Lines 678-679. *)
Definition ensure_blank_line (chapter_content : string) : string :=
  if negb (Py.endswith chapter_content (NL +:+ NL))
  then chapter_content +:+ NL +:+ NL
  else chapter_content.

(** Lines 677-680. *)
Definition add_attribution (chapter_content : string) : string :=
  ensure_blank_line chapter_content +:+ attribution.

(** Lines 666-685: [chapter_files], the loop taken from position [i] on.
    [names] holds [abstractions[k]["name"]] for every [k]. *)
Fixpoint chapter_files_from (i : nat) (chapter_order : list Z) (names : list string)
    (chapters_content : list string) : list (string * string) :=
  match chapter_order with
  | [] => []
  | abstraction_index :: rest =>
      (if bool_decide (0 ≤ abstraction_index < Z.of_nat (length names))%Z
       then match names !! Z.to_nat abstraction_index, chapters_content !! i with
            | Some abstraction_name, Some chapter_content =>
                [(WriteChapters.chapter_filename i abstraction_name,
                  add_attribution chapter_content)]
            | _, _ => []
            end
       else [])
      ++ chapter_files_from (S i) rest names chapters_content
  end.

Definition chapter_files (chapter_order : list Z) (names : list string)
    (chapters_content : list string) : list (string * string) :=
  chapter_files_from 0 chapter_order names chapters_content.

End CombineTutorial.

(** ** More of Python's string methods *)

Module PyText.

(** [s.replace(old, new)] for a nonempty [old]: the occurrences of [old]
    are taken from the left and do not overlap. [skip] counts the characters
    of an occurrence that are still to be passed over. *)
Fixpoint replace_from (old new : string) (skip : nat) (s : string) : string :=
  match s with
  | EmptyString => EmptyString
  | String c r =>
      match skip with
      | S k => replace_from old new k r
      | 0 =>
          if String.prefix old s
          then new +:+ replace_from old new (String.length old - 1) r
          else String c (replace_from old new 0 r)
      end
  end.

Definition replace (old new s : string) : string := replace_from old new 0 s.

(** [s[:n]] *)
Fixpoint take (n : nat) (s : string) : string :=
  match n, s with
  | S k, String c r => String c (take k r)
  | _, _ => EmptyString
  end.

(** [os.path.join(a, b)] on a POSIX system. *)
Definition path_join (a b : string) : string :=
  if Py.startswith b "/" then b
  else if String.eqb a EmptyString || Py.endswith a "/" then a +:+ b
  else a +:+ "/" +:+ b.

End PyText.

(** ** create_llm_context and IdentifyAbstractions.prep *)

(** Line 76: [f"--- File Index {i}: {path} ---\n{content}\n\n"] *)
Definition context_entry (i : nat) (path content : string) : string :=
  "--- File Index " +:+ Py.str_nat i +:+ ": " +:+ path +:+ " ---" +:+ NL
  +:+ content +:+ NL +:+ NL.

(** Lines 72-80: the loop over [enumerate(files_data)], with its two
    accumulators [context] and [file_info]. *)
Definition create_llm_context (files_data : list (string * string))
    : string * list (nat * string) :=
  foldl (λ '(context, file_info) '(i, (path, content)),
           (context +:+ context_entry i path content, file_info ++ [(i, path)]))
        (EmptyString, []) (imap pair files_data).

Module IdentifyPrep.

(** Line 155: ["\n".join([f"- {idx} # {path}" for idx, path in file_info])] *)
Definition file_listing_for_prompt (file_info : list (nat * string)) : string :=
  Py.join NL (map (λ '(idx, path), "- " +:+ Py.str_nat idx +:+ " # " +:+ path) file_info).

(** Lines 150-156: what [prep] returns. *)
Definition prep (files_data : list (string * string)) (project_name : string)
    : string * string * nat * string :=
  let '(context, file_info) := create_llm_context files_data in
  (context, file_listing_for_prompt file_info, length files_data, project_name).

(** [prep], then the validation of [exec] on the loaded response. *)
Definition run (files_data : list (string * string)) (project_name : string)
    (abstractions : yaml) : result (list abstraction) :=
  let '(_, _, file_count, _) := prep files_data project_name in
  IdentifyAbstractions.exec_validate file_count abstractions.

End IdentifyPrep.

(** ** AnalyzeRelationships.prep: the files shown to the LLM *)

Module AnalyzePrep.

(** Lines 252-260: [all_relevant_indices], the set the loop over the
    abstractions builds with [update(abstr['files'])]. *)
Definition all_relevant_indices (abstractions : list abstraction) : gset Z :=
  foldl (λ indices abstr, indices ∪ list_to_set (files abstr)) ∅ abstractions.

(** Lines 264-267: [relevant_files_content_map]. *)
Definition relevant_files_content_map
    (files_data : list (string * string)) (abstractions : list abstraction)
    : gmap string string :=
  get_content_for_indices files_data
    (merge_sort Z.le (elements (all_relevant_indices abstractions))).

End AnalyzePrep.

(** ** OrderChapters.prep *)

Module OrderPrep.

(** [l[i]] for a Python [int]: a negative [i] counts from the end, and
    [None] stands for [IndexError]. *)
Definition getitem {A} (l : list A) (i : Z) : option A :=
  if (0 <=? i)%Z then l !! Z.to_nat i
  else if (- Z.of_nat (length l) <=? i)%Z then l !! Z.to_nat (Z.of_nat (length l) + i)
  else None.

(** Lines 374-377: [abstraction_listing]. *)
Definition abstraction_listing (abstractions : list abstraction) : string :=
  Py.join NL (imap (λ i a, "- " +:+ Py.str_nat i +:+ " # " +:+ Yaml.str (name a)) abstractions).

(** Lines 382-385: the line of one relationship, appended to [context]. *)
Definition add_relationship (abstractions : list abstraction)
    (context : option string) (rel : relationship) : option string :=
  context ← context;
  from_abstraction ← getitem abstractions (rel_from rel);
  to_abstraction ← getitem abstractions (rel_to rel);
  Some (context +:+ "- From " +:+ Py.str_Z (rel_from rel)
        +:+ " (" +:+ Yaml.str (name from_abstraction) +:+ ") to "
        +:+ Py.str_Z (rel_to rel)
        +:+ " (" +:+ Yaml.str (name to_abstraction) +:+ "): "
        +:+ rel_label rel +:+ NL).

(** Lines 379-385: [context]. *)
Definition context (abstractions : list abstraction) (rels : relationships)
    : option string :=
  foldl (add_relationship abstractions)
    (Some ("Project Summary:" +:+ NL +:+ summary rels +:+ NL +:+ NL
           +:+ "Relationships (Indices refer to abstractions above):" +:+ NL))
    (details rels).

(** Lines 368-387: what [prep] returns, [None] when an index of a
    relationship makes [abstractions[...]] raise [IndexError]. *)
Definition prep (abstractions : list abstraction) (rels : relationships)
    (project_name : string) : option (string * string * nat * string) :=
  context ← context abstractions rels;
  Some (abstraction_listing abstractions, context, length abstractions, project_name).

End OrderPrep.

(** ** WriteChapters.prep *)

Module WritePrep.

(** An entry of [shared["abstractions"]] whose [name] is a [str].
    [IdentifyAbstractions.exec] copies [name] from the response unchecked,
    and line 475 walks the characters of the name: on a number, a boolean
    or [None] it raises [TypeError]. What is stated of [prep] is stated for
    names that are strings. *)
Record details : Type := Details {
  d_name : string;
  d_description : string;
  d_files : list Z
}.

(** A value of the [chapter_filenames] dictionary (line 480). *)
Record chapter_info : Type := ChapterInfo {
  info_num : nat;
  info_name : string;
  info_filename : string
}.

(** An element of [items_to_process] (lines 506-517). *)
Record item : Type := Item {
  chapter_num : nat;
  abstraction_index : Z;
  abstraction_details : details;
  related_files_content_map : gmap string string;
  project_name : string;
  full_chapter_listing : string;
  chapter_filenames : gmap Z chapter_info;
  prev_chapter : option chapter_info;
  next_chapter : option chapter_info
}.

(** [0 <= abstraction_index < len(abstractions)] *)
Definition in_range (abstractions : list details) (abstraction_index : Z) : bool :=
  bool_decide (0 ≤ abstraction_index < Z.of_nat (length abstractions))%Z.

(** Lines 470-480: the body of the first loop, on the accumulators
    [all_chapters] and [chapter_filenames]. *)
Definition first_loop_body (abstractions : list details)
    (acc : list string * gmap Z chapter_info) (entry : nat * Z)
    : list string * gmap Z chapter_info :=
  let '(all_chapters, filenames) := acc in
  let '(i, abstraction_index) := entry in
  if in_range abstractions abstraction_index then
    match abstractions !! Z.to_nat abstraction_index with
    | Some abstr =>
        let chapter_num := i + 1 in
        let chapter_name := d_name abstr in
        let filename := WriteChapters.chapter_filename i chapter_name in
        (all_chapters ++
           [Py.str_nat chapter_num +:+ ". [" +:+ chapter_name +:+ "](" +:+ filename +:+ ")"],
         <[abstraction_index :=
             {| info_num := chapter_num; info_name := chapter_name;
                info_filename := filename |}]> filenames)
    | None => acc
    end
  else acc.

Definition first_loop (abstractions : list details) (chapter_order : list Z)
    : list string * gmap Z chapter_info :=
  foldl (first_loop_body abstractions) ([], ∅) (imap pair chapter_order).

(** Lines 486-519: the body of the second loop. The outer [None] stands
    for the [KeyError] of [chapter_filenames[prev_idx]] or
    [chapter_filenames[next_idx]]; an index out of range adds no item. *)
Definition second_loop_body (abstractions : list details)
    (files_data : list (string * string)) (shared_project_name : string)
    (chapter_order : list Z) (listing : string) (filenames : gmap Z chapter_info)
    (items_to_process : option (list item)) (entry : nat * Z) : option (list item) :=
  let '(i, abstraction_index) := entry in
  items ← items_to_process;
  if in_range abstractions abstraction_index then
    match abstractions !! Z.to_nat abstraction_index with
    | Some abstraction_details =>
        let related_file_indices := d_files abstraction_details in
        let related_files_content_map :=
          get_content_for_indices files_data related_file_indices in
        prev_chapter ←
          (if 0 <? i
           then prev_idx ← chapter_order !! (i - 1);
                Some <$> filenames !! prev_idx
           else Some None);
        next_chapter ←
          (if i <? length chapter_order - 1
           then next_idx ← chapter_order !! (i + 1);
                Some <$> filenames !! next_idx
           else Some None);
        Some (items ++
                [{| chapter_num := i + 1;
                    abstraction_index := abstraction_index;
                    abstraction_details := abstraction_details;
                    related_files_content_map := related_files_content_map;
                    project_name := shared_project_name;
                    full_chapter_listing := listing;
                    chapter_filenames := filenames;
                    prev_chapter := prev_chapter;
                    next_chapter := next_chapter |}])
    | None => Some items
    end
  else Some items.

(** Lines 458-522: [prep]. *)
Definition prep (chapter_order : list Z) (abstractions : list details)
    (files_data : list (string * string)) (shared_project_name : string)
    : option (list item) :=
  let '(all_chapters, filenames) := first_loop abstractions chapter_order in
  let listing := Py.join NL all_chapters in
  foldl (second_loop_body abstractions files_data shared_project_name chapter_order
           listing filenames)
    (Some []) (imap pair chapter_order).

End WritePrep.

(** ** CombineTutorial: the diagram, the index and the files written *)

Module CombinePrep.

Definition DQ : string := String Yaml.DQUOTE EmptyString.

(** Lines 632-635: the line of the node of abstraction [i]. *)
Definition node_line (i : nat) (abstr_name : string) : string :=
  let node_id := "A" +:+ Py.str_nat i in
  let sanitized_name := PyText.replace DQ EmptyString abstr_name in
  "    " +:+ node_id +:+ "[" +:+ DQ +:+ sanitized_name +:+ DQ +:+ "]".

(** Lines 641-645: the label of an edge. *)
Definition edge_label (label : string) : string :=
  let sanitized := PyText.replace NL " " (PyText.replace DQ EmptyString label) in
  let max_label_len := 30 in
  if max_label_len <? String.length sanitized
  then PyText.take (max_label_len - 3) sanitized +:+ "..."
  else sanitized.

(** Lines 638-646: the line of the edge of one relationship. *)
Definition edge_line (rel : relationship) : string :=
  let from_node_id := "A" +:+ Py.str_Z (rel_from rel) in
  let to_node_id := "A" +:+ Py.str_Z (rel_to rel) in
  "    " +:+ from_node_id +:+ " -- " +:+ DQ +:+ edge_label (rel_label rel) +:+ DQ
  +:+ " --> " +:+ to_node_id.

(** Lines 628-648: [mermaid_diagram]. *)
Definition mermaid_diagram (names : list string) (rels : relationships) : string :=
  Py.join NL (["flowchart TD"] ++ imap node_line names ++ map edge_line (details rels)).

(** Lines 666-674: the links that the loop over [chapter_order] appends to
    [index_content], from position [i] on. *)
Fixpoint chapter_links_from (i : nat) (chapter_order : list Z) (names : list string)
    (chapters_content : list string) : string :=
  match chapter_order with
  | [] => EmptyString
  | abstraction_index :: rest =>
      (if bool_decide (0 ≤ abstraction_index < Z.of_nat (length names))%Z
       then match names !! Z.to_nat abstraction_index, chapters_content !! i with
            | Some abstraction_name, Some _ =>
                Py.str_nat (i + 1) +:+ ". [" +:+ abstraction_name +:+ "]("
                +:+ WriteChapters.chapter_filename i abstraction_name +:+ ")" +:+ NL
            | _, _ => EmptyString
            end
       else EmptyString)
      +:+ chapter_links_from (S i) rest names chapters_content
  end.

(** [f"{repo_url}"] for [shared["repo_url"]], which is [None] for a local
    directory. *)
Definition repo_text (repo_url : option string) : string :=
  match repo_url with Some url => url | None => "None" end.

(** Lines 653-688: [index_content]. *)
Definition index_content (project_name : string) (repo_url : option string)
    (rels : relationships) (chapter_order : list Z) (names : list string)
    (chapters_content : list string) : string :=
  "# Tutorial: " +:+ project_name +:+ NL +:+ NL
  +:+ summary rels +:+ NL +:+ NL
  +:+ "**Source Repository:** [" +:+ repo_text repo_url +:+ "](" +:+ repo_text repo_url
  +:+ ")" +:+ NL +:+ NL
  +:+ "```mermaid" +:+ NL
  +:+ mermaid_diagram names rels +:+ NL
  +:+ "```" +:+ NL +:+ NL
  +:+ "## Chapters" +:+ NL +:+ NL
  +:+ chapter_links_from 0 chapter_order names chapters_content
  +:+ NL +:+ NL +:+ CombineTutorial.attribution.

(** Line 618: [output_path]. *)
Definition output_path (output_base_dir project_name : string) : string :=
  PyText.path_join output_base_dir project_name.

End CombinePrep.

Module CombineExec.

(** Lines 696-718: the files that [exec] writes, on a file system seen as
    a map from paths to contents; [open(path, "w")] replaces what the path
    held. Directories and failures of the system calls are not modelled. *)
Definition exec (output_path index_content : string)
    (chapter_files : list (string * string)) (fs : gmap string string)
    : gmap string string :=
  foldl (λ fs '(filename, content), <[PyText.path_join output_path filename := content]> fs)
    (<[PyText.path_join output_path "index.md" := index_content]> fs)
    chapter_files.

End CombineExec.

(** ** FetchRepo.prep: the name of the project *)

Module FetchRepo.

(** The truth value of an optional [str]: [None] and [""] are false. *)
Definition truthy (s : option string) : bool :=
  match s with
  | Some (String _ _) => true
  | _ => false
  end.

(** Line 100: [repo_url.split('/')[-1].replace('.git', '')] *)
Definition name_from_url (repo_url : string) : string :=
  PyText.replace ".git" EmptyString (List.last (Py.split_list "/" repo_url) EmptyString).

(** Lines 93-103: the project name that [prep] leaves in [shared].
    [local_name] stands for [os.path.basename(os.path.abspath(local_dir))]. *)
Definition project_name (shared_project_name repo_url : option string)
    (local_name : string) : string :=
  if truthy shared_project_name then default EmptyString shared_project_name
  else if truthy repo_url then name_from_url (default EmptyString repo_url)
  else local_name.

End FetchRepo.

(** ** crawl_local_files: which files are kept *)

Module CrawlLocal.

(** A file that [os.walk] reaches: the path that the patterns are matched
    against and that the result names it by (line 33, the path relative to
    the directory when [use_relative_paths] is set, as [FetchRepo] sets
    it); its size, [None] when [os.path.getsize] raises [OSError] (a
    symbolic link whose target is missing); and what reading it as UTF-8
    text gives, [None] when [open] or [read] raises. *)
Record walked_file : Type := WalkedFile {
  relpath : string;
  file_size : option Z;
  file_text : option string
}.

Section crawl.

(** [fnmatch.fnmatch(name, pattern)] *)
Variable fnmatch : string → string → bool.

(** Lines 38-45: [included]. A pattern set that is [None] or empty is the
    list [[]]. *)
Definition included (include_patterns : list string) (path : string) : bool :=
  match include_patterns with
  | [] => true
  | _ :: _ => existsb (fnmatch path) include_patterns
  end.

(** Lines 48-53: [excluded]. *)
Definition excluded (exclude_patterns : list string) (path : string) : bool :=
  match exclude_patterns with
  | [] => false
  | _ :: _ => existsb (fnmatch path) exclude_patterns
  end.

(** Line 59: [max_file_size and os.path.getsize(filepath) > max_file_size].
    [None] and 0 put no limit, and the size is then not asked for.
    Otherwise the size is asked for, outside every [try]: the outer [None]
    stands for the [OSError] of [getsize]. *)
Definition too_large (max_file_size : option Z) (size : option Z) : option bool :=
  match max_file_size with
  | None => Some false
  | Some limit =>
      if (limit =? 0)%Z then Some false
      else size ← size; Some (limit <? size)%Z
  end.

(** Lines 28-67: the body of the loop over the files, on [files_dict];
    [None] when [getsize] raises. A file that cannot be read is passed
    over by the [except] of lines 66-67. *)
Definition crawl_step (include_patterns exclude_patterns : list string)
    (max_file_size : option Z) (files_dict : gmap string string) (f : walked_file)
    : option (gmap string string) :=
  if negb (included include_patterns (relpath f)) || excluded exclude_patterns (relpath f)
  then Some files_dict
  else
    large ← too_large max_file_size (file_size f);
    if large : bool then Some files_dict
    else match file_text f with
         | Some content => Some (<[relpath f := content]> files_dict)
         | None => Some files_dict
         end.

(** Lines 25-69: [files_dict] for the files that the walk over an existing
    directory reaches, in the order of the walk; [None] when the crawl ends
    with the [OSError] of [getsize]. *)
Definition crawl_local_files (walk : list walked_file)
    (include_patterns exclude_patterns : list string) (max_file_size : option Z)
    : option (gmap string string) :=
  foldl (λ files_dict f,
           files_dict ← files_dict;
           crawl_step include_patterns exclude_patterns max_file_size files_dict f)
        (Some ∅) walk.

End crawl.

End CrawlLocal.

(** ** Vocabulary of the statements on whole stages *)

(** The item [item] of an abstraction-identifier response is well formed
    for [file_count] files, and [abstr] is the abstraction it stands for. *)
Definition item_accepted (file_count : nat) (item : yaml) (abstr : abstraction) : Prop :=
  ∃ kvs item_name descr idx_entries idxs,
    item = YMap kvs
    ∧ Yaml.get "name" kvs = Some item_name
    ∧ Yaml.get "description" kvs = Some (YStr descr)
    ∧ Yaml.get "file_indices" kvs = Some (YSeq idx_entries)
    ∧ Forall2 (λ idx_entry idx, IdentifyAbstractions.coerce_index idx_entry = Ok idx)
        idx_entries idxs
    ∧ Forall (λ idx, (0 ≤ idx < Z.of_nat file_count)%Z) idxs
    ∧ abstr = {| name := item_name; description := descr; files := sorted_set idxs |}.

(** The relationship [rel] of a response is well formed for a bound of
    [num_abstractions], and [r] is the edge it stands for. *)
Definition rel_accepted (num_abstractions : nat) (rel : yaml) (r : relationship) : Prop :=
  ∃ kvs from_abstraction to_abstraction,
    rel = YMap kvs
    ∧ Yaml.get "from_abstraction" kvs = Some from_abstraction
    ∧ Yaml.get "to_abstraction" kvs = Some to_abstraction
    ∧ Yaml.get "label" kvs = Some (YStr (rel_label r))
    ∧ AnalyzeRelationships.coerce_index from_abstraction = Ok (rel_from r)
    ∧ AnalyzeRelationships.coerce_index to_abstraction = Ok (rel_to r)
    ∧ (0 ≤ rel_from r < Z.of_nat num_abstractions)%Z
    ∧ (0 ≤ rel_to r < Z.of_nat num_abstractions)%Z.

(** The number, name and filename of the chapter at position [k] of a
    chapter order. *)
Definition chapter_info_at (chapter_order : list Z) (abstractions : list WritePrep.details)
    (k : nat) : option WritePrep.chapter_info :=
  abstraction_index ← chapter_order !! k;
  abstr ← abstractions !! Z.to_nat abstraction_index;
  Some {| WritePrep.info_num := k + 1;
          WritePrep.info_name := WritePrep.d_name abstr;
          WritePrep.info_filename :=
            WriteChapters.chapter_filename k (WritePrep.d_name abstr) |}.

(** [chapter_order] names positions of [n] abstractions, none twice. *)
Definition valid_order (n : nat) (chapter_order : list Z) : Prop :=
  NoDup chapter_order ∧ Forall (λ idx, (0 ≤ idx < Z.of_nat n)%Z) chapter_order.

(** The walked file [f] passes the tests of the local crawl and can be
    read as [content]. *)
Definition crawl_kept (fnmatch : string → string → bool)
    (include_patterns exclude_patterns : list string) (max_file_size : option Z)
    (f : CrawlLocal.walked_file) (content : string) : Prop :=
  CrawlLocal.included fnmatch include_patterns (CrawlLocal.relpath f) = true
  ∧ CrawlLocal.excluded fnmatch exclude_patterns (CrawlLocal.relpath f) = false
  ∧ CrawlLocal.too_large max_file_size (CrawlLocal.file_size f) = Some false
  ∧ CrawlLocal.file_text f = Some content.

(** The walked file [f] passes the pattern tests of the local crawl, and
    the size test that follows them asks for a size that cannot be had. *)
Definition crawl_stopped (fnmatch : string → string → bool)
    (include_patterns exclude_patterns : list string) (max_file_size : option Z)
    (f : CrawlLocal.walked_file) : Prop :=
  CrawlLocal.included fnmatch include_patterns (CrawlLocal.relpath f) = true
  ∧ CrawlLocal.excluded fnmatch exclude_patterns (CrawlLocal.relpath f) = false
  ∧ CrawlLocal.too_large max_file_size (CrawlLocal.file_size f) = None.

(** The values that the f-string of a message shows, each through [str] or
    [repr]. *)
Definition shown_values (msg : message) : list yaml :=
  match msg with
  | InvalidLiteral s => [YStr s]
  | MissingKeys item | DescriptionNotString item | FileIndicesNotList item => [item]
  | InvalidFileIndex idx item_name max_index => [YInt idx; item_name; YInt max_index]
  | CouldNotParseIndex idx_entry item_name => [idx_entry; item_name]
  | RelMissingKeys rel | RelLabelNotString rel | CouldNotParseRel rel => [rel]
  | InvalidRelIndex from_idx to_idx max_index => [YInt from_idx; YInt to_idx; YInt max_index]
  | InvalidOrderIndex idx max_index => [YInt idx; YInt max_index]
  | DuplicateIndex idx => [YInt idx]
  | CouldNotParseEntry entry => [entry]
  | LengthMismatch len num_abstractions missing =>
      YInt (Z.of_nat len) :: YInt num_abstractions :: (YInt <$> elements missing)
  | ExceedsLimit _ | OutputNotList | NotDictOrMissingKeys | SummaryNotString
  | RelationshipsNotList | OrderNotList => []
  end.

(** Every value that the message shows is within the conversion limit:
    building its text raises nothing, and the exception that carries the
    message is the one raised. *)
Definition message_within_limit (msg : message) : Prop :=
  Forall (λ v, Sys.within_limit v = true) (shown_values msg).

(** The entries of [file_indices] of an item of an abstraction-identifier
    response. *)
Definition index_entries (item : yaml) : list yaml :=
  match item with
  | YMap kvs =>
      match Yaml.get "file_indices" kvs with
      | Some (YSeq idx_entries) => idx_entries
      | _ => []
      end
  | _ => []
  end.

(** No entry of a [file_indices] list of the response is a boolean. *)
Definition boolean_free_indices (abstractions : yaml) : bool :=
  match abstractions with
  | YSeq items =>
      forallb (λ item, forallb (λ idx_entry, negb (Yaml.is_bool idx_entry))
                         (index_entries item)) items
  | _ => true
  end.


(** ** Vocabulary of the statements *)

(** The name of an abstraction, as the prompts show it, holds no newline. *)
Definition single_line_name (abstr : abstraction) : Prop :=
  Py.contains Py.LF (Yaml.str (name abstr)) = false.

(** [idx] is the position of an abstraction of the list. *)
Definition is_abstraction_index (abstractions : list abstraction) (idx : Z) : Prop :=
  (0 ≤ idx < Z.of_nat (length abstractions))%Z
  ∧ is_Some (abstractions !! Z.to_nat idx).

(** The number of newlines a text ends with. The attribution opens with a
    dash, so a chapter document has [trailing_newlines body - 1] blank
    lines before it, [body] being the text the attribution is appended
    to. *)
Fixpoint trailing_newlines (s : string) : nat :=
  match s with
  | EmptyString => 0
  | String c r =>
      let k := trailing_newlines r in
      if (k =? String.length r) && Ascii.eqb c Py.LF then S k else k
  end.

(** The newlines of the names, all together. *)
Fixpoint name_newlines (abstractions : list abstraction) : nat :=
  match abstractions with
  | [] => 0
  | abstr :: rest => Py.count Py.LF (Yaml.str (name abstr)) + name_newlines rest
  end.

(** What the index [i] contributes to the content map: the key [k] made of
    the index and the path of file [i], and the content [v] of that file. *)
Definition entry_of (files_data : list (string * string)) (i : Z) (k v : string) : Prop :=
  ∃ path, (0 ≤ i)%Z ∧ files_data !! Z.to_nat i = Some (path, v) ∧ k = content_key i path.

(** ** Inputs used in the examples *)

(** An abstraction item named X, with the given [file_indices]. *)
Definition example_item (idx_entries : list yaml) : yaml :=
  YMap [(YStr "name", YStr "X");
        (YStr "description", YStr "d");
        (YStr "file_indices", YSeq idx_entries)].

(** A relationship from [from_abstraction] to the abstraction 0. *)
Definition example_relationship (from_abstraction : yaml) : yaml :=
  YMap [(YStr "from_abstraction", from_abstraction);
        (YStr "to_abstraction", YInt 0);
        (YStr "label", YStr "uses")].

(** Two abstractions, X and Y, and a response that relates them. *)
Definition example_abstractions : list abstraction :=
  [Abstraction (YStr "X") "dx" [0; 1]%Z; Abstraction (YStr "Y") "dy" [2]%Z].

Definition example_relationships : yaml :=
  YMap [(YStr "summary", YStr "s");
        (YStr "relationships",
         YSeq [YMap [(YStr "from_abstraction", YStr "0 # X");
                     (YStr "to_abstraction", YInt 1);
                     (YStr "label", YStr "uses")]])].

(** * Facts about the string primitives *)

Module PyFacts.
Import Py.

Lemma app_nil_l s : EmptyString +:+ s = s.
Proof. reflexivity. Qed.

Lemma app_cons c a b : String c a +:+ b = String c (a +:+ b).
Proof. reflexivity. Qed.

Lemma app_nil_r s : s +:+ EmptyString = s.
Proof. induction s as [|c s IH]; [done|]. by rewrite app_cons, IH. Qed.

Lemma app_assoc a b c : (a +:+ b) +:+ c = a +:+ (b +:+ c).
Proof. induction a as [|d a IH]; [done|]. by rewrite !app_cons, IH. Qed.

Lemma all_chars_app p a b :
  all_chars p (a +:+ b) = all_chars p a && all_chars p b.
Proof.
  induction a as [|c a IH]; [done|].
  rewrite app_cons. simpl. rewrite IH. by rewrite andb_assoc.
Qed.

Lemma all_chars_impl (p q : ascii → bool) s :
  (∀ c, p c = true → q c = true) → all_chars p s = true → all_chars q s = true.
Proof.
  intros Hpq. induction s as [|c s IH]; simpl; [done|].
  rewrite !andb_true_iff. intros [? ?]. auto.
Qed.

Lemma uint_digits d : all_chars isdecimal (NilEmpty.string_of_uint d) = true.
Proof. induction d; simpl; auto. Qed.

Lemma str_N_digits n : all_chars isdecimal (str_N n) = true.
Proof. apply uint_digits. Qed.

Lemma to_uint_not_nil n : N.to_uint n ≠ Nil.
Proof.
  destruct n as [|p]; simpl; [discriminate|].
  apply DecimalPos.Unsigned.to_uint_nonnil.
Qed.

Lemma str_N_not_empty n : str_N n ≠ EmptyString.
Proof.
  unfold str_N. pose proof (to_uint_not_nil n) as H.
  destruct (N.to_uint n); simpl; congruence.
Qed.

Lemma isdecimal_not_space c : isdecimal c = true → isspace c = false.
Proof. destruct c as [[] [] [] [] [] [] [] []]; vm_compute; congruence. Qed.

Lemma contains_all_chars p c s :
  p c = false → all_chars p s = true → contains c s = false.
Proof.
  intros Hc. induction s as [|d s IH]; simpl; [done|].
  rewrite andb_true_iff. intros [Hd Hs].
  destruct (Ascii.eqb_spec d c) as [->|_]; [congruence|]. by apply IH.
Qed.

Lemma contains_app c a b :
  contains c (a +:+ b) = contains c a || contains c b.
Proof.
  induction a as [|d a IH]; [done|].
  rewrite app_cons. simpl. rewrite IH. by rewrite orb_assoc.
Qed.

Lemma lstrip_no_space s :
  all_chars (λ c, negb (isspace c)) s = true → lstrip s = s.
Proof. destruct s as [|c s]; simpl; [done|]. by destruct (isspace c). Qed.

Lemma rstrip_no_space s :
  all_chars (λ c, negb (isspace c)) s = true → rstrip s = s.
Proof.
  induction s as [|c s IH]; simpl; [done|].
  rewrite andb_true_iff. intros [Hc Hs]. rewrite IH by done.
  destruct s; [|done]. by destruct (isspace c).
Qed.

Lemma strip_no_space s :
  all_chars (λ c, negb (isspace c)) s = true → strip s = s.
Proof.
  intros H. unfold strip. rewrite lstrip_no_space by done. by apply rstrip_no_space.
Qed.

Lemma split_no_sep sep s : contains sep s = false → split sep s = (s, []).
Proof.
  induction s as [|c s IH]; simpl; [done|].
  rewrite orb_false_iff. intros [Hc Hs]. rewrite IH by done. by rewrite Hc.
Qed.

Lemma split_head_no_sep sep s : contains sep s = false → split_head sep s = s.
Proof. intros H. unfold split_head. by rewrite split_no_sep. Qed.

Lemma split_head_app sep a b :
  contains sep a = false → split_head sep (a +:+ String sep b) = a.
Proof.
  unfold split_head. induction a as [|c a IH].
  - intros _. rewrite app_nil_l. simpl. destruct (split sep b).
    by rewrite Ascii.eqb_refl.
  - simpl. rewrite orb_false_iff. intros [Hc Ha]. specialize (IH Ha).
    destruct (split sep (a +:+ String sep b)) as [h t]; simpl in *.
    rewrite Hc. simpl. by f_equal.
Qed.

Lemma length_split_list sep s : length (split_list sep s) = S (count sep s).
Proof.
  unfold split_list. induction s as [|c s IH]; simpl; [done|].
  destruct (split sep s) as [h t]. simpl in IH.
  destruct (Ascii.eqb c sep); simpl; lia.
Qed.

Lemma count_app c a b : count c (a +:+ b) = count c a + count c b.
Proof.
  induction a as [|d a IH]; [done|].
  rewrite app_cons. simpl. rewrite IH. lia.
Qed.

Lemma count_zero c s : count c s = 0 ↔ contains c s = false.
Proof.
  induction s as [|d s IH]; simpl; [done|].
  destruct (Ascii.eqb d c); simpl; [split; [lia|done]|done].
Qed.

Lemma drop_underscores_digits b s :
  all_chars isdecimal s = true → drop_underscores b s = Some s.
Proof.
  revert b. induction s as [|c s IH]; intros b; simpl; [done|].
  rewrite andb_true_iff. intros [Hc Hs].
  destruct (Ascii.eqb_spec c UNDERSCORE) as [->|_]; [discriminate|].
  by rewrite IH.
Qed.

Lemma int_digits_uint d :
  d ≠ Nil → int_digits (NilEmpty.string_of_uint d) = Some (Z.of_N (N.of_uint d)).
Proof.
  intros Hd. unfold int_digits.
  rewrite drop_underscores_digits by apply uint_digits.
  rewrite NilEmpty.usu. by destruct d.
Qed.

Lemma int_digits_str_N n : int_digits (str_N n) = Some (Z.of_N n).
Proof.
  unfold str_N. rewrite int_digits_uint by apply to_uint_not_nil.
  by rewrite DecimalN.Unsigned.of_to.
Qed.

Lemma digits_no_space s :
  all_chars isdecimal s = true → all_chars (λ c, negb (isspace c)) s = true.
Proof.
  apply all_chars_impl. intros c Hc. by rewrite isdecimal_not_space.
Qed.

Lemma int_of_digits s :
  all_chars isdecimal s = true → s ≠ EmptyString → Py.int s = int_digits s.
Proof.
  intros Hs Hne. unfold Py.int. rewrite strip_no_space by by apply digits_no_space.
  destruct s as [|c s]; [done|]. simpl in Hs. apply andb_true_iff in Hs as [Hc _].
  destruct (Ascii.eqb_spec c "+") as [->|_]; [discriminate|].
  destruct (Ascii.eqb_spec c "-") as [->|_]; [discriminate|]. done.
Qed.

Lemma int_str_N n : Py.int (str_N n) = Some (Z.of_N n).
Proof.
  rewrite int_of_digits; auto using str_N_digits, str_N_not_empty, int_digits_str_N.
Qed.

Lemma str_Z_no_space z : all_chars (λ c, negb (isspace c)) (str_Z z) = true.
Proof.
  destruct z; simpl; auto using digits_no_space, str_N_digits.
Qed.

(** [int(str(z)) == z] *)
Lemma int_str_Z z : Py.int (str_Z z) = Some z.
Proof.
  destruct z as [|p|p].
  - done.
  - change (str_Z (Z.pos p)) with (str_N (N.pos p)). by rewrite int_str_N.
  - unfold Py.int. rewrite strip_no_space by apply str_Z_no_space.
    simpl. by rewrite int_digits_str_N.
Qed.

Lemma str_Z_inj z1 z2 : str_Z z1 = str_Z z2 → z1 = z2.
Proof.
  intros H. apply (f_equal Py.int) in H. rewrite !int_str_Z in H. congruence.
Qed.

End PyFacts.

(** * The context helper *)

Section get_content.
Import Py PyFacts.

Lemma content_key_index i path : split_head SPACE (content_key i path) = str_Z i.
Proof.
  unfold content_key. change (" # " +:+ path) with (String SPACE ("# " +:+ path)).
  apply split_head_app.
  apply (contains_all_chars (λ c, negb (isspace c))); [done|apply str_Z_no_space].
Qed.

(** The key tells the index: two entries with one key are one entry. *)
Lemma content_key_inj i j p q : content_key i p = content_key j q → i = j.
Proof.
  intros H. apply (f_equal (split_head SPACE)) in H.
  rewrite !content_key_index in H. by apply str_Z_inj.
Qed.

Variable files_data : list (string * string).

Lemma entry_of_functional i j k v w :
  entry_of files_data i k v → entry_of files_data j k w → i = j ∧ v = w.
Proof.
  intros (p & Hi & Hp & ->) (q & Hj & Hq & Hk).
  apply content_key_inj in Hk as ->. split; [done|]. congruence.
Qed.

Lemma get_content_snoc indices i :
  get_content_for_indices files_data (indices ++ [i]) =
  let content_map := get_content_for_indices files_data indices in
  if bool_decide (0 ≤ i < Z.of_nat (length files_data))%Z then
    match files_data !! Z.to_nat i with
    | Some (path, content) => <[content_key i path := content]> content_map
    | None => content_map
    end
  else content_map.
Proof. unfold get_content_for_indices. by rewrite foldl_app. Qed.

Lemma get_content_lookup indices k v :
  get_content_for_indices files_data indices !! k = Some v ↔
  ∃ i, i ∈ indices ∧ entry_of files_data i k v.
Proof.
  induction indices as [|i indices IH] using rev_ind.
  - split; [done|]. intros (i & Hi & _). by apply elem_of_nil in Hi.
  - rewrite get_content_snoc. cbv zeta.
    assert (Hold : (∃ j, j ∈ indices ∧ entry_of files_data j k v) →
                   ∃ j, j ∈ indices ++ [i] ∧ entry_of files_data j k v).
    { intros (j & Hj & He). exists j. split; [|done]. apply elem_of_app. by left. }
    case_bool_decide as Hrange.
    + destruct (files_data !! Z.to_nat i) as [[path content]|] eqn:Hfile.
      * destruct (decide (content_key i path = k)) as [<-|Hne].
        -- rewrite lookup_insert_eq. split.
           ++ intros [= <-]. exists i. split; [apply elem_of_app; right; by apply list_elem_of_singleton|].
              exists path. split_and!; [lia|done|done].
           ++ intros (j & _ & He).
              assert (entry_of files_data i (content_key i path) content) as Hi.
              { exists path. split_and!; [lia|done|done]. }
              destruct (entry_of_functional _ _ _ _ _ Hi He) as [_ ->]. done.
        -- rewrite lookup_insert_ne by done. rewrite IH. split; [done|].
           intros (j & Hj & He). apply elem_of_app in Hj as [Hj|Hj]; [by exists j|].
           apply list_elem_of_singleton in Hj as ->.
           destruct He as (p & _ & Hp & ->). congruence.
      * apply lookup_ge_None in Hfile. lia.
    + rewrite IH. split; [done|].
      intros (j & Hj & He). apply elem_of_app in Hj as [Hj|Hj]; [by exists j|].
      apply list_elem_of_singleton in Hj as ->.
      destruct He as (p & Hi & Hp & _). apply lookup_lt_Some in Hp. lia.
Qed.

End get_content.

(** C9. For every file list and every collection of requested indices,
    [get_content_for_indices] returns a mapping (it is a total function, so
    it never fails) whose entries are exactly these: for each requested
    index [i] that lies in [0, len(files_data)), the key ["<i> # <path>"]
    mapped to the content of file [i]. A requested index outside that range
    contributes no entry, and a repeated one contributes one. *)
Theorem get_content_for_indices_exact
    (files_data : list (string * string)) (indices : list Z) (k v : string) :
  get_content_for_indices files_data indices !! k = Some v ↔
  ∃ i path, i ∈ indices ∧ (0 ≤ i < Z.of_nat (length files_data))%Z
            ∧ files_data !! Z.to_nat i = Some (path, v)
            ∧ k = Py.str_Z i +:+ " # " +:+ path.
Proof.
  rewrite get_content_lookup. split.
  - intros (i & Hi & path & H0 & Hp & ->). exists i, path.
    split_and!; try done. apply lookup_lt_Some in Hp. lia.
  - intros (i & path & Hi & Hr & Hp & ->). exists i. split; [done|].
    exists path. split_and!; [lia|done|done].
Qed.

(** * What the [try] blocks let through *)

Lemma try_except_raise {A} (body : result A) (e : exc) :
  (∃ a, body = Ok a ∧ try_except body (Raise e) = Ok a)
  ∨ ((∃ e', body = Raise e') ∧ try_except body (Raise e) = Raise e).
Proof.
  destruct body as [a|[[] m]]; simpl; [left|right|right]; eauto.
Qed.

Lemma bind_ok {A B} (m : result A) (k : A → result B) b :
  (x ← m; k x) = Ok b ↔ ∃ a, m = Ok a ∧ k a = Ok b.
Proof.
  destruct m as [a|e]; simpl; split.
  - intros H. by exists a.
  - by intros (a' & [= <-] & H).
  - done.
  - by intros (a' & [=] & _).
Qed.

Lemma for_each_ok {A B} (f : A → result B) l ys :
  for_each f l = Ok ys ↔ Forall2 (λ x y, f x = Ok y) l ys.
Proof.
  revert ys. induction l as [|x l IH]; intros ys; simpl.
  - split; [intros [= <-]; constructor|]. by intros ->%Forall2_nil_inv_l.
  - rewrite bind_ok. split.
    + intros (y & Hy & H). apply bind_ok in H as (ys' & Hys & [= <-]).
      constructor; [done|]. by apply IH.
    + intros (y & ys' & Hy & Hys & ->)%Forall2_cons_inv_l.
      exists y. split; [done|]. apply bind_ok. exists ys'. split; [|done]. by apply IH.
Qed.

Module IdentifyFacts.
Import IdentifyAbstractions.

(** The only exception the loop body lets out is the one its handler
    raises; the range check's own message never leaves the [try]. *)
Lemma validate_index_cases file_count item_name idx_entry :
  (∃ idx, coerce_index idx_entry = Ok idx ∧ (0 ≤ idx < Z.of_nat file_count)%Z
          ∧ validate_index file_count item_name idx_entry = Ok idx)
  ∨ validate_index file_count item_name idx_entry
    = raise_value_error (CouldNotParseIndex idx_entry item_name).
Proof.
  unfold validate_index.
  destruct (try_except_raise
    (idx ← coerce_index idx_entry;
     if negb ((0 <=? idx) && (idx <? Z.of_nat file_count))%Z
     then raise_value_error (InvalidFileIndex idx item_name (Z.of_nat file_count - 1))
     else Ok idx)
    (Exc ValueError (CouldNotParseIndex idx_entry item_name)))
    as [(idx & Hbody & Htry)|[_ Htry]]; [left|by right].
  exists idx. apply bind_ok in Hbody as (idx' & Hc & Hr).
  destruct (negb _) eqn:Hrange; [done|]. injection Hr as ->.
  apply negb_false_iff, andb_true_iff in Hrange as [?%Z.leb_le ?%Z.ltb_lt].
  split_and!; try done; lia.
Qed.

Lemma validate_index_ok file_count item_name idx_entry idx :
  validate_index file_count item_name idx_entry = Ok idx ↔
  coerce_index idx_entry = Ok idx ∧ (0 ≤ idx < Z.of_nat file_count)%Z.
Proof.
  split.
  - intros H.
    destruct (validate_index_cases file_count item_name idx_entry)
      as [(i & Hc & Hr & Hv)|Hv]; rewrite Hv in H; [|done].
    injection H as <-. done.
  - intros [Hc Hr]. unfold validate_index. rewrite Hc. simpl.
    assert (((0 <=? idx) && (idx <? Z.of_nat file_count))%Z = true) as ->; [|done].
    apply andb_true_iff. split; [apply Z.leb_le|apply Z.ltb_lt]; lia.
Qed.

(** An index that was read but lies outside [0, file_count) ends in the
    same exception as an entry that could not be read at all. *)
Lemma validate_index_out_of_range file_count item_name idx_entry idx :
  coerce_index idx_entry = Ok idx → ¬ (0 ≤ idx < Z.of_nat file_count)%Z →
  validate_index file_count item_name idx_entry
  = raise_value_error (CouldNotParseIndex idx_entry item_name).
Proof.
  intros Hc Hr.
  destruct (validate_index_cases file_count item_name idx_entry)
    as [(i & Hc' & Hr' & _)|Hv]; [|done].
  rewrite Hc in Hc'. injection Hc' as <-. done.
Qed.

Lemma validate_index_unreadable file_count item_name idx_entry e :
  coerce_index idx_entry = Raise e →
  validate_index file_count item_name idx_entry
  = raise_value_error (CouldNotParseIndex idx_entry item_name).
Proof.
  intros Hc.
  destruct (validate_index_cases file_count item_name idx_entry)
    as [(i & Hc' & _)|Hv]; [congruence|done].
Qed.

Lemma validate_item_ok file_count item abstr :
  validate_item file_count item = Ok abstr →
  ∃ kvs item_name descr idx_entries idxs,
    item = YMap kvs
    ∧ Yaml.get "name" kvs = Some item_name
    ∧ Yaml.get "description" kvs = Some (YStr descr)
    ∧ Yaml.get "file_indices" kvs = Some (YSeq idx_entries)
    ∧ Forall2 (λ idx_entry idx,
         coerce_index idx_entry = Ok idx ∧ (0 ≤ idx < Z.of_nat file_count)%Z)
        idx_entries idxs
    ∧ abstr = {| name := item_name; description := descr; files := sorted_set idxs |}.
Proof.
  unfold validate_item. intros H.
  destruct item as [| | | | | |kvs]; try done.
  destruct (Yaml.get "name" kvs) as [item_name|] eqn:Hname; [|done].
  destruct (Yaml.get "description" kvs) as [item_description|] eqn:Hdescr; [|done].
  destruct (Yaml.get "file_indices" kvs) as [file_indices|] eqn:Hfiles; [|done].
  destruct item_description as [| | | |descr| |]; try done.
  destruct file_indices as [| | | | |idx_entries|]; try done.
  apply bind_ok in H as (idxs & Hloop & [= <-]).
  exists kvs, item_name, descr, idx_entries, idxs. split_and!; try done.
  apply for_each_ok in Hloop. eapply Forall2_impl; [done|].
  intros idx_entry idx. apply validate_index_ok.
Qed.

End IdentifyFacts.

(** C1 (the code differs from the claim). With three files, an abstraction
    named X whose [file_indices] holds the out-of-range index 5 makes the
    stage fail with "Could not parse index from entry: 5 in item X": the
    exception of an entry that cannot be read as an integer, here shown on
    the entry "abc". The message names neither the valid range nor a kind
    of its own; "Invalid file index 5 ... Max index is 2." is raised inside
    the [try] and replaced by its handler. *)
Theorem out_of_range_file_index_ends_as_unparsable :
  IdentifyAbstractions.exec_validate 3 (YSeq [example_item [YInt 5]])
  = Raise (Exc ValueError (CouldNotParseIndex (YInt 5) (YStr "X")))
  ∧ IdentifyAbstractions.exec_validate 3 (YSeq [example_item [YStr "abc"]])
    = Raise (Exc ValueError (CouldNotParseIndex (YStr "abc") (YStr "X"))).
Proof. split; vm_compute; reflexivity. Qed.

Module OrderFacts.
Import OrderChapters.

Lemma loop_body_cases num_abstractions ordered_indices seen_indices entry :
  (∃ idx, coerce_index entry = Ok idx ∧ (0 ≤ idx < Z.of_nat num_abstractions)%Z
          ∧ (idx ∉ seen_indices)
          ∧ loop_body num_abstractions (ordered_indices, seen_indices) entry
            = Ok (ordered_indices ++ [idx], seen_indices ∪ {[idx]}))
  ∨ loop_body num_abstractions (ordered_indices, seen_indices) entry
    = raise_value_error (CouldNotParseEntry entry).
Proof.
  unfold loop_body.
  match goal with |- context [try_except ?b (raise_value_error ?m)] =>
    destruct (try_except_raise b (Exc ValueError m)) as [(st & Hbody & Htry)|[_ Htry]]
  end; [left|by right].
  apply bind_ok in Hbody as (idx & Hc & Hr). exists idx.
  destruct (negb _) eqn:Hrange; [done|].
  case_bool_decide as Hseen; [done|]. injection Hr as <-.
  apply negb_false_iff, andb_true_iff in Hrange as [?%Z.leb_le ?%Z.ltb_lt].
  split_and!; try done; lia.
Qed.

(** [seen_indices] is the set of the entries of [ordered_indices]. *)
Lemma loop_seen num_abstractions entries ordered0 seen0 ordered seen :
  loop num_abstractions (ordered0, seen0) entries = Ok (ordered, seen) →
  seen0 = list_to_set ordered0 → seen = list_to_set ordered.
Proof.
  revert ordered0 seen0. induction entries as [|entry entries IH]; intros ordered0 seen0.
  - simpl. by intros [= <- <-].
  - cbn [loop]. intros H Hseen. apply bind_ok in H as ([ordered1 seen1] & Hbody & Hloop).
    destruct (loop_body_cases num_abstractions ordered0 seen0 entry)
      as [(idx & _ & _ & _ & Hb)|Hb]; rewrite Hb in Hbody; [|done].
    injection Hbody as <- <-. apply (IH _ _ Hloop).
    rewrite list_to_set_app_L, Hseen. simpl. by rewrite union_empty_r_L.
Qed.

Lemma elem_of_range_set n x : x ∈ range_set n ↔ (0 ≤ x < Z.of_nat n)%Z.
Proof. unfold range_set. rewrite elem_of_list_to_set, elem_of_seqZ. lia. Qed.

End OrderFacts.

(** C3 (the code differs from the claim). For two abstractions the order
    [0, 0, 1] does fail at its second entry, before the length check, but
    with "Could not parse index from ordered list entry: 0", the exception
    of an unreadable entry (shown on the order ["x"]): "Duplicate index 0
    found in ordered list." is raised inside the [try] and replaced by its
    handler. *)
Theorem duplicate_index_ends_as_unparsable :
  OrderChapters.exec_validate 2 (YSeq [YInt 0; YInt 0; YInt 1])
  = Raise (Exc ValueError (CouldNotParseEntry (YInt 0)))
  ∧ OrderChapters.loop_body 2 ([0%Z], {[0%Z]}) (YInt 0)
    = Raise (Exc ValueError (CouldNotParseEntry (YInt 0)))
  ∧ OrderChapters.exec_validate 2 (YSeq [YStr "x"])
    = Raise (Exc ValueError (CouldNotParseEntry (YStr "x"))).
Proof. split_and!; vm_compute; reflexivity. Qed.

(** C4. For two abstractions the order [0] fails with the length-mismatch
    exception, whose message shows the missing indices {1}. In general,
    when the loop ends without an exception and the order's length is not
    the number of abstractions, the exception shows
    [set(range(n)) - seen_indices], where [seen_indices] holds the indices
    of the order: the indices of [0, n) that the order leaves out. *)
Theorem order_reports_missing_indices :
  OrderChapters.exec_validate 2 (YSeq [YInt 0])
  = Raise (Exc ValueError (LengthMismatch 1 2 {[1%Z]}))
  ∧ ∀ (n : nat) (entries : list yaml) (ordered : list Z) (seen : gset Z),
      OrderChapters.loop n ([], ∅) entries = Ok (ordered, seen) →
      length ordered ≠ n →
      OrderChapters.exec_validate n (YSeq entries)
      = Raise (Exc ValueError
                 (LengthMismatch (length ordered) (Z.of_nat n)
                    (OrderChapters.range_set n ∖ seen)))
      ∧ seen = list_to_set ordered
      ∧ ∀ x, x ∈ OrderChapters.range_set n ∖ seen ↔ (0 ≤ x < Z.of_nat n)%Z ∧ x ∉ ordered.
Proof.
  split; [vm_compute; reflexivity|].
  intros n entries ordered seen Hloop Hlen.
  assert (seen = list_to_set ordered) as Hseen.
  { by apply (OrderFacts.loop_seen _ _ _ _ _ _ Hloop). }
  split_and!; [|done|].
  - unfold OrderChapters.exec_validate. rewrite Hloop. simpl.
    apply Nat.eqb_neq in Hlen. by rewrite Hlen.
  - intros x. rewrite elem_of_difference, OrderFacts.elem_of_range_set, Hseen.
    by rewrite elem_of_list_to_set.
Qed.

Lemma order_reports_missing_indices_witness :
  OrderChapters.exec_validate 2 (YSeq [YInt 0])
  = Raise (Exc ValueError
             (LengthMismatch 1 2 (OrderChapters.range_set 2 ∖ {[0%Z]}))).
Proof.
  refine (proj1 (proj2 order_reports_missing_indices 2 [YInt 0] [0%Z] {[0%Z]} _ _)).
  - vm_compute. reflexivity.
  - simpl. lia.
Defined.

(** * The two index coercions *)

Section coercions.
Import Py PyFacts.

Lemma returned_py_int s :
  Sys.decimal_digits s ≤ Sys.int_max_str_digits → returned (py_int s) = Py.int s.
Proof.
  intros Hdigits. unfold py_int. destruct (Py.int s); [|done].
  apply Nat.ltb_ge in Hdigits. by rewrite Hdigits.
Qed.

Lemma returned_py_int_None s : Py.int s = None → returned (py_int s) = None.
Proof. intros Hint. unfold py_int. by rewrite Hint. Qed.

Lemma str_Z_no_hash z : contains HASH (str_Z z) = false.
Proof.
  apply (contains_all_chars (λ c, isdecimal c || Ascii.eqb c "-")); [done|].
  assert (∀ n, all_chars (λ c, isdecimal c || Ascii.eqb c "-") (str_N n) = true) as Hn.
  { intros n. eapply all_chars_impl; [|apply str_N_digits]. by intros c ->. }
  destruct z as [|p|p]; [done|apply Hn|].
  change (str_Z (Z.neg p)) with (String "-" (str_N (N.pos p))).
  cbn [all_chars]. by rewrite Hn.
Qed.

Lemma uint_of_char_not_digit c d : isdecimal c = false → uint_of_char c d = None.
Proof.
  destruct d; [|done].
  destruct c as [[] [] [] [] [] [] [] []]; vm_compute; congruence.
Qed.

Lemma rstrip_head c r : isspace c = false → ∃ r', rstrip (String c r) = String c r'.
Proof. intros Hc. simpl. rewrite Hc. destruct (rstrip r); eauto. Qed.

Lemma strip_head c r : isspace c = false → ∃ r', strip (String c r) = String c r'.
Proof. intros Hc. unfold strip. simpl. rewrite Hc. by apply rstrip_head. Qed.

(** [int] rejects a text whose first character is no space, sign, digit
    or underscore. *)
Lemma int_head_rejected c r :
  isspace c = false → isdecimal c = false →
  Ascii.eqb c "+" = false → Ascii.eqb c "-" = false → Ascii.eqb c UNDERSCORE = false →
  Py.int (String c r) = None.
Proof.
  intros Hsp Hdec Hplus Hminus Hunder. unfold Py.int.
  destruct (strip_head c r Hsp) as [r' ->]. rewrite Hplus, Hminus.
  unfold int_digits. simpl. rewrite Hunder.
  destruct (drop_underscores (isdecimal c) r') as [d|]; simpl; [|done].
  by rewrite uint_of_char_not_digit.
Qed.

Lemma int_strip_head_rejected c r :
  isspace c = false → isdecimal c = false →
  Ascii.eqb c "+" = false → Ascii.eqb c "-" = false → Ascii.eqb c UNDERSCORE = false →
  Py.int (strip (String c r)) = None.
Proof.
  intros Hsp ????. destruct (strip_head c r Hsp) as [r' ->]. by apply int_head_rejected.
Qed.

Lemma split_head_cons sep c r :
  Ascii.eqb c sep = false → split_head sep (String c r) = String c (split_head sep r).
Proof.
  intros Hc. unfold split_head. simpl. destruct (split sep r). by rewrite Hc.
Qed.

End coercions.

(** Off the booleans, and within the conversion limit, the two coercions
    agree: the coercion of the Relationship Analyzer accepts what the
    coercion of the Abstraction Identifier accepts, and reads the same
    integer. *)
Lemma coercions_agree_on_other_values (v : yaml) :
  Yaml.is_bool v = false → Yaml.float_repr_ok v = true → Sys.within_limit v = true →
  returned (AnalyzeRelationships.coerce_index v)
  = returned (IdentifyAbstractions.coerce_index v).
Proof.
  intros Hbool Hfloat Hlimit.
  unfold AnalyzeRelationships.coerce_index, IdentifyAbstractions.coerce_index.
  destruct v as [|b|z|r|s|l|kvs]; try done.
  - (* an integer: its text is read back, within the limit *)
    simpl. rewrite PyFacts.split_head_no_sep by apply str_Z_no_hash.
    rewrite PyFacts.strip_no_space by apply PyFacts.str_Z_no_space.
    rewrite returned_py_int by by apply Nat.leb_le.
    by rewrite PyFacts.int_str_Z.
  - (* a float *)
    simpl in *. apply negb_true_iff in Hfloat.
    by rewrite PyFacts.split_head_no_sep.
  - (* a string *)
    simpl. destruct (Py.contains Py.HASH s) eqn:Hhash; [done|].
    by rewrite PyFacts.split_head_no_sep.
  - (* a sequence: its text opens with a bracket *)
    change (Yaml.str (YSeq l)) with
      (String "[" (Py.join ", " (map Yaml.repr l) +:+ "]")).
    rewrite split_head_cons by done.
    by rewrite !returned_py_int_None by by apply int_strip_head_rejected.
  - (* a mapping: its text opens with a brace *)
    change (Yaml.str (YMap kvs)) with
      (String "{" (Py.join ", "
         (map (λ kv, let '(k, x) := kv in Yaml.repr k +:+ ": " +:+ Yaml.repr x) kvs) +:+ "}")).
    rewrite split_head_cons by done.
    by rewrite !returned_py_int_None by by apply int_strip_head_rejected.
Qed.

(** C2 (the code differs from the claim). A YAML boolean is an [int] for
    [isinstance], so the coercion of the Abstraction Identifier accepts it
    as the index it equals, 1 for [true] and 0 for [false]; the coercion of
    the Relationship Analyzer reads [str(True)] or [str(False)], which is
    no integer literal, and rejects it. So, with three files, the
    Abstraction Identifier accepts the item X whose [file_indices] is
    [[true]], and, with three abstractions, the Relationship Analyzer
    refuses the relationship whose [from_abstraction] is [true] with "Could
    not parse indices from relationship". The two stages do not accept the
    same inputs. *)
Theorem boolean_index_accepted_by_one_stage :
  (∀ b : bool,
     IdentifyAbstractions.coerce_index (YBool b) = Ok (Z.b2z b)
     ∧ returned (AnalyzeRelationships.coerce_index (YBool b)) = None)
  ∧ (∃ validated,
       IdentifyAbstractions.exec_validate 3 (YSeq [example_item [YBool true]])
       = Ok validated)
  ∧ AnalyzeRelationships.validate_rel 3 (example_relationship (YBool true))
    = Raise (Exc ValueError (CouldNotParseRel (example_relationship (YBool true)))).
Proof.
  split_and!.
  - intros []; split; vm_compute; reflexivity.
  - eexists. vm_compute. reflexivity.
  - vm_compute. reflexivity.
Qed.

(** * The files of an abstraction *)

Section sorted_set.

Lemma StronglySorted_le_lt (l : list Z) :
  StronglySorted Z.le l → NoDup l → StronglySorted Z.lt l.
Proof.
  induction 1 as [|x l Hl IH Hx]; intros Hnd; [constructor|].
  apply NoDup_cons in Hnd as [Hnotin Hnd].
  constructor; [by apply IH|].
  apply Forall_forall. intros y Hy.
  assert (x ≠ y) by (intros ->; done).
  rewrite Forall_forall in Hx. specialize (Hx y Hy). lia.
Qed.

Lemma sorted_set_Permutation l : sorted_set l ≡ₚ elements (list_to_set l : gset Z).
Proof. apply merge_sort_Permutation. Qed.

Lemma elem_of_sorted_set l x : x ∈ sorted_set l ↔ x ∈ l.
Proof.
  rewrite sorted_set_Permutation, elem_of_elements. apply elem_of_list_to_set.
Qed.

Lemma NoDup_sorted_set l : NoDup (sorted_set l).
Proof. rewrite sorted_set_Permutation. apply NoDup_elements. Qed.

Lemma sorted_set_increasing l : StronglySorted Z.lt (sorted_set l).
Proof.
  apply StronglySorted_le_lt; [|apply NoDup_sorted_set].
  apply (StronglySorted_merge_sort Z.le).
Qed.

End sorted_set.


(** C5. Whenever the validation of an abstraction-identifier response
    succeeds, the response is a sequence of items and the output has one
    abstraction per item, in order; the [files] of each holds exactly the
    indices read from the item's [file_indices], in strictly increasing
    order, hence each of them once however often the input repeats it. *)
Theorem files_sorted_deduplicated
    (file_count : nat) (abstractions : yaml) (validated : list abstraction) :
  IdentifyAbstractions.exec_validate file_count abstractions = Ok validated →
  ∃ items, abstractions = YSeq items ∧
    Forall2 (λ item abstr,
      ∃ kvs idx_entries idxs,
        item = YMap kvs
        ∧ Yaml.get "file_indices" kvs = Some (YSeq idx_entries)
        ∧ Forall2 (λ idx_entry idx, IdentifyAbstractions.coerce_index idx_entry = Ok idx)
            idx_entries idxs
        ∧ files abstr = sorted_set idxs
        ∧ StronglySorted Z.lt (files abstr)
        ∧ NoDup (files abstr)
        ∧ ∀ idx, idx ∈ files abstr ↔ idx ∈ idxs)
      items validated.
Proof.
  unfold IdentifyAbstractions.exec_validate. intros H.
  destruct abstractions as [| | | | |items|]; try done.
  exists items. split; [done|].
  apply for_each_ok in H. eapply Forall2_impl; [done|].
  intros item abstr Hitem.
  apply IdentifyFacts.validate_item_ok in Hitem
    as (kvs & item_name & descr & idx_entries & idxs & -> & _ & _ & Hget & Hidx & ->).
  exists kvs, idx_entries, idxs. simpl. split_and!; try done.
  - eapply Forall2_impl; [done|]. by intros ?? [? _].
  - apply sorted_set_increasing.
  - apply NoDup_sorted_set.
  - intros idx. apply elem_of_sorted_set.
Qed.

Lemma files_sorted_deduplicated_witness :
  ∃ items,
    YSeq [example_item [YInt 1; YStr "0 # a.py"; YInt 1; YStr " 2 "]] = YSeq items ∧
    Forall2 (λ item abstr,
      ∃ kvs idx_entries idxs,
        item = YMap kvs
        ∧ Yaml.get "file_indices" kvs = Some (YSeq idx_entries)
        ∧ Forall2 (λ idx_entry idx, IdentifyAbstractions.coerce_index idx_entry = Ok idx)
            idx_entries idxs
        ∧ files abstr = sorted_set idxs
        ∧ StronglySorted Z.lt (files abstr)
        ∧ NoDup (files abstr)
        ∧ ∀ idx, idx ∈ files abstr ↔ idx ∈ idxs)
      items [Abstraction (YStr "X") "d" [0; 1; 2]%Z].
Proof.
  apply (files_sorted_deduplicated 3). vm_compute. reflexivity.
Defined.

(** * The heading of a chapter *)

Section headings.
Import Py PyFacts WriteChapters.

Lemma startswith_app p s : startswith (p +:+ s) p = true.
Proof.
  unfold startswith. induction p as [|c p IH]; [by destruct s|].
  rewrite app_cons. simpl. by destruct (ascii_dec c c).
Qed.

Lemma join_head sep x r : ∃ t, join sep (x :: r) = x +:+ t.
Proof.
  destruct r as [|y r]; simpl.
  - exists EmptyString. by rewrite app_nil_r.
  - eauto.
Qed.

Lemma startswith_join sep x r : startswith (join sep (x :: r)) x = true.
Proof. destruct (join_head sep x r) as [t ->]. apply startswith_app. Qed.

Lemma startswith_inv s p : startswith s p = true → ∃ t, s = p +:+ t.
Proof.
  unfold startswith. revert p. induction s as [|c s IH]; intros [|d p]; simpl; try done.
  - by exists EmptyString.
  - intros _. by exists (String c s).
  - destruct (ascii_dec d c) as [->|]; [|done].
    intros (t & ->)%IH. by exists t.
Qed.

(** Stripping on the right stops at a character that is no space. *)
Lemma rstrip_keeps a c s :
  isspace c = false →
  rstrip ((a +:+ String c EmptyString) +:+ s) = (a +:+ String c EmptyString) +:+ rstrip s.
Proof.
  intros Hc. induction a as [|d a IH].
  - rewrite !app_nil_l, !app_cons, !app_nil_l. cbn [rstrip]. rewrite Hc.
    by destruct (rstrip s).
  - rewrite !app_cons. cbn [rstrip]. rewrite IH.
    destruct a; by rewrite ?app_cons.
Qed.

Lemma digits_last s :
  s ≠ EmptyString → all_chars isdecimal s = true →
  ∃ a c, s = a +:+ String c EmptyString ∧ isdecimal c = true.
Proof.
  induction s as [|d s IH]; [done|]. intros _. simpl.
  rewrite andb_true_iff. intros [Hd Hs].
  destruct s as [|e s].
  - by exists EmptyString, d.
  - destruct IH as (a & c & -> & Hc); [done|done|].
    exists (String d a), c. by rewrite app_cons.
Qed.

(** A response that opens with "# Chapter <n>" still opens with it once
    stripped. *)
Lemma strip_keeps_chapter_prefix chapter_num t :
  startswith (strip (("# Chapter " +:+ str_nat chapter_num) +:+ t))
    ("# Chapter " +:+ str_nat chapter_num) = true.
Proof.
  destruct (digits_last (str_nat chapter_num)) as (a & c & Hn & Hc);
    [apply str_N_not_empty|apply str_N_digits|].
  rewrite Hn. rewrite <- (app_assoc "# Chapter " a).
  change ("# Chapter " +:+ a) with (String "#" (" Chapter " +:+ a)).
  unfold strip. rewrite !app_cons. cbn [lstrip]. change (isspace "#") with false.
  cbv iota. rewrite <- !app_cons.
  rewrite rstrip_keeps by by apply isdecimal_not_space.
  apply startswith_app.
Qed.

(** A response that opens with the expected heading still opens with
    "# Chapter <n>" once stripped. *)
Lemma strip_keeps_heading chapter_num abstraction_name t :
  startswith (strip (actual_heading chapter_num abstraction_name +:+ t))
    ("# Chapter " +:+ str_nat chapter_num) = true.
Proof.
  unfold actual_heading.
  rewrite <- (app_assoc "# Chapter "), app_assoc.
  apply strip_keeps_chapter_prefix.
Qed.

End headings.

(** Where the heading step meets its aim. Whenever the stripped response
    does not begin with "# Chapter <n>", or the response itself begins with
    the expected heading "# Chapter <n>: <name>", the returned text begins
    with the expected heading: in the first case the first line of the
    stripped response, when it is a heading (it begins with "#" once
    stripped), is replaced by the expected heading and the other lines of
    the stripped response follow, and otherwise the expected heading and a
    blank line are put before the response; in the second case the response
    is returned as it is. *)
Lemma fix_heading_begins_with_heading
    (chapter_num : nat) (abstraction_name chapter_content : string) :
  let stripped := Py.strip chapter_content in
  let expected := WriteChapters.actual_heading chapter_num abstraction_name in
  let fixed := WriteChapters.fix_heading chapter_num abstraction_name chapter_content in
  Py.startswith stripped ("# Chapter " +:+ Py.str_nat chapter_num) = false
  ∨ Py.startswith chapter_content expected = true →
  Py.startswith fixed expected = true
  ∧ (Py.startswith stripped ("# Chapter " +:+ Py.str_nat chapter_num) = false →
     Py.startswith (Py.strip (Py.split_head Py.LF stripped)) "#" = true →
     fixed = Py.join NL (expected :: (Py.split Py.LF stripped).2))
  ∧ (Py.startswith stripped ("# Chapter " +:+ Py.str_nat chapter_num) = false →
     Py.startswith (Py.strip (Py.split_head Py.LF stripped)) "#" = false →
     fixed = expected +:+ NL +:+ NL +:+ chapter_content)
  ∧ (Py.startswith chapter_content expected = true → fixed = chapter_content).
Proof.
  cbv zeta. intros Hcase.
  assert (Py.startswith chapter_content
            (WriteChapters.actual_heading chapter_num abstraction_name) = true →
          Py.startswith (Py.strip chapter_content)
            ("# Chapter " +:+ Py.str_nat chapter_num) = true) as Hfull.
  { intros (t & ->)%startswith_inv. apply strip_keeps_heading. }
  unfold WriteChapters.fix_heading, Py.split_head.
  destruct (Py.startswith (Py.strip chapter_content) _) eqn:Hstart.
  - destruct Hcase as [?|Hexp]; [done|]. simpl negb. cbv iota.
    split_and!; done.
  - simpl negb. cbv iota.
    destruct (Py.split Py.LF (Py.strip chapter_content)) as [first_line more_lines].
    simpl fst. simpl snd.
    destruct (Py.startswith (Py.strip first_line) "#") eqn:Hfirst.
    + split_and!; try done; [apply startswith_join|].
      intros Hexp. apply Hfull in Hexp. done.
    + split_and!; try done; [apply startswith_app|].
      intros Hexp. apply Hfull in Hexp. done.
Qed.

(** C6 (the code differs from the claim). The heading step tests the
    stripped response against "# Chapter <n>" only, not against the
    expected heading "# Chapter <n>: <name>": every response that opens
    with "# Chapter <n>" is returned as it is, whatever follows. For
    chapter 1 of the abstraction Foo, the responses "# Chapter 10: Bar"
    (the heading of another chapter, followed by a line of text) and
    "# Chapter 1 - Intro" are returned unchanged; neither begins with
    "# Chapter 1: Foo". The heading line is not replaced, although the
    code means to add the heading when it is "missing or incorrect". *)
Theorem wrong_chapter_heading_is_kept :
  (∀ (chapter_num : nat) (abstraction_name rest : string),
     WriteChapters.fix_heading chapter_num abstraction_name
       (("# Chapter " +:+ Py.str_nat chapter_num) +:+ rest)
     = ("# Chapter " +:+ Py.str_nat chapter_num) +:+ rest)
  ∧ WriteChapters.fix_heading 1 "Foo" ("# Chapter 10: Bar" +:+ NL +:+ "x")
    = "# Chapter 10: Bar" +:+ NL +:+ "x"
  ∧ Py.startswith (WriteChapters.fix_heading 1 "Foo" ("# Chapter 10: Bar" +:+ NL +:+ "x"))
      (WriteChapters.actual_heading 1 "Foo") = false
  ∧ WriteChapters.fix_heading 1 "Foo" "# Chapter 1 - Intro" = "# Chapter 1 - Intro"
  ∧ Py.startswith (WriteChapters.fix_heading 1 "Foo" "# Chapter 1 - Intro")
      (WriteChapters.actual_heading 1 "Foo") = false.
Proof.
  split_and!; try (vm_compute; reflexivity).
  intros chapter_num abstraction_name rest. unfold WriteChapters.fix_heading.
  by rewrite strip_keeps_chapter_prefix.
Qed.

(** * The attribution of a chapter *)

Section attribution.
Import Py PyFacts CombineTutorial.

Lemma length_app a b : String.length (a +:+ b) = String.length a + String.length b.
Proof. induction a as [|c a IH]; [done|]. rewrite app_cons. simpl. by rewrite IH. Qed.

Lemma trailing_newlines_le s : trailing_newlines s ≤ String.length s.
Proof.
  induction s as [|c s IH]; simpl; [done|].
  destruct (_ && _); lia.
Qed.

Lemma trailing_newlines_app_blank s :
  trailing_newlines (s +:+ NL +:+ NL) = trailing_newlines s + 2.
Proof.
  induction s as [|c s IH]; [done|].
  rewrite app_cons. cbn [trailing_newlines]. rewrite IH, length_app. cbv zeta.
  change (String.length (NL +:+ NL)) with 2.
  destruct (trailing_newlines s =? String.length s) eqn:Hall.
  - apply Nat.eqb_eq in Hall. rewrite Hall, Nat.eqb_refl. simpl.
    destruct (Ascii.eqb c LF); lia.
  - apply Nat.eqb_neq in Hall.
    assert ((trailing_newlines s + 2 =? String.length s + 2) = false) as ->.
    { apply Nat.eqb_neq. lia. }
    done.
Qed.

Lemma endswith_blank s : endswith s (NL +:+ NL) = true ↔ 2 ≤ trailing_newlines s.
Proof.
  induction s as [|c s IH]; [simpl; split; [done|lia]|].
  cbn [endswith trailing_newlines]. cbv zeta.
  pose proof (trailing_newlines_le s) as Hle.
  destruct (endswith s (NL +:+ NL)) eqn:Hends.
  - rewrite orb_true_r. split; [intros _|done].
    assert (2 ≤ trailing_newlines s) by by apply IH.
    destruct (_ && _); lia.
  - rewrite orb_false_r.
    assert (trailing_newlines s < 2) as Hlt.
    { destruct (decide (2 ≤ trailing_newlines s)) as [H|H]; [|lia].
      apply IH in H. done. }
    split.
    + intros H%String.eqb_eq.
      change (NL +:+ NL) with (String LF (String LF EmptyString)) in H.
      injection H as -> ->. vm_compute. lia.
    + intros H2.
      destruct (trailing_newlines s =? String.length s) eqn:Hall;
        destruct (Ascii.eqb_spec c LF) as [->|Hc]; simpl in H2; try lia.
      apply Nat.eqb_eq in Hall.
      assert (trailing_newlines s = 1) as H1 by lia.
      destruct s as [|d [|e s]]; simpl in *; try lia.
      destruct (Ascii.eqb d LF); [done|lia].
Qed.

End attribution.

(** C7, counterexample. A chapter text that ends with one newline gets
    two more before the attribution: three newlines, that is two blank
    lines, precede it. The same holds for a text that ends with three
    newlines, which is left as it is. *)
Lemma attribution_after_two_blank_lines :
  CombineTutorial.add_attribution ("abc" +:+ NL)
  = "abc" +:+ NL +:+ NL +:+ NL +:+ CombineTutorial.attribution
  ∧ trailing_newlines (CombineTutorial.ensure_blank_line ("abc" +:+ NL)) = 3
  ∧ trailing_newlines
      (CombineTutorial.ensure_blank_line ("abc" +:+ NL +:+ NL +:+ NL)) = 3.
Proof. split_and!; vm_compute; reflexivity. Qed.

(** C7, amended. The final chapter document is the chapter text, then two
    newlines unless the text already ends with two, then the attribution.
    So at least one blank line precedes the attribution: a text that ends
    with k newlines has k + 2 of them before the attribution when k < 2, and
    k when k >= 2; there is exactly one blank line when k is 0 or 2. *)
Theorem attribution_after_blank_line (chapter_content : string) :
  let body := CombineTutorial.ensure_blank_line chapter_content in
  let k := trailing_newlines chapter_content in
  CombineTutorial.add_attribution chapter_content = body +:+ CombineTutorial.attribution
  ∧ body = chapter_content +:+
           (if Py.endswith chapter_content (NL +:+ NL) then EmptyString else NL +:+ NL)
  ∧ trailing_newlines body = (if k <? 2 then k + 2 else k)
  ∧ 2 ≤ trailing_newlines body.
Proof.
  cbv zeta. unfold CombineTutorial.add_attribution, CombineTutorial.ensure_blank_line.
  pose proof (endswith_blank chapter_content) as Hends.
  destruct (Py.endswith chapter_content (NL +:+ NL)) eqn:He; simpl negb; cbv iota.
  - assert (2 ≤ trailing_newlines chapter_content) as H2 by by apply Hends.
    assert ((trailing_newlines chapter_content <? 2) = false) as ->
      by (apply Nat.ltb_ge; lia).
    rewrite PyFacts.app_nil_r. done.
  - assert (trailing_newlines chapter_content < 2) as H2.
    { destruct (decide (2 ≤ trailing_newlines chapter_content)) as [H|H]; [|lia].
      apply Hends in H. done. }
    assert ((trailing_newlines chapter_content <? 2) = true) as ->
      by (apply Nat.ltb_lt; lia).
    rewrite trailing_newlines_app_blank. split_and!; try done. lia.
Qed.

(** * Chapter filenames *)

Section filenames.
Import Py PyFacts WriteChapters.

Lemma format_02d_uint n :
  ∃ d, d ≠ Nil ∧ format_02d n = NilEmpty.string_of_uint d
       ∧ N.of_uint d = N.of_nat n.
Proof.
  unfold format_02d, str_nat, str_N.
  destruct (String.length _ <? 2).
  - exists (D0 (N.to_uint (N.of_nat n))). split_and!; [done|done|].
    change (N.of_uint (D0 ?d)) with (N.of_uint d).
    apply DecimalN.Unsigned.of_to.
  - exists (N.to_uint (N.of_nat n)).
    split_and!; [apply to_uint_not_nil|done|apply DecimalN.Unsigned.of_to].
Qed.

Lemma format_02d_digits n : all_chars isdecimal (format_02d n) = true.
Proof. destruct (format_02d_uint n) as (d & _ & -> & _). apply uint_digits. Qed.

(** The prefix of a filename reads back as the position it was made from. *)
Lemma int_format_02d n : Py.int (format_02d n) = Some (Z.of_nat n).
Proof.
  destruct (format_02d_uint n) as (d & Hd & -> & Hn).
  rewrite int_of_digits; [|apply uint_digits|by destruct d].
  rewrite int_digits_uint by done. rewrite Hn. f_equal. lia.
Qed.

Lemma chapter_filename_prefix i chapter_name :
  split_head UNDERSCORE (chapter_filename i chapter_name) = format_02d (i + 1).
Proof.
  unfold chapter_filename.
  change ("_" +:+ safe_name chapter_name +:+ ".md")
    with (String UNDERSCORE (safe_name chapter_name +:+ ".md")).
  apply split_head_app.
  apply (contains_all_chars isdecimal); [done|apply format_02d_digits].
Qed.

Lemma chapter_filename_position i chapter_name :
  Py.int (split_head UNDERSCORE (chapter_filename i chapter_name)) = Some (Z.of_nat (i + 1)).
Proof. rewrite chapter_filename_prefix. apply int_format_02d. Qed.

Lemma chapter_filename_inj i j name_i name_j :
  chapter_filename i name_i = chapter_filename j name_j → i = j.
Proof.
  intros H. apply (f_equal (λ f, Py.int (split_head UNDERSCORE f))) in H.
  rewrite !chapter_filename_position in H. injection H. lia.
Qed.

End filenames.

(** C8. Whatever the names are, two distinct positions of the chapter order
    get distinct filenames: the decimal position that opens the filename,
    two digits or more, ends at the first underscore and reads back as the
    position. *)
Theorem chapter_filename_injective (i j : nat) (name_i name_j : string) :
  i ≠ j →
  WriteChapters.chapter_filename i name_i ≠ WriteChapters.chapter_filename j name_j.
Proof. intros Hij H. by apply chapter_filename_inj in H. Qed.

Lemma chapter_filename_injective_witness :
  WriteChapters.chapter_filename 99 "Query Processing"
  ≠ WriteChapters.chapter_filename 100 "query_processing".
Proof. apply (chapter_filename_injective 99 100). lia. Defined.

Section chapter_files.
Import CombineTutorial.

Lemma chapter_files_from_position i chapter_order names chapters_content filename content :
  (filename, content) ∈ chapter_files_from i chapter_order names chapters_content →
  ∃ j chapter_name, i ≤ j ∧ filename = WriteChapters.chapter_filename j chapter_name.
Proof.
  revert i. induction chapter_order as [|abstraction_index rest IH]; intros i; simpl.
  - by intros ?%elem_of_nil.
  - intros [Hhere|Hlater]%elem_of_app.
    + case_bool_decide; [|by apply elem_of_nil in Hhere].
      destruct (names !! Z.to_nat abstraction_index) as [abstraction_name|];
        [|by apply elem_of_nil in Hhere].
      destruct (chapters_content !! i) as [chapter_content|];
        [|by apply elem_of_nil in Hhere].
      apply list_elem_of_singleton in Hhere. injection Hhere as -> _. eauto.
    + apply IH in Hlater as (j & chapter_name & Hj & ->).
      exists j, chapter_name. split; [lia|done].
Qed.

(** No two files of the tutorial share a filename. *)
Lemma chapter_files_NoDup chapter_order names chapters_content :
  NoDup (chapter_files chapter_order names chapters_content).*1.
Proof.
  unfold chapter_files. generalize 0 as i.
  induction chapter_order as [|abstraction_index rest IH]; intros i; simpl;
    [constructor|].
  rewrite fmap_app. apply NoDup_app. split_and!; [| |apply IH].
  - case_bool_decide; [|constructor].
    destruct (names !! Z.to_nat abstraction_index); [|constructor].
    destruct (chapters_content !! i); [|constructor].
    apply NoDup_singleton.
  - intros filename Hhere Hlater.
    apply list_elem_of_fmap in Hlater as ([f content] & -> & Hlater).
    apply chapter_files_from_position in Hlater as (j & chapter_name & Hj & Hf).
    simpl in Hf. subst f.
    case_bool_decide; [|by apply elem_of_nil in Hhere].
    destruct (names !! Z.to_nat abstraction_index) as [abstraction_name|];
      [|by apply elem_of_nil in Hhere].
    destruct (chapters_content !! i) as [chapter_content|];
      [|by apply elem_of_nil in Hhere].
    apply list_elem_of_singleton in Hhere. simpl in Hhere.
    apply chapter_filename_inj in Hhere. lia.
Qed.

End chapter_files.

(** * The bound of the relationship indices *)

Module AnalyzeFacts.
Import Py PyFacts AnalyzeRelationships.

Lemma name_newlines_zero abstractions :
  name_newlines abstractions = 0 ↔ Forall single_line_name abstractions.
Proof.
  induction abstractions as [|abstr rest IH]; simpl; [split; [intros _; constructor|done]|].
  rewrite Forall_cons, <- IH. unfold single_line_name. rewrite <- count_zero. lia.
Qed.

Lemma count_str_nat i : count LF (str_nat i) = 0.
Proof.
  apply count_zero, (contains_all_chars isdecimal); [done|apply str_N_digits].
Qed.

(** The listing has one line per abstraction and one more per newline of
    a name. *)
Lemma join_more sep x r :
  r ≠ [] → join sep (x :: r) = x +:+ sep +:+ join sep r.
Proof. by destruct r. Qed.

Lemma listing_lines_from (k : nat) abstractions :
  abstractions ≠ [] →
  count LF (join NL (imap (λ i abstr, str_nat (k + i) +:+ " # " +:+ Yaml.str (name abstr))
                       abstractions)) + 1
  = length abstractions + name_newlines abstractions.
Proof.
  revert k. induction abstractions as [|abstr rest IH]; intros k Hne; [done|].
  rewrite imap_cons. cbn [length name_newlines].
  destruct (decide (rest = [])) as [->|Hrest].
  - cbn [imap join length name_newlines].
    rewrite !count_app, count_str_nat. change (count LF " # ") with 0. lia.
  - rewrite join_more.
    2:{ intros H. apply (f_equal length) in H. rewrite length_imap in H.
        by destruct rest. }
    rewrite (imap_ext _ (λ i abstr, str_nat (S k + i) +:+ " # " +:+ Yaml.str (name abstr)))
      by (intros i x _; simpl; by rewrite Nat.add_succ_r).
    specialize (IH (S k) Hrest).
    rewrite !count_app, count_str_nat.
    change (count LF NL) with 1. change (count LF " # ") with 0. lia.
Qed.

Lemma num_abstractions_listing abstractions :
  abstractions ≠ [] →
  num_abstractions (abstraction_listing abstractions)
  = length abstractions + name_newlines abstractions.
Proof.
  intros Hne. unfold num_abstractions, abstraction_listing.
  rewrite length_split_list. pose proof (listing_lines_from 0 abstractions Hne) as H.
  simpl in H. lia.
Qed.

Lemma validate_rel_range n rel r :
  validate_rel n rel = Ok r →
  (0 ≤ rel_from r < Z.of_nat n)%Z ∧ (0 ≤ rel_to r < Z.of_nat n)%Z.
Proof.
  unfold validate_rel. intros H.
  destruct rel as [| | | | | |kvs]; try done.
  destruct (Yaml.get "from_abstraction" kvs) as [from_abstraction|]; [|done].
  destruct (Yaml.get "to_abstraction" kvs) as [to_abstraction|]; [|done].
  destruct (Yaml.get "label" kvs) as [label|]; [|done].
  destruct label as [| | | |label_text| |]; try done.
  unfold raise_value_error in H.
  match type of H with try_except ?b (Raise ?e) = _ =>
    destruct (try_except_raise b e) as [(r' & Hbody & Htry)|[_ Htry]]
  end; rewrite Htry in H; [|done].
  injection H as ->.
  apply bind_ok in Hbody as (from_idx & _ & Hbody).
  apply bind_ok in Hbody as (to_idx & _ & Hbody).
  destruct (negb _) eqn:Hrange; [done|]. injection Hbody as <-. simpl.
  apply negb_false_iff in Hrange. rewrite !andb_true_iff in Hrange. lia.
Qed.

Lemma exec_validate_range listing data graph :
  exec_validate listing data = Ok graph →
  Forall (λ r, (0 ≤ rel_from r < Z.of_nat (num_abstractions listing))%Z
               ∧ (0 ≤ rel_to r < Z.of_nat (num_abstractions listing))%Z)
    (details graph).
Proof.
  unfold exec_validate. intros H.
  destruct data as [| | | | | |kvs]; try done.
  destruct (Yaml.get "summary" kvs) as [data_summary|]; [|done].
  destruct (Yaml.get "relationships" kvs) as [data_relationships|]; [|done].
  destruct data_summary as [| | | |summary_text| |]; try done.
  destruct data_relationships as [| | | | |rels|]; try done.
  apply bind_ok in H as (validated & Hloop & [= <-]). simpl.
  apply for_each_ok in Hloop.
  induction Hloop as [|rel r rels validated Hrel _ IH]; constructor; [|done].
  by apply validate_rel_range in Hrel.
Qed.

End AnalyzeFacts.

(** C10. The bound that the Relationship Analyzer checks indices against,
    the number of lines of the abstraction listing, is the number of
    abstractions exactly when there is at least one abstraction and no name
    holds a newline. In that case every edge of a validated graph starts
    and ends at the position of an existing abstraction. With no
    abstraction at all the bound is 1. *)
Theorem relationship_bound_is_abstraction_count (abstractions : list abstraction) :
  (AnalyzeRelationships.num_abstractions
     (AnalyzeRelationships.abstraction_listing abstractions) = length abstractions
   ↔ abstractions ≠ [] ∧ Forall single_line_name abstractions)
  ∧ (abstractions ≠ [] → Forall single_line_name abstractions →
     ∀ (relationships_data : yaml) (graph : relationships),
       AnalyzeRelationships.run abstractions relationships_data = Ok graph →
       Forall (λ r, is_abstraction_index abstractions (rel_from r)
                    ∧ is_abstraction_index abstractions (rel_to r))
         (details graph))
  ∧ AnalyzeRelationships.num_abstractions (AnalyzeRelationships.abstraction_listing []) = 1.
Proof.
  assert (abstractions ≠ [] → Forall single_line_name abstractions →
          AnalyzeRelationships.num_abstractions
            (AnalyzeRelationships.abstraction_listing abstractions) = length abstractions)
    as Hbound.
  { intros Hne Hnames. rewrite AnalyzeFacts.num_abstractions_listing by done.
    apply AnalyzeFacts.name_newlines_zero in Hnames. lia. }
  split_and!; [split| |done].
  - intros Heq. destruct abstractions as [|abstr rest]; [done|].
    split; [done|]. apply AnalyzeFacts.name_newlines_zero.
    rewrite AnalyzeFacts.num_abstractions_listing in Heq by done. lia.
  - intros [Hne Hnames]. by apply Hbound.
  - intros Hne Hnames relationships_data graph Hrun.
    apply AnalyzeFacts.exec_validate_range in Hrun. rewrite Hbound in Hrun by done.
    eapply Forall_impl; [done|]. intros r [Hfrom Hto].
    unfold is_abstraction_index.
    split_and!; try lia; apply lookup_lt_is_Some; lia.
Qed.

Lemma relationship_bound_is_abstraction_count_witness :
  Forall (λ r, is_abstraction_index example_abstractions (rel_from r)
               ∧ is_abstraction_index example_abstractions (rel_to r))
    [Relationship 0 1 "uses"].
Proof.
  refine (proj1 (proj2 (relationship_bound_is_abstraction_count example_abstractions))
            _ _ example_relationships (Relationships "s" [Relationship 0 1 "uses"]) _).
  - discriminate.
  - repeat constructor.
  - vm_compute. reflexivity.
Defined.

(** With no abstraction, an edge from 0 to 0 passes the range check. *)
Lemma edge_accepted_without_abstractions :
  AnalyzeRelationships.run []
    (YMap [(YStr "summary", YStr "s");
           (YStr "relationships",
            YSeq [YMap [(YStr "from_abstraction", YInt 0);
                        (YStr "to_abstraction", YInt 0);
                        (YStr "label", YStr "uses")]])])
  = Ok (Relationships "s" [Relationship 0 0 "uses"]).
Proof. vm_compute. reflexivity. Qed.

(** * The chapter order: what is accepted and what is refused *)

Module OrderLoop.
Import OrderChapters OrderFacts.

(** One more entry: the body of the loop succeeds exactly on an entry that
    reads as an index of [0, n) not seen before. *)
Lemma loop_body_ok num_abstractions ordered seen entry st :
  loop_body num_abstractions (ordered, seen) entry = Ok st ↔
  ∃ idx, coerce_index entry = Ok idx ∧ (0 ≤ idx < Z.of_nat num_abstractions)%Z
         ∧ (idx ∉ seen) ∧ st = (ordered ++ [idx], seen ∪ {[idx]}).
Proof.
  split.
  - intros H.
    destruct (loop_body_cases num_abstractions ordered seen entry)
      as [(idx & Hc & Hr & Hs & Hb)|Hb]; rewrite Hb in H; [|done].
    injection H as <-. by exists idx.
  - intros (idx & Hc & Hr & Hs & ->). unfold loop_body. rewrite Hc. simpl.
    assert (((0 <=? idx) && (idx <? Z.of_nat num_abstractions))%Z = true) as ->.
    { apply andb_true_iff. split; [apply Z.leb_le|apply Z.ltb_lt]; lia. }
    simpl. by rewrite bool_decide_eq_false_2.
Qed.

(** Every other entry ends in the handler's exception. *)
Lemma loop_body_refused num_abstractions ordered seen entry :
  (∀ idx, coerce_index entry = Ok idx →
          ¬ (0 ≤ idx < Z.of_nat num_abstractions)%Z ∨ idx ∈ seen) →
  loop_body num_abstractions (ordered, seen) entry
  = raise_value_error (CouldNotParseEntry entry).
Proof.
  intros Hbad.
  destruct (loop_body_cases num_abstractions ordered seen entry)
    as [(idx & Hc & Hr & Hs & _)|Hb]; [|done].
  destruct (Hbad idx Hc); done.
Qed.

Lemma loop_ok num_abstractions entries ordered0 seen0 ordered seen :
  seen0 = list_to_set ordered0 →
  loop num_abstractions (ordered0, seen0) entries = Ok (ordered, seen) ↔
  ∃ idxs, Forall2 (λ entry idx, coerce_index entry = Ok idx) entries idxs
          ∧ Forall (λ idx, (0 ≤ idx < Z.of_nat num_abstractions)%Z) idxs
          ∧ NoDup idxs ∧ (∀ idx, idx ∈ idxs → idx ∉ ordered0)
          ∧ ordered = ordered0 ++ idxs ∧ seen = list_to_set ordered.
Proof.
  revert ordered0 seen0.
  induction entries as [|entry entries IH]; intros ordered0 seen0 Hseen; cbn [loop].
  - split.
    + intros [= <- <-]. exists []. rewrite app_nil_r.
      split_and!; try done; try (by constructor). by intros ? ?%elem_of_nil.
    + intros (idxs & ->%Forall2_nil_inv_l & _ & _ & _ & -> & ->).
      by rewrite app_nil_r, Hseen.
  - subst seen0. rewrite bind_ok.
    assert (∀ idx, (list_to_set ordered0 ∪ {[idx]} : gset Z) = list_to_set (ordered0 ++ [idx]))
      as Hnext.
    { intros idx. rewrite list_to_set_app_L. simpl. by rewrite union_empty_r_L. }
    split.
    + intros ([ordered1 seen1] & Hbody & Hloop).
      apply loop_body_ok in Hbody as (idx & Hc & Hr & Hs & [= -> ->]).
      apply IH in Hloop as (idxs & Hall & Hrange & Hnd & Hfresh & -> & ->);
        [|apply Hnext].
      exists (idx :: idxs). rewrite <- app_assoc. simpl.
      split_and!; try done.
      * by constructor.
      * by constructor.
      * constructor; [|done]. intros Hin. apply (Hfresh idx Hin).
        apply elem_of_app. right. by apply list_elem_of_singleton.
      * intros i [->|Hi]%elem_of_cons.
        -- by rewrite elem_of_list_to_set in Hs.
        -- intros Hi0. apply (Hfresh i Hi). apply elem_of_app. by left.
    + intros (idxs & Hall & Hrange & Hnd & Hfresh & -> & ->).
      apply Forall2_cons_inv_l in Hall as (idx & idxs' & Hc & Hall & ->).
      apply Forall_cons in Hrange as [Hr Hrange].
      apply NoDup_cons in Hnd as [Hnotin Hnd].
      exists (ordered0 ++ [idx], list_to_set ordered0 ∪ {[idx]}). split.
      * apply loop_body_ok. exists idx. split_and!; try done; try lia.
        rewrite elem_of_list_to_set. apply Hfresh. by left.
      * apply IH; [apply Hnext|].
        exists idxs'. rewrite <- app_assoc. simpl. split_and!; try done.
        intros i Hi [Hi0| ->%list_elem_of_singleton]%elem_of_app; [|done].
        apply (Hfresh i); [by right|done].
Qed.

Lemma loop_app num_abstractions st entries more st' :
  loop num_abstractions st entries = Ok st' →
  loop num_abstractions st (entries ++ more) = loop num_abstractions st' more.
Proof.
  revert st. induction entries as [|entry entries IH]; intros st; cbn [loop app].
  - by intros [= ->].
  - intros (st1 & Hb & Hl)%bind_ok. rewrite Hb. simpl. by apply IH.
Qed.

(** A list without repeats, drawn from [0, n) and of length [n], runs over
    all of [0, n). *)
Lemma range_permutation (n : nat) (l : list Z) :
  NoDup l → Forall (λ idx, (0 ≤ idx < Z.of_nat n)%Z) l → length l = n →
  l ≡ₚ seqZ 0 (Z.of_nat n).
Proof.
  intros Hnd Hrange Hlen. apply submseteq_length_Permutation.
  - apply NoDup_submseteq; [done|]. intros x Hx.
    rewrite Forall_forall in Hrange. apply elem_of_seqZ. specialize (Hrange x Hx). lia.
  - rewrite length_seqZ. lia.
Qed.

Lemma permutation_range (n : nat) (l : list Z) :
  l ≡ₚ seqZ 0 (Z.of_nat n) →
  NoDup l ∧ Forall (λ idx, (0 ≤ idx < Z.of_nat n)%Z) l ∧ length l = n.
Proof.
  intros Hp. split_and!.
  - rewrite Hp. apply NoDup_seqZ.
  - apply Forall_forall. intros x Hx. rewrite Hp in Hx.
    apply elem_of_seqZ in Hx. lia.
  - rewrite Hp, length_seqZ. lia.
Qed.

End OrderLoop.

(** Success of the validation, in terms of the entries. *)
Lemma exec_validate_order_iff
    (num_abstractions : nat) (entries : list yaml) (order : list Z) :
  OrderChapters.exec_validate num_abstractions (YSeq entries) = Ok order ↔
  Forall2 (λ entry idx, OrderChapters.coerce_index entry = Ok idx) entries order
  ∧ order ≡ₚ seqZ 0 (Z.of_nat num_abstractions).
Proof.
  unfold OrderChapters.exec_validate. rewrite bind_ok. split.
  - intros ([ordered seen] & Hloop & Hcheck).
    apply (OrderLoop.loop_ok _ _ [] ∅) in Hloop as (idxs & Hall & Hr & Hnd & _ & -> & _);
      [|done].
    simpl in *. destruct (negb _) eqn:Hlen; [done|]. injection Hcheck as <-.
    apply negb_false_iff, Nat.eqb_eq in Hlen.
    split; [done|]. by apply OrderLoop.range_permutation.
  - intros [Hall Hperm].
    apply OrderLoop.permutation_range in Hperm as (Hnd & Hr & Hlen).
    exists (order, list_to_set order). split.
    + apply OrderLoop.loop_ok; [done|]. exists order.
      split_and!; try done. by intros ? _ ?%elem_of_nil.
    + simpl. by rewrite Hlen, Nat.eqb_refl.
Qed.

(** X9. The Chapter Sequencer accepts exactly the permutations. The
    validation of a loaded sequence succeeds if and only if its entries read,
    one by one, as integers that form a permutation of [0, n); the order it
    returns is then the list of these integers, unchanged. *)
Theorem order_accepted_iff_permutation
    (num_abstractions : nat) (entries : list yaml) (order : list Z) :
  OrderChapters.exec_validate num_abstractions (YSeq entries) = Ok order ↔
  Forall2 (λ entry idx, OrderChapters.coerce_index entry = Ok idx) entries order
  ∧ order ≡ₚ seqZ 0 (Z.of_nat num_abstractions).
Proof. apply exec_validate_order_iff. Qed.

(** X10. The first offending entry of a chapter order. When the entries
    before some entry read as distinct indices of [0, n), and that entry is
    unreadable, or reads as an index outside [0, n), or repeats an earlier
    index, and is within the conversion limit (beyond it, building the
    message that shows the entry raises the [ValueError] of the limit
    instead), the validation fails with "Could not parse index from ordered
    list entry" for that entry, whatever follows it. *)
Theorem order_first_offending_entry
    (num_abstractions : nat) (good : list yaml) (idxs : list Z) (bad : yaml)
    (rest : list yaml) :
  Sys.within_limit bad = true →
  Forall2 (λ entry idx, OrderChapters.coerce_index entry = Ok idx) good idxs →
  Forall (λ idx, (0 ≤ idx < Z.of_nat num_abstractions)%Z) idxs →
  NoDup idxs →
  (∀ idx, OrderChapters.coerce_index bad = Ok idx →
          ¬ (0 ≤ idx < Z.of_nat num_abstractions)%Z ∨ idx ∈ idxs) →
  OrderChapters.exec_validate num_abstractions (YSeq (good ++ bad :: rest))
  = Raise (Exc ValueError (CouldNotParseEntry bad))
  ∧ message_within_limit (CouldNotParseEntry bad).
Proof.
  intros Hlimit Hall Hr Hnd Hbad. split; [|by repeat constructor].
  unfold OrderChapters.exec_validate.
  rewrite (OrderLoop.loop_app _ _ _ _ (idxs, list_to_set idxs)).
  - cbn [OrderChapters.loop]. rewrite OrderLoop.loop_body_refused; [done|].
    intros idx Hc. destruct (Hbad idx Hc) as [?|?]; [by left|right].
    by apply elem_of_list_to_set.
  - apply OrderLoop.loop_ok; [done|]. exists idxs.
    split_and!; try done. by intros ? _ ?%elem_of_nil.
Qed.

Lemma order_first_offending_entry_witness :
  OrderChapters.exec_validate 3 (YSeq ([YInt 2; YStr "0 # A"] ++ YInt 2 :: [YInt 1]))
  = Raise (Exc ValueError (CouldNotParseEntry (YInt 2)))
  ∧ message_within_limit (CouldNotParseEntry (YInt 2)).
Proof.
  apply (order_first_offending_entry 3 [YInt 2; YStr "0 # A"] [2; 0]%Z).
  - vm_compute. reflexivity.
  - repeat constructor.
  - repeat constructor; lia.
  - constructor; [by intros [=]%list_elem_of_singleton|apply NoDup_singleton].
  - intros idx [= <-]. right. apply elem_of_cons. by left.
Defined.

(** * The abstraction identifier: what is accepted and what is refused *)

(** The parts of a value within the conversion limit are within it. *)
Lemma within_limit_elem (l : list yaml) (x : yaml) :
  Sys.within_limit (YSeq l) = true → x ∈ l → Sys.within_limit x = true.
Proof.
  cbn [Sys.within_limit]. rewrite forallb_forall. intros Hall Hx.
  apply Hall. by apply list_elem_of_In.
Qed.

Lemma within_limit_get (kvs : list (yaml * yaml)) (key : string) (x : yaml) :
  Sys.within_limit (YMap kvs) = true → Yaml.get key kvs = Some x →
  Sys.within_limit x = true.
Proof.
  cbn [Sys.within_limit].
  induction kvs as [|[k y] kvs IH]; [done|]. cbn [forallb Yaml.get].
  rewrite !andb_true_iff. intros [[_ Hy] Hrest] Hget.
  destruct k; try by apply IH.
  destruct (String.eqb _ key); [by injection Hget as <-|by apply IH].
Qed.

Lemma for_each_raises {A B} (f : A → result B) l e :
  for_each f l = Raise e → ∃ x, x ∈ l ∧ f x = Raise e.
Proof.
  induction l as [|x l IH]; [done|]. cbn [for_each].
  destruct (f x) as [y|e'] eqn:Hx; simpl.
  - destruct (for_each f l) as [ys|e''] eqn:Hl; [done|].
    intros [= <-]. destruct (IH eq_refl) as (x' & Hin & Hx'). exists x'. split; [by right|done].
  - intros [= <-]. exists x. split; [by left|done].
Qed.

Module IdentifyMore.
Import IdentifyAbstractions IdentifyFacts.

Lemma validate_item_iff file_count item abstr :
  validate_item file_count item = Ok abstr ↔ item_accepted file_count item abstr.
Proof.
  split.
  - intros H. apply validate_item_ok in H
      as (kvs & item_name & descr & idx_entries & idxs & -> & Hn & Hd & Hf & Hall & ->).
    exists kvs, item_name, descr, idx_entries, idxs. split_and!; try done.
    + eapply Forall2_impl; [done|]. by intros ?? [? _].
    + clear -Hall. induction Hall as [|idx_entry idx ? ? [_ ?] ? IH]; by constructor.
  - intros (kvs & item_name & descr & idx_entries & idxs & -> & Hn & Hd & Hf & Hall & Hr & ->).
    unfold validate_item. rewrite Hn, Hd, Hf.
    assert (for_each (validate_index file_count item_name) idx_entries = Ok idxs) as ->; [|done].
    apply for_each_ok. clear -Hall Hr.
    induction Hall as [|idx_entry idx idx_entries idxs Hc Hall IH]; [constructor|].
    apply Forall_cons in Hr as [Hr Hrs]. constructor; [|by apply IH].
    by apply validate_index_ok.
Qed.

(** The exceptions of one item. *)
Lemma validate_item_raises file_count item e :
  validate_item file_count item = Raise e →
  exc_type e = ValueError
  ∧ (exc_msg e = MissingKeys item
     ∨ exc_msg e = DescriptionNotString item
     ∨ exc_msg e = FileIndicesNotList item
     ∨ ∃ kvs item_name idx_entries idx_entry,
         item = YMap kvs
         ∧ Yaml.get "name" kvs = Some item_name
         ∧ Yaml.get "file_indices" kvs = Some (YSeq idx_entries)
         ∧ idx_entry ∈ idx_entries
         ∧ exc_msg e = CouldNotParseIndex idx_entry item_name).
Proof.
  unfold validate_item. intros H.
  destruct item as [| | | | | |kvs]; try (injection H as <-; by eauto).
  destruct (Yaml.get "name" kvs) as [item_name|] eqn:Hn;
    [|injection H as <-; by eauto].
  destruct (Yaml.get "description" kvs) as [item_description|] eqn:Hd;
    [|injection H as <-; by eauto].
  destruct (Yaml.get "file_indices" kvs) as [file_indices|] eqn:Hf;
    [|injection H as <-; by eauto].
  destruct item_description as [| | | |descr| |]; try (injection H as <-; by eauto).
  destruct file_indices as [| | | | |idx_entries|]; try (injection H as <-; by eauto).
  destruct (for_each (validate_index file_count item_name) idx_entries) as [idxs|e'] eqn:Hloop;
    [done|]. injection H as <-.
  assert (∃ idx_entry, idx_entry ∈ idx_entries
            ∧ e' = Exc ValueError (CouldNotParseIndex idx_entry item_name))
    as (idx_entry & Hin & ->).
  { clear -Hloop. revert e' Hloop.
    induction idx_entries as [|idx_entry idx_entries IH]; intros e' H; [done|].
    cbn [for_each] in H.
    destruct (validate_index_cases file_count item_name idx_entry)
      as [(idx & _ & _ & Hv)|Hv]; rewrite Hv in H; simpl in H.
    - destruct (for_each _ idx_entries) as [ys|e''] eqn:Hrest; [done|].
      injection H as <-. destruct (IH e'' eq_refl) as (x & Hx & ->).
      exists x. split; [by right|done].
    - injection H as <-. exists idx_entry. split; [by left|done]. }
  split; [done|]. do 3 right. by exists kvs, item_name, idx_entries, idx_entry.
Qed.

End IdentifyMore.

(** X3. What the Abstraction Identifier accepts. The validation of a loaded
    sequence succeeds if and only if every item is a mapping that holds
    [name], a [description] that is a string, and [file_indices] that is a
    sequence whose entries all read as indices of [0, file_count); the
    output then has one abstraction per item, in order, with the item's
    name and description and the sorted set of its indices. *)
Theorem identify_accepted_iff
    (file_count : nat) (items : list yaml) (validated : list abstraction) :
  IdentifyAbstractions.exec_validate file_count (YSeq items) = Ok validated ↔
  Forall2 (item_accepted file_count) items validated.
Proof.
  unfold IdentifyAbstractions.exec_validate. rewrite for_each_ok.
  split; intros H; (eapply Forall2_impl; [done|]); intros item abstr;
    apply IdentifyMore.validate_item_iff.
Qed.

(** X4. The exceptions of the Abstraction Identifier. For a loaded
    response within the conversion limit (beyond it, building a message
    that shows an integer raises the [ValueError] of the limit instead), the
    exception that a failing validation raises is a [ValueError] with one
    of five messages: the response is no list; an item lacks a key (or is
    no mapping); its description is no string; its [file_indices] is no
    list; or "Could not parse index from entry" for one of its entries.
    "Invalid file index ... Max index is ..." and the message of [int] are
    never the message of the exception raised: the handler that replaces
    them leaves them as its context only. Every value that the message
    shows is a part of the response, so building the message raises
    nothing. *)
Theorem identify_exceptions (file_count : nat) (abstractions : yaml) (e : exc) :
  Sys.within_limit abstractions = true →
  IdentifyAbstractions.exec_validate file_count abstractions = Raise e →
  exc_type e = ValueError
  ∧ message_within_limit (exc_msg e)
  ∧ ((¬ (∃ items, abstractions = YSeq items) ∧ exc_msg e = OutputNotList)
     ∨ ∃ items item, abstractions = YSeq items ∧ item ∈ items
         ∧ (exc_msg e = MissingKeys item
            ∨ exc_msg e = DescriptionNotString item
            ∨ exc_msg e = FileIndicesNotList item
            ∨ ∃ kvs item_name idx_entries idx_entry,
                item = YMap kvs
                ∧ Yaml.get "name" kvs = Some item_name
                ∧ Yaml.get "file_indices" kvs = Some (YSeq idx_entries)
                ∧ idx_entry ∈ idx_entries
                ∧ exc_msg e = CouldNotParseIndex idx_entry item_name)).
Proof.
  unfold IdentifyAbstractions.exec_validate. intros Hlimit H.
  destruct abstractions as [| | | | |items|];
    try (injection H as <-;
         split_and!; [done|constructor|left; split; [by intros [? [=]]|done]]).
  apply for_each_raises in H as (item & Hin & Hitem).
  apply IdentifyMore.validate_item_raises in Hitem as [Hty Hmsg].
  pose proof (within_limit_elem _ _ Hlimit Hin) as Hitem.
  split_and!; [done| |right; by exists items, item].
  unfold message_within_limit.
  destruct Hmsg as [->|[->|[->|(kvs & item_name & idx_entries & idx_entry
                                & -> & Hn & Hf & Hentry & ->)]]];
    cbn [shown_values]; repeat constructor; try done.
  - eapply within_limit_elem; [|done]. by eapply within_limit_get.
  - by eapply within_limit_get.
Qed.

Lemma identify_exceptions_witness :
  exc_type (Exc ValueError (CouldNotParseIndex (YInt 5) (YStr "X"))) = ValueError
  ∧ message_within_limit (exc_msg (Exc ValueError (CouldNotParseIndex (YInt 5) (YStr "X"))))
  ∧ ((¬ (∃ items, YSeq [example_item [YInt 5]] = YSeq items)
      ∧ exc_msg (Exc ValueError (CouldNotParseIndex (YInt 5) (YStr "X"))) = OutputNotList)
     ∨ ∃ items item, YSeq [example_item [YInt 5]] = YSeq items ∧ item ∈ items
         ∧ (exc_msg (Exc ValueError (CouldNotParseIndex (YInt 5) (YStr "X"))) = MissingKeys item
            ∨ exc_msg (Exc ValueError (CouldNotParseIndex (YInt 5) (YStr "X")))
              = DescriptionNotString item
            ∨ exc_msg (Exc ValueError (CouldNotParseIndex (YInt 5) (YStr "X")))
              = FileIndicesNotList item
            ∨ ∃ kvs item_name idx_entries idx_entry,
                item = YMap kvs
                ∧ Yaml.get "name" kvs = Some item_name
                ∧ Yaml.get "file_indices" kvs = Some (YSeq idx_entries)
                ∧ idx_entry ∈ idx_entries
                ∧ exc_msg (Exc ValueError (CouldNotParseIndex (YInt 5) (YStr "X")))
                  = CouldNotParseIndex idx_entry item_name)).
Proof.
  apply (identify_exceptions 3 (YSeq [example_item [YInt 5]])); vm_compute; reflexivity.
Defined.

(** * The context builder *)

Section context_builder.
Import Py PyFacts.

Lemma create_llm_context_from (k : nat) (files_data : list (string * string))
    (context : string) (file_info : list (nat * string)) :
  foldl (λ '(context, file_info) '(i, (path, content)),
           (context +:+ context_entry i path content, file_info ++ [(i, path)]))
        (context, file_info) (imap (λ i, pair (k + i)) files_data)
  = (foldl (λ acc '(i, (path, content)), acc +:+ context_entry i path content)
       context (imap (λ i, pair (k + i)) files_data),
     file_info ++ imap (λ i '(path, _), (k + i, path)) files_data).
Proof.
  revert k context file_info.
  induction files_data as [|[path content] files_data IH]; intros k context file_info.
  - simpl. by rewrite List.app_nil_r.
  - rewrite !imap_cons. cbn [foldl].
    rewrite (imap_ext _ (λ i, pair (S k + i))) by (intros; simpl; f_equal; lia).
    rewrite (imap_ext (_ ∘ S) (λ i '(path, _), (S k + i, path)))
      by (intros ? [] ?; simpl; f_equal; lia).
    rewrite IH, <- List.app_assoc. simpl. by rewrite Nat.add_0_r.
Qed.

Lemma file_info_closed_form files_data :
  (create_llm_context files_data).2 = imap (λ i '(path, _), (i, path)) files_data.
Proof.
  unfold create_llm_context.
  change (imap pair files_data) with (imap (λ i, pair (0 + i)) files_data).
  by rewrite create_llm_context_from.
Qed.

Variable files_data : list (string * string).

Lemma get_content_fresh indices i path :
  i ∉ indices →
  get_content_for_indices files_data indices !! content_key i path = None.
Proof.
  intros Hi.
  destruct (get_content_for_indices files_data indices !! content_key i path) as [v|] eqn:H;
    [|done].
  apply get_content_lookup in H as (j & Hj & p & _ & _ & Hk).
  apply content_key_inj in Hk as ->. done.
Qed.

(** Distinct indices in range give as many entries. *)
Lemma get_content_size indices :
  NoDup indices →
  Forall (λ i, (0 ≤ i < Z.of_nat (length files_data))%Z) indices →
  size (get_content_for_indices files_data indices) = length indices.
Proof.
  induction indices as [|i indices IH] using rev_ind; intros Hnd Hr; [done|].
  apply NoDup_app in Hnd as (Hnd & Hi & _).
  apply Forall_app in Hr as [Hr [Hri _]%Forall_cons].
  rewrite get_content_snoc. cbv zeta. rewrite bool_decide_eq_true_2 by done.
  destruct (files_data !! Z.to_nat i) as [[path content]|] eqn:Hfile.
  - rewrite map_size_insert_None.
    + rewrite IH by done. rewrite List.length_app. simpl. lia.
    + apply get_content_fresh. intros Hin. apply (Hi i Hin). by left.
  - apply lookup_ge_None in Hfile. lia.
Qed.

End context_builder.

(** X1. The file listing of the context builder. [create_llm_context]
    returns, beside the context text, one [(index, path)] pair per file, in
    the order of the files, the index being the file's position: the listing
    is as long as the file list, and every path stands once at its own
    position. *)
Theorem create_llm_context_file_info (files_data : list (string * string)) :
  let file_info := (create_llm_context files_data).2 in
  length file_info = length files_data
  ∧ file_info.*1 = seq 0 (length files_data)
  ∧ file_info.*2 = files_data.*1
  ∧ ∀ (i : nat) (path : string),
      file_info !! i = Some (i, path) ↔ ∃ content, files_data !! i = Some (path, content).
Proof.
  cbv zeta. rewrite file_info_closed_form.
  assert (∀ k (l : list (string * string)),
            (imap (λ i '(path, _), (k + i, path)) l).*1 = seq k (length l)
            ∧ (imap (λ i '(path, _), (k + i, path)) l).*2 = l.*1) as Hgen.
  { intros k l. revert k. induction l as [|[p c] l IH]; intros k; [done|].
    rewrite imap_cons. cbn [fmap list_fmap length seq fst snd].
    rewrite (imap_ext _ (λ i '(path, _), (S k + i, path)))
      by (intros ? [] ?; simpl; f_equal; lia).
    destruct (IH (S k)) as [-> ->]. by rewrite Nat.add_0_r. }
  destruct (Hgen 0 files_data) as [H1 H2]. simpl in H1, H2.
  split_and!; [by rewrite length_imap|done|done|].
  intros i path. rewrite list_lookup_imap.
  destruct (files_data !! i) as [[p c]|]; simpl.
  - split; [intros [= <-]; by exists c|intros (c' & [= -> ->]); done].
  - split; [done|by intros (? & ?)].
Qed.

(** X2. A validated abstraction finds all its files. Take a response no
    entry of whose [file_indices] lists is a boolean (a boolean that is
    accepted stays a boolean in [files], and the key made of it reads
    "True" or "False"). When the validation of the Abstraction Identifier
    succeeds on it for a file list, every file index of every abstraction
    is the position of a file, and the content map that
    [get_content_for_indices] builds from the abstraction's [files] has one
    entry per index, none skipped: the key made of the index and the path,
    mapped to the file's content. *)
Theorem validated_files_all_found
    (files_data : list (string * string)) (project_name : string)
    (abstractions : yaml) (validated : list abstraction) :
  boolean_free_indices abstractions = true →
  IdentifyPrep.run files_data project_name abstractions = Ok validated →
  Forall (λ abstr,
    size (get_content_for_indices files_data (files abstr)) = length (files abstr)
    ∧ Forall (λ idx,
        ∃ path content,
          files_data !! Z.to_nat idx = Some (path, content)
          ∧ get_content_for_indices files_data (files abstr)
              !! (Py.str_Z idx +:+ " # " +:+ path) = Some content)
        (files abstr))
    validated.
Proof.
  intros _. unfold IdentifyPrep.run, IdentifyPrep.prep.
  destruct (create_llm_context files_data) as [context file_info].
  unfold IdentifyAbstractions.exec_validate.
  destruct abstractions as [| | | | |items|]; try done.
  intros H%for_each_ok. apply Forall_forall. intros abstr Hin.
  apply list_elem_of_lookup in Hin as [k Hk].
  destruct (Forall2_lookup_r _ _ _ _ _ H Hk) as (item & _ & Hitem).
  apply IdentifyFacts.validate_item_ok in Hitem
    as (kvs & item_name & descr & idx_entries & idxs & _ & _ & _ & _ & Hall & ->).
  simpl.
  assert (Forall (λ i, (0 ≤ i < Z.of_nat (length files_data))%Z) (sorted_set idxs)) as Hr.
  { apply Forall_forall. intros i Hi. apply (proj1 (elem_of_sorted_set _ _)) in Hi.
    apply list_elem_of_lookup in Hi as [j Hj].
    destruct (Forall2_lookup_r _ _ _ _ _ Hall Hj) as (? & _ & _ & ?). done. }
  split; [apply get_content_size; [apply NoDup_sorted_set|done]|].
  apply Forall_forall. intros i Hi.
  rewrite Forall_forall in Hr. specialize (Hr i Hi).
  destruct (lookup_lt_is_Some_2 files_data (Z.to_nat i)) as [[path content] Hfile]; [lia|].
  exists path, content. split; [done|].
  apply get_content_lookup. exists i. split; [done|].
  exists path. split_and!; [lia|done|done].
Qed.

Lemma validated_files_all_found_witness :
  Forall (λ abstr,
    size (get_content_for_indices [("a.py", "A"); ("b.py", "B"); ("c.py", "C")] (files abstr))
    = length (files abstr)
    ∧ Forall (λ idx,
        ∃ path content,
          [("a.py", "A"); ("b.py", "B"); ("c.py", "C")] !! Z.to_nat idx = Some (path, content)
          ∧ get_content_for_indices [("a.py", "A"); ("b.py", "B"); ("c.py", "C")] (files abstr)
              !! (Py.str_Z idx +:+ " # " +:+ path) = Some content)
        (files abstr))
    [Abstraction (YStr "X") "d" [0; 2]%Z].
Proof.
  apply (validated_files_all_found
           [("a.py", "A"); ("b.py", "B"); ("c.py", "C")] "demo"
           (YSeq [example_item [YStr "2 # c.py"; YInt 0; YInt 2]]));
    vm_compute; reflexivity.
Defined.

(** * The answer format of the prompts *)

Section answer_format.
Import Py PyFacts.

Lemma rstrip_spaces w : all_chars isspace w = true → rstrip w = EmptyString.
Proof.
  induction w as [|c w IH]; [done|]. simpl.
  rewrite andb_true_iff. intros [Hc Hw]. by rewrite IH, Hc.
Qed.

Lemma rstrip_app_spaces s w :
  all_chars (λ c, negb (isspace c)) s = true → all_chars isspace w = true →
  rstrip (s +:+ w) = s.
Proof.
  intros Hs Hw. induction s as [|c s IH].
  - rewrite app_nil_l. by apply rstrip_spaces.
  - simpl in Hs. apply andb_true_iff in Hs as [Hc Hs].
    rewrite app_cons. cbn [rstrip]. rewrite IH by done.
    apply negb_true_iff in Hc. rewrite Hc. by destruct s.
Qed.

Lemma strip_app_spaces s w :
  s ≠ EmptyString →
  all_chars (λ c, negb (isspace c)) s = true → all_chars isspace w = true →
  strip (s +:+ w) = s.
Proof.
  intros Hne Hs Hw. unfold strip.
  destruct s as [|c s]; [done|]. rewrite app_cons. cbn [lstrip].
  pose proof Hs as Hs'. simpl in Hs'. apply andb_true_iff in Hs' as [Hc _].
  apply negb_true_iff in Hc. rewrite Hc. rewrite <- app_cons.
  by apply rstrip_app_spaces.
Qed.

Lemma str_Z_not_empty z : str_Z z ≠ EmptyString.
Proof. destruct z; [done|apply str_N_not_empty|done]. Qed.

(** The text before the first [#] of ["<i> # <comment>"], stripped, is
    the decimal text of [i]. *)
Lemma content_key_head i comment :
  contains HASH (content_key i comment) = true
  ∧ strip (split_head HASH (content_key i comment)) = str_Z i.
Proof.
  unfold content_key.
  change (" # " +:+ comment) with (" " +:+ String HASH (" " +:+ comment)).
  rewrite <- app_assoc. split.
  - rewrite contains_app. apply orb_true_iff. right. reflexivity.
  - rewrite split_head_app.
    + apply strip_app_spaces; [apply str_Z_not_empty|apply str_Z_no_space|done].
    + rewrite contains_app, str_Z_no_hash. done.
Qed.

End answer_format.

(** X5. The answer format of the prompts reads back. A string entry of the
    form "<i> # <comment>", which is how every prompt asks for an index
    and how the listings show one, is read as the integer [i] by the index
    coercion of each of the three stages, whatever the comment holds, for
    every [i] within the conversion limit (at most 4300 decimal digits;
    [int] raises on a longer literal). *)
Theorem index_with_comment_reads_back (i : Z) (comment : string) :
  Sys.int_within_limit i = true →
  IdentifyAbstractions.coerce_index (YStr (Py.str_Z i +:+ " # " +:+ comment)) = Ok i
  ∧ AnalyzeRelationships.coerce_index (YStr (Py.str_Z i +:+ " # " +:+ comment)) = Ok i
  ∧ OrderChapters.coerce_index (YStr (Py.str_Z i +:+ " # " +:+ comment)) = Ok i.
Proof.
  intros Hlimit%Nat.leb_le%Nat.ltb_ge.
  destruct (content_key_head i comment) as [Hhash Hhead].
  unfold content_key in *.
  unfold IdentifyAbstractions.coerce_index, AnalyzeRelationships.coerce_index,
    OrderChapters.coerce_index.
  cbn [Yaml.str]. rewrite Hhash, Hhead. unfold py_int.
  by rewrite PyFacts.int_str_Z, Hlimit.
Qed.

Lemma index_with_comment_reads_back_witness :
  IdentifyAbstractions.coerce_index (YStr (Py.str_Z 12 +:+ " # " +:+ "utils.py # helpers"))
  = Ok 12%Z
  ∧ AnalyzeRelationships.coerce_index
      (YStr (Py.str_Z 12 +:+ " # " +:+ "utils.py # helpers")) = Ok 12%Z
  ∧ OrderChapters.coerce_index (YStr (Py.str_Z 12 +:+ " # " +:+ "utils.py # helpers"))
    = Ok 12%Z.
Proof.
  apply (index_with_comment_reads_back 12 "utils.py # helpers"). vm_compute. reflexivity.
Defined.

(** * The relationship analyzer: what is accepted and what is refused *)

Module AnalyzeMore.
Import AnalyzeRelationships.

Lemma validate_rel_iff num rel r :
  validate_rel num rel = Ok r ↔ rel_accepted num rel r.
Proof.
  unfold validate_rel, rel_accepted. split.
  - intros H. destruct rel as [| | | | | |kvs]; try done.
    destruct (Yaml.get "from_abstraction" kvs) as [from_abstraction|] eqn:Hf; [|done].
    destruct (Yaml.get "to_abstraction" kvs) as [to_abstraction|] eqn:Ht; [|done].
    destruct (Yaml.get "label" kvs) as [label|] eqn:Hl; [|done].
    destruct label as [| | | |label_text| |]; try done.
    unfold raise_value_error in H.
    match type of H with try_except ?b (Raise ?e) = _ =>
      destruct (try_except_raise b e) as [(r' & Hbody & Htry)|[_ Htry]]
    end; rewrite Htry in H; [|done].
    injection H as ->.
    apply bind_ok in Hbody as (from_idx & Hcf & Hbody).
    apply bind_ok in Hbody as (to_idx & Hct & Hbody).
    destruct (negb _) eqn:Hrange; [done|]. injection Hbody as <-. simpl.
    apply negb_false_iff in Hrange. rewrite !andb_true_iff in Hrange.
    exists kvs, from_abstraction, to_abstraction. split_and!; try done; lia.
  - intros (kvs & from_abstraction & to_abstraction
            & -> & Hf & Ht & Hl & Hcf & Hct & Hrf & Hrt).
    rewrite Hf, Ht, Hl, Hcf, Hct. simpl.
    assert ((((0 <=? rel_from r) && (rel_from r <? Z.of_nat num))
             && ((0 <=? rel_to r) && (rel_to r <? Z.of_nat num)))%Z = true) as ->.
    { rewrite !andb_true_iff. lia. }
    simpl. by destruct r.
Qed.

Lemma validate_rel_raises num rel e :
  validate_rel num rel = Raise e →
  exc_type e = ValueError
  ∧ (exc_msg e = RelMissingKeys rel
     ∨ exc_msg e = RelLabelNotString rel
     ∨ exc_msg e = CouldNotParseRel rel).
Proof.
  unfold validate_rel. intros H.
  destruct rel as [| | | | | |kvs]; try (injection H as <-; by eauto).
  destruct (Yaml.get "from_abstraction" kvs) as [from_abstraction|];
    [|injection H as <-; by eauto].
  destruct (Yaml.get "to_abstraction" kvs) as [to_abstraction|];
    [|injection H as <-; by eauto].
  destruct (Yaml.get "label" kvs) as [label|]; [|injection H as <-; by eauto].
  destruct label as [| | | |label_text| |]; try (injection H as <-; by eauto).
  unfold raise_value_error in H.
  match type of H with try_except ?b (Raise ?e) = _ =>
    destruct (try_except_raise b e) as [(r' & Hbody & Htry)|[_ Htry]]
  end; rewrite Htry in H; [done|].
  injection H as <-. by eauto.
Qed.

End AnalyzeMore.

(** X6. What the Relationship Analyzer accepts. The validation succeeds if
    and only if the loaded response is a mapping whose [summary] is a string
    and whose [relationships] is a sequence of mappings, each with a string
    [label] and with [from_abstraction] and [to_abstraction] that read as
    integers of [0, bound), the bound being the number of lines of the
    abstraction listing. The result then holds that summary and one edge per
    relationship, in order, with the indices read and the label: no edge is
    dropped or reordered. *)
Theorem analyze_accepted_iff
    (abstraction_listing : string) (relationships_data : yaml) (graph : relationships) :
  AnalyzeRelationships.exec_validate abstraction_listing relationships_data = Ok graph ↔
  ∃ kvs rels,
    relationships_data = YMap kvs
    ∧ Yaml.get "summary" kvs = Some (YStr (summary graph))
    ∧ Yaml.get "relationships" kvs = Some (YSeq rels)
    ∧ Forall2 (rel_accepted (AnalyzeRelationships.num_abstractions abstraction_listing))
        rels (details graph).
Proof.
  unfold AnalyzeRelationships.exec_validate. split.
  - intros H. destruct relationships_data as [| | | | | |kvs]; try done.
    destruct (Yaml.get "summary" kvs) as [data_summary|] eqn:Hs; [|done].
    destruct (Yaml.get "relationships" kvs) as [data_relationships|] eqn:Hr; [|done].
    destruct data_summary as [| | | |summary_text| |]; try done.
    destruct data_relationships as [| | | | |rels|]; try done.
    apply bind_ok in H as (validated & Hloop & [= <-]). simpl.
    exists kvs, rels. split_and!; try done.
    apply for_each_ok in Hloop. eapply Forall2_impl; [done|].
    intros rel r. apply AnalyzeMore.validate_rel_iff.
  - intros (kvs & rels & -> & Hs & Hr & Hall). rewrite Hs, Hr.
    assert (for_each (AnalyzeRelationships.validate_rel
                        (AnalyzeRelationships.num_abstractions abstraction_listing)) rels
            = Ok (details graph)) as ->.
    { apply for_each_ok. eapply Forall2_impl; [done|].
      intros rel r. apply AnalyzeMore.validate_rel_iff. }
    simpl. by destruct graph.
Qed.

(** X7. The exceptions of the Relationship Analyzer. For a loaded response
    within the conversion limit (beyond it, [str] of an integer and the
    message that shows the relationship raise the [ValueError] of the limit
    instead), the exception that a failing validation raises is a
    [ValueError] with one of six messages: three about the response as a
    whole, and, for one of its relationships, missing keys, a label that is
    no string, or "Could not parse indices from relationship". "Invalid
    index in relationship ... Max index is ..." is never the message of the
    exception raised: an index out of range is reported as one that could
    not be parsed, and the handler leaves the first message as its context
    only. Every value that the message shows is a part of the response, so
    building the message raises nothing. *)
Theorem analyze_exceptions
    (abstraction_listing : string) (relationships_data : yaml) (e : exc) :
  Sys.within_limit relationships_data = true →
  AnalyzeRelationships.exec_validate abstraction_listing relationships_data = Raise e →
  exc_type e = ValueError
  ∧ message_within_limit (exc_msg e)
  ∧ (exc_msg e = NotDictOrMissingKeys
     ∨ exc_msg e = SummaryNotString
     ∨ exc_msg e = RelationshipsNotList
     ∨ ∃ kvs rels rel,
         relationships_data = YMap kvs
         ∧ Yaml.get "relationships" kvs = Some (YSeq rels)
         ∧ rel ∈ rels
         ∧ (exc_msg e = RelMissingKeys rel
            ∨ exc_msg e = RelLabelNotString rel
            ∨ exc_msg e = CouldNotParseRel rel)).
Proof.
  unfold AnalyzeRelationships.exec_validate. intros Hlimit H.
  assert (message_within_limit NotDictOrMissingKeys) as Hnone1 by constructor.
  assert (message_within_limit SummaryNotString) as Hnone2 by constructor.
  assert (message_within_limit RelationshipsNotList) as Hnone3 by constructor.
  destruct relationships_data as [| | | | | |kvs]; try (injection H as <-; by eauto).
  destruct (Yaml.get "summary" kvs) as [data_summary|]; [|injection H as <-; by eauto].
  destruct (Yaml.get "relationships" kvs) as [data_relationships|] eqn:Hr;
    [|injection H as <-; by eauto].
  destruct data_summary as [| | | |summary_text| |]; try (injection H as <-; by eauto 6).
  destruct data_relationships as [| | | | |rels|]; try (injection H as <-; by eauto 6).
  destruct (for_each _ rels) as [validated|e'] eqn:Hloop; [done|]. injection H as <-.
  apply for_each_raises in Hloop as (rel & Hin & Hrel).
  apply AnalyzeMore.validate_rel_raises in Hrel as [Hty Hmsg].
  assert (Sys.within_limit rel = true) as Hrel.
  { eapply within_limit_elem; [|done]. by eapply within_limit_get. }
  split_and!; [done| |do 3 right; by exists kvs, rels, rel].
  unfold message_within_limit.
  destruct Hmsg as [->|[->| ->]]; cbn [shown_values]; by repeat constructor.
Qed.

Lemma analyze_exceptions_witness :
  exc_type (Exc ValueError SummaryNotString) = ValueError
  ∧ message_within_limit (exc_msg (Exc ValueError SummaryNotString))
  ∧ (exc_msg (Exc ValueError SummaryNotString) = NotDictOrMissingKeys
     ∨ exc_msg (Exc ValueError SummaryNotString) = SummaryNotString
     ∨ exc_msg (Exc ValueError SummaryNotString) = RelationshipsNotList
     ∨ ∃ kvs rels rel,
         YMap [(YStr "summary", YInt 3); (YStr "relationships", YSeq [])] = YMap kvs
         ∧ Yaml.get "relationships" kvs = Some (YSeq rels)
         ∧ rel ∈ rels
         ∧ (exc_msg (Exc ValueError SummaryNotString) = RelMissingKeys rel
            ∨ exc_msg (Exc ValueError SummaryNotString) = RelLabelNotString rel
            ∨ exc_msg (Exc ValueError SummaryNotString) = CouldNotParseRel rel)).
Proof.
  apply (analyze_exceptions "0 # X"
           (YMap [(YStr "summary", YInt 3); (YStr "relationships", YSeq [])]));
    vm_compute; reflexivity.
Defined.

(** * From one stage to the next *)

Module PrepFacts.

Lemma elem_of_all_relevant_indices abstractions idx :
  idx ∈ AnalyzePrep.all_relevant_indices abstractions ↔
  ∃ abstr, abstr ∈ abstractions ∧ idx ∈ files abstr.
Proof.
  unfold AnalyzePrep.all_relevant_indices.
  induction abstractions as [|abstr abstractions IH] using rev_ind.
  - simpl. split; [by intros ?%elem_of_empty|by intros (? & ?%elem_of_nil & _)].
  - rewrite foldl_app. simpl. rewrite elem_of_union, IH, elem_of_list_to_set. split.
    + intros [(a & Ha & Hi)|Hi].
      * exists a. split; [apply elem_of_app; by left|done].
      * exists abstr. split; [apply elem_of_app; right; by apply list_elem_of_singleton|done].
    + intros (a & [Ha| ->%list_elem_of_singleton]%elem_of_app & Hi); [left; eauto|by right].
Qed.

Lemma getitem_is_Some {A} (l : list A) (i : Z) :
  is_Some (OrderPrep.getitem l i) ↔ (- Z.of_nat (length l) ≤ i < Z.of_nat (length l))%Z.
Proof.
  unfold OrderPrep.getitem.
  destruct (Z.leb_spec 0 i); [rewrite lookup_lt_is_Some; lia|].
  destruct (Z.leb_spec (- Z.of_nat (length l)) i).
  - rewrite lookup_lt_is_Some. lia.
  - split; [by intros [? ?]|lia].
Qed.

Lemma add_relationship_None abstractions rels :
  foldl (OrderPrep.add_relationship abstractions) None rels = None.
Proof. induction rels as [|r rels IH]; [done|]. simpl. apply IH. Qed.

Lemma context_is_Some abstractions (start : string) (rels : list relationship) :
  is_Some (foldl (OrderPrep.add_relationship abstractions) (Some start) rels) ↔
  Forall (λ r, is_Some (OrderPrep.getitem abstractions (rel_from r))
               ∧ is_Some (OrderPrep.getitem abstractions (rel_to r))) rels.
Proof.
  revert start. induction rels as [|r rels IH]; intros start.
  - simpl. split; [constructor|eauto].
  - rewrite Forall_cons. cbn [foldl]. unfold OrderPrep.add_relationship at 2. simpl.
    destruct (OrderPrep.getitem abstractions (rel_from r)) as [a|]; simpl.
    + destruct (OrderPrep.getitem abstractions (rel_to r)) as [b|]; simpl.
      * rewrite IH. split; [intros ?; split; [split|]; eauto|by intros [_ ?]].
      * rewrite add_relationship_None. split; [by intros [? ?]|by intros [[_ [? ?]] _]].
    + rewrite add_relationship_None. split; [by intros [? ?]|by intros [[[? ?] _] _]].
Qed.

Lemma prep_is_Some
    (abstractions : list abstraction) (rels : relationships) (project_name : string) :
  is_Some (OrderPrep.prep abstractions rels project_name) ↔
  Forall (λ r,
      (- Z.of_nat (length abstractions) ≤ rel_from r < Z.of_nat (length abstractions))%Z
      ∧ (- Z.of_nat (length abstractions) ≤ rel_to r < Z.of_nat (length abstractions))%Z)
    (details rels).
Proof.
  unfold OrderPrep.prep.
  assert (is_Some (OrderPrep.context abstractions rels) ↔
          Forall (λ r, is_Some (OrderPrep.getitem abstractions (rel_from r))
                       ∧ is_Some (OrderPrep.getitem abstractions (rel_to r)))
            (details rels)) as Hctx.
  { unfold OrderPrep.context. apply PrepFacts.context_is_Some. }
  setoid_rewrite PrepFacts.getitem_is_Some in Hctx. rewrite <- Hctx.
  destruct (OrderPrep.context abstractions rels); simpl; split; intros [? ?]; eauto; done.
Qed.

End PrepFacts.

(** X8. The files shown to the Relationship Analyzer. The content map that
    [AnalyzeRelationships.prep] builds holds exactly one entry for every
    file index that some abstraction lists and that is the position of a
    file: the key "<index> # <path>" mapped to the file's content. Nothing
    else is in the map. *)
Theorem relevant_files_exact
    (files_data : list (string * string)) (abstractions : list abstraction)
    (k v : string) :
  AnalyzePrep.relevant_files_content_map files_data abstractions !! k = Some v ↔
  ∃ abstr idx path,
    abstr ∈ abstractions ∧ idx ∈ files abstr
    ∧ (0 ≤ idx)%Z ∧ files_data !! Z.to_nat idx = Some (path, v)
    ∧ k = Py.str_Z idx +:+ " # " +:+ path.
Proof.
  unfold AnalyzePrep.relevant_files_content_map. rewrite get_content_lookup.
  setoid_rewrite merge_sort_Permutation. setoid_rewrite elem_of_elements.
  setoid_rewrite PrepFacts.elem_of_all_relevant_indices. split.
  - intros (idx & (abstr & Ha & Hi) & path & H0 & Hp & ->). by exists abstr, idx, path.
  - intros (abstr & idx & path & Ha & Hi & H0 & Hp & ->).
    exists idx. split; [by exists abstr|]. by exists path.
Qed.

(** X11. When [OrderChapters.prep] raises. Building the context of the
    Chapter Sequencer looks up the abstractions at both ends of every
    relationship; it succeeds if and only if every such index lies in
    [-n, n), [n] being the number of abstractions (a negative index counts
    from the end), and raises [IndexError] otherwise. *)
Theorem order_prep_succeeds_iff
    (abstractions : list abstraction) (rels : relationships) (project_name : string) :
  is_Some (OrderPrep.prep abstractions rels project_name) ↔
  Forall (λ r,
      (- Z.of_nat (length abstractions) ≤ rel_from r < Z.of_nat (length abstractions))%Z
      ∧ (- Z.of_nat (length abstractions) ≤ rel_to r < Z.of_nat (length abstractions))%Z)
    (details rels).
Proof. apply PrepFacts.prep_is_Some. Qed.

(** X12. The Relationship Analyzer hands the Chapter Sequencer usable
    indices, or does not. With at least one abstraction and no newline in a
    name, every graph that the Analyzer validates lets [OrderChapters.prep]
    build its context. With no abstraction at all, every validated graph
    that holds an edge makes [OrderChapters.prep] raise [IndexError]: the
    Analyzer's bound is then 1 and the edge names the abstraction 0, which
    does not exist. *)
Theorem order_prep_after_analyze
    (abstractions : list abstraction) (relationships_data : yaml)
    (rels : relationships) (project_name : string) :
  AnalyzeRelationships.run abstractions relationships_data = Ok rels →
  (abstractions ≠ [] → Forall single_line_name abstractions →
   is_Some (OrderPrep.prep abstractions rels project_name))
  ∧ (abstractions = [] → details rels ≠ [] →
     OrderPrep.prep abstractions rels project_name = None).
Proof.
  intros Hrun. apply AnalyzeFacts.exec_validate_range in Hrun. split.
  - intros Hne Hnames. apply PrepFacts.prep_is_Some.
    rewrite AnalyzeFacts.num_abstractions_listing in Hrun by done.
    apply AnalyzeFacts.name_newlines_zero in Hnames. rewrite Hnames in Hrun.
    eapply Forall_impl; [done|]. simpl. intros r. lia.
  - intros -> Hedge.
    destruct (OrderPrep.prep [] rels project_name) eqn:Hprep; [|done].
    assert (is_Some (OrderPrep.prep [] rels project_name)) as Hsome by by rewrite Hprep.
    apply PrepFacts.prep_is_Some in Hsome.
    destruct (details rels) as [|r more]; [done|].
    apply Forall_cons in Hsome as [[Hfrom _] _]. simpl in Hfrom. lia.
Qed.

Lemma order_prep_after_analyze_witness :
  is_Some (OrderPrep.prep example_abstractions
             (Relationships "s" [Relationship 0 1 "uses"]) "demo").
Proof.
  refine (proj1 (order_prep_after_analyze example_abstractions example_relationships
                   (Relationships "s" [Relationship 0 1 "uses"]) "demo" _) _ _).
  - vm_compute. reflexivity.
  - discriminate.
  - repeat constructor.
Defined.

(** * The items of the Chapter Writer *)

Module WritePrepFacts.
Import WritePrep.

Lemma enumerate_snoc {A} (l : list A) (x : A) :
  imap pair (l ++ [x]) = imap pair l ++ [(length l, x)].
Proof. rewrite imap_app. simpl. by rewrite Nat.add_0_r. Qed.

Lemma first_loop_snoc abstractions chapter_order idx :
  first_loop abstractions (chapter_order ++ [idx])
  = first_loop_body abstractions (first_loop abstractions chapter_order)
      (length chapter_order, idx).
Proof. unfold first_loop. by rewrite enumerate_snoc, foldl_app. Qed.

Lemma chapter_info_at_app chapter_order more abstractions k :
  k < length chapter_order →
  chapter_info_at (chapter_order ++ more) abstractions k
  = chapter_info_at chapter_order abstractions k.
Proof. intros Hk. unfold chapter_info_at. by rewrite lookup_app_l. Qed.

Lemma chapter_info_at_is_Some chapter_order abstractions k :
  valid_order (length abstractions) chapter_order → k < length chapter_order →
  is_Some (chapter_info_at chapter_order abstractions k).
Proof.
  intros [_ Hr] Hk. unfold chapter_info_at.
  destruct (lookup_lt_is_Some_2 chapter_order k Hk) as [idx Hidx]. rewrite Hidx. simpl.
  rewrite Forall_forall in Hr.
  assert (0 ≤ idx < Z.of_nat (length abstractions))%Z as Hidx_r.
  { apply Hr. by eapply list_elem_of_lookup_2. }
  destruct (lookup_lt_is_Some_2 abstractions (Z.to_nat idx)) as [a Ha]; [lia|].
  rewrite Ha. simpl. eauto.
Qed.

Lemma valid_order_snoc n chapter_order idx :
  valid_order n (chapter_order ++ [idx]) →
  valid_order n chapter_order ∧ (idx ∉ chapter_order) ∧ (0 ≤ idx < Z.of_nat n)%Z.
Proof.
  intros [Hnd Hr]. apply NoDup_app in Hnd as (Hnd & Hfresh & _).
  apply Forall_app in Hr as [Hr [Hidx _]%Forall_cons].
  split_and!; [by split| |lia|lia]. intros Hin. apply (Hfresh idx Hin). by left.
Qed.

(** After the first loop, the dictionary holds at every index of the order
    the chapter made at its position. *)
Lemma filenames_lookup abstractions chapter_order k idx :
  valid_order (length abstractions) chapter_order →
  chapter_order !! k = Some idx →
  (first_loop abstractions chapter_order).2 !! idx
  = chapter_info_at chapter_order abstractions k.
Proof.
  revert k idx. induction chapter_order as [|x chapter_order IH] using rev_ind;
    intros k idx Hvalid Hk; [done|].
  apply valid_order_snoc in Hvalid as (Hvalid & Hfresh & Hx).
  rewrite first_loop_snoc. unfold first_loop_body.
  destruct (first_loop abstractions chapter_order) as [all_chapters filenames] eqn:Hloop.
  unfold in_range. rewrite bool_decide_eq_true_2 by done.
  destruct (lookup_lt_is_Some_2 abstractions (Z.to_nat x)) as [a Ha]; [lia|].
  rewrite Ha. cbn [snd].
  destruct (decide (k < length chapter_order)) as [Hlt|Hge].
  - rewrite lookup_app_l in Hk by done.
    rewrite chapter_info_at_app by done.
    rewrite lookup_insert_ne.
    + by apply IH.
    + intros ->. apply Hfresh. by eapply list_elem_of_lookup_2.
  - assert (k = length chapter_order) as ->.
    { apply lookup_lt_Some in Hk. rewrite List.length_app in Hk. simpl in Hk. lia. }
    rewrite list_lookup_middle in Hk by done. injection Hk as <-.
    rewrite lookup_insert_eq. unfold chapter_info_at.
    rewrite list_lookup_middle by done. simpl. by rewrite Ha.
Qed.

End WritePrepFacts.

(** The items built for a valid order, position by position. *)
Lemma prep_items_of_valid_order
    (chapter_order : list Z) (abstractions : list WritePrep.details)
    (files_data : list (string * string)) (shared_project_name : string) :
  valid_order (length abstractions) chapter_order →
  ∃ items,
    WritePrep.prep chapter_order abstractions files_data shared_project_name = Some items
    ∧ length items = length chapter_order
    ∧ ∀ (k : nat) (it : WritePrep.item), items !! k = Some it →
        WritePrep.chapter_num it = k + 1
        ∧ chapter_order !! k = Some (WritePrep.abstraction_index it)
        ∧ abstractions !! Z.to_nat (WritePrep.abstraction_index it)
          = Some (WritePrep.abstraction_details it)
        ∧ WritePrep.related_files_content_map it
          = get_content_for_indices files_data
              (WritePrep.d_files (WritePrep.abstraction_details it))
        ∧ WritePrep.prev_chapter it
          = match k with
            | 0 => None
            | S j => chapter_info_at chapter_order abstractions j
            end
        ∧ WritePrep.next_chapter it = chapter_info_at chapter_order abstractions (k + 1)
        ∧ WritePrep.chapter_filenames it !! WritePrep.abstraction_index it
          = chapter_info_at chapter_order abstractions k.
Proof.
  intros Hvalid. unfold WritePrep.prep.
  pose proof (WritePrepFacts.filenames_lookup abstractions chapter_order) as Hfiles.
  destruct (WritePrep.first_loop abstractions chapter_order) as [all_chapters filenames].
  cbn [snd] in Hfiles. cbv zeta.
  set (body := WritePrep.second_loop_body abstractions files_data shared_project_name
                 chapter_order (Py.join NL all_chapters) filenames).
  cut (∀ done_part rest, chapter_order = done_part ++ rest →
         ∃ items, foldl body (Some []) (imap pair done_part) = Some items
           ∧ length items = length done_part
           ∧ ∀ k it, items !! k = Some it →
               WritePrep.chapter_num it = k + 1
               ∧ chapter_order !! k = Some (WritePrep.abstraction_index it)
               ∧ abstractions !! Z.to_nat (WritePrep.abstraction_index it)
                 = Some (WritePrep.abstraction_details it)
               ∧ WritePrep.related_files_content_map it
                 = get_content_for_indices files_data
                     (WritePrep.d_files (WritePrep.abstraction_details it))
               ∧ WritePrep.prev_chapter it
                 = match k with
                   | 0 => None
                   | S j => chapter_info_at chapter_order abstractions j
                   end
               ∧ WritePrep.next_chapter it
                 = chapter_info_at chapter_order abstractions (k + 1)
               ∧ WritePrep.chapter_filenames it !! WritePrep.abstraction_index it
                 = chapter_info_at chapter_order abstractions k).
  { intros Hcut. destruct (Hcut chapter_order []) as (items & ? & ? & ?);
      [by rewrite List.app_nil_r|]. by exists items. }
  induction done_part as [|idx done_part IH] using rev_ind; intros rest Horder.
  { exists []. split_and!; done. }
  destruct (IH (idx :: rest)) as (items & Hfold & Hlen & Hitems).
  { by rewrite Horder, <- List.app_assoc. }
  rewrite WritePrepFacts.enumerate_snoc, foldl_app, Hfold. cbn [foldl].
  assert (chapter_order !! length done_part = Some idx) as Hidx.
  { rewrite Horder, <- List.app_assoc. by apply list_lookup_middle. }
  assert (length done_part < length chapter_order) as Hpos.
  { by eapply lookup_lt_Some. }
  destruct Hvalid as [Hnd Hr]. pose proof Hr as Hr'. rewrite Forall_forall in Hr'.
  assert (0 ≤ idx < Z.of_nat (length abstractions))%Z as Hidx_r.
  { apply Hr'. by eapply list_elem_of_lookup_2. }
  destruct (lookup_lt_is_Some_2 abstractions (Z.to_nat idx)) as [a Ha]; [lia|].
  unfold body at 1, WritePrep.second_loop_body. cbn [mbind option_bind].
  unfold WritePrep.in_range. rewrite bool_decide_eq_true_2 by done. rewrite Ha.
  (* the previous chapter *)
  assert (∃ prev,
            (if 0 <? length done_part
             then prev_idx ← chapter_order !! (length done_part - 1);
                  Some <$> filenames !! prev_idx
             else Some None) = Some prev
            ∧ prev = match length done_part with
                     | 0 => None
                     | S j => chapter_info_at chapter_order abstractions j
                     end) as (prev & -> & Hprev).
  { destruct (length done_part) as [|j] eqn:Hj; [by exists None|].
    change (0 <? S j) with true. cbv iota. rewrite Nat.sub_succ, Nat.sub_0_r.
    destruct (lookup_lt_is_Some_2 chapter_order j) as [p Hp]; [lia|].
    rewrite Hp. cbn [mbind option_bind]. rewrite (Hfiles j p) by done.
    destruct (WritePrepFacts.chapter_info_at_is_Some chapter_order abstractions j)
      as [info Hinfo]; [done|lia|].
    rewrite Hinfo. by exists (Some info). }
  (* the next chapter *)
  assert (∃ next,
            (if length done_part <? length chapter_order - 1
             then next_idx ← chapter_order !! (length done_part + 1);
                  Some <$> filenames !! next_idx
             else Some None) = Some next
            ∧ next = chapter_info_at chapter_order abstractions (length done_part + 1))
    as (next & -> & Hnext).
  { destruct (Nat.ltb_spec (length done_part) (length chapter_order - 1)) as [Hlt|Hge].
    - destruct (lookup_lt_is_Some_2 chapter_order (length done_part + 1)) as [p Hp]; [lia|].
      rewrite Hp. cbn [mbind option_bind]. rewrite (Hfiles _ p) by done.
      destruct (WritePrepFacts.chapter_info_at_is_Some chapter_order abstractions
                  (length done_part + 1)) as [info Hinfo]; [done|lia|].
      rewrite Hinfo. by exists (Some info).
    - exists None. split; [done|]. unfold chapter_info_at.
      rewrite (lookup_ge_None_2 chapter_order) by lia. done. }
  cbn [mbind option_bind].
  eexists. split; [done|]. split; [rewrite !List.length_app; simpl; lia|].
  intros k it Hk.
  destruct (decide (k < length items)) as [Hlt|Hge].
  - rewrite lookup_app_l in Hk by done. by apply Hitems.
  - assert (k = length items) as ->.
    { apply lookup_lt_Some in Hk. rewrite List.length_app in Hk. simpl in Hk. lia. }
    rewrite list_lookup_middle in Hk by done. injection Hk as <-. cbn.
    rewrite Hlen. split_and!; try done. by apply Hfiles.
Qed.

(** X13. The items of the Chapter Writer for a valid chapter order. When the
    names of the abstractions are strings and the chapter order names
    positions of abstractions, none twice, [WriteChapters.prep] raises
    nothing and returns one item per position, in order. The item at position [k] has chapter number [k + 1], the
    abstraction the order names there, and the content map of that
    abstraction's files; its [prev_chapter] is the number, name and filename
    of the chapter at position [k - 1] (none at the first position), its
    [next_chapter] those of position [k + 1] (none at the last), and the
    dictionary of filenames holds its own chapter at its own index. *)
Theorem write_prep_items
    (chapter_order : list Z) (abstractions : list WritePrep.details)
    (files_data : list (string * string)) (shared_project_name : string) :
  valid_order (length abstractions) chapter_order →
  ∃ items,
    WritePrep.prep chapter_order abstractions files_data shared_project_name = Some items
    ∧ length items = length chapter_order
    ∧ ∀ (k : nat) (it : WritePrep.item), items !! k = Some it →
        WritePrep.chapter_num it = k + 1
        ∧ chapter_order !! k = Some (WritePrep.abstraction_index it)
        ∧ abstractions !! Z.to_nat (WritePrep.abstraction_index it)
          = Some (WritePrep.abstraction_details it)
        ∧ WritePrep.related_files_content_map it
          = get_content_for_indices files_data
              (WritePrep.d_files (WritePrep.abstraction_details it))
        ∧ WritePrep.prev_chapter it
          = match k with
            | 0 => None
            | S j => chapter_info_at chapter_order abstractions j
            end
        ∧ WritePrep.next_chapter it = chapter_info_at chapter_order abstractions (k + 1)
        ∧ WritePrep.chapter_filenames it !! WritePrep.abstraction_index it
          = chapter_info_at chapter_order abstractions k.
Proof. apply prep_items_of_valid_order. Qed.

Lemma write_prep_items_witness :
  ∃ items,
    WritePrep.prep [1; 0]%Z
      [WritePrep.Details "X" "dx" [0; 1]%Z; WritePrep.Details "Y" "dy" [2]%Z]
      [("a.py", "A"); ("b.py", "B"); ("c.py", "C")] "demo" = Some items
    ∧ length items = length [1; 0]%Z
    ∧ ∀ (k : nat) (it : WritePrep.item), items !! k = Some it →
        WritePrep.chapter_num it = k + 1
        ∧ [1; 0]%Z !! k = Some (WritePrep.abstraction_index it)
        ∧ [WritePrep.Details "X" "dx" [0; 1]%Z; WritePrep.Details "Y" "dy" [2]%Z]
            !! Z.to_nat (WritePrep.abstraction_index it)
          = Some (WritePrep.abstraction_details it)
        ∧ WritePrep.related_files_content_map it
          = get_content_for_indices [("a.py", "A"); ("b.py", "B"); ("c.py", "C")]
              (WritePrep.d_files (WritePrep.abstraction_details it))
        ∧ WritePrep.prev_chapter it
          = match k with
            | 0 => None
            | S j =>
                chapter_info_at [1; 0]%Z
                  [WritePrep.Details "X" "dx" [0; 1]%Z; WritePrep.Details "Y" "dy" [2]%Z] j
            end
        ∧ WritePrep.next_chapter it
          = chapter_info_at [1; 0]%Z
              [WritePrep.Details "X" "dx" [0; 1]%Z; WritePrep.Details "Y" "dy" [2]%Z] (k + 1)
        ∧ WritePrep.chapter_filenames it !! WritePrep.abstraction_index it
          = chapter_info_at [1; 0]%Z
              [WritePrep.Details "X" "dx" [0; 1]%Z; WritePrep.Details "Y" "dy" [2]%Z] k.
Proof.
  apply (write_prep_items [1; 0]%Z
           [WritePrep.Details "X" "dx" [0; 1]%Z; WritePrep.Details "Y" "dy" [2]%Z]).
  split.
  - constructor; [by intros [=]%list_elem_of_singleton|apply NoDup_singleton].
  - repeat constructor; simpl; lia.
Defined.

(** X15. A validated chapter order always lets the Chapter Writer prepare.
    Whenever the Chapter Sequencer validates an order for the abstractions
    at hand, whose names are strings, [WriteChapters.prep] raises nothing
    and prepares exactly one item per abstraction, each abstraction
    once. *)
Theorem write_prep_after_order
    (abstractions : list WritePrep.details) (entries : list yaml) (chapter_order : list Z)
    (files_data : list (string * string)) (shared_project_name : string) :
  OrderChapters.exec_validate (length abstractions) (YSeq entries) = Ok chapter_order →
  ∃ items,
    WritePrep.prep chapter_order abstractions files_data shared_project_name = Some items
    ∧ length items = length abstractions
    ∧ WritePrep.abstraction_index <$> items = chapter_order
    ∧ chapter_order ≡ₚ seqZ 0 (Z.of_nat (length abstractions)).
Proof.
  intros [_ Hperm]%exec_validate_order_iff.
  destruct (OrderLoop.permutation_range _ _ Hperm) as (Hnd & Hr & Hlen).
  destruct (prep_items_of_valid_order chapter_order abstractions files_data
              shared_project_name) as (items & Hprep & Hitems_len & Hitems); [by split|].
  exists items. split_and!; try done; [congruence|].
  apply list_eq. intros k. rewrite list_lookup_fmap.
  destruct (items !! k) as [it|] eqn:Hk; simpl.
  - by destruct (Hitems k it Hk) as (_ & -> & _).
  - apply lookup_ge_None in Hk. symmetry. apply lookup_ge_None. lia.
Qed.

Lemma write_prep_after_order_witness :
  ∃ items,
    WritePrep.prep [1; 0]%Z
      [WritePrep.Details "X" "dx" [0; 1]%Z; WritePrep.Details "Y" "dy" [2]%Z] [] "demo"
    = Some items
    ∧ length items
      = length [WritePrep.Details "X" "dx" [0; 1]%Z; WritePrep.Details "Y" "dy" [2]%Z]
    ∧ WritePrep.abstraction_index <$> items = [1; 0]%Z
    ∧ [1; 0]%Z ≡ₚ
      seqZ 0 (Z.of_nat
                (length [WritePrep.Details "X" "dx" [0; 1]%Z;
                         WritePrep.Details "Y" "dy" [2]%Z])).
Proof.
  apply (write_prep_after_order
           [WritePrep.Details "X" "dx" [0; 1]%Z; WritePrep.Details "Y" "dy" [2]%Z]
           [YStr "1 # Y"; YInt 0]).
  vm_compute. reflexivity.
Defined.

Module WritePrepEdge.
Import WritePrep.

(** Only indices in range get an entry in the dictionary of filenames. *)
Lemma filenames_in_range abstractions chapter_order idx :
  is_Some ((first_loop abstractions chapter_order).2 !! idx) →
  (0 ≤ idx < Z.of_nat (length abstractions))%Z.
Proof.
  induction chapter_order as [|x chapter_order IH] using rev_ind.
  - unfold first_loop. simpl. rewrite lookup_empty. by intros [? ?].
  - rewrite WritePrepFacts.first_loop_snoc. unfold first_loop_body.
    destruct (first_loop abstractions chapter_order) as [all_chapters filenames].
    unfold in_range. case_bool_decide as Hx; [|done].
    destruct (abstractions !! Z.to_nat x); [|done]. cbn [snd] in *.
    destruct (decide (x = idx)) as [<-|Hne]; [done|].
    by rewrite lookup_insert_ne.
Qed.

Lemma second_loop_None abstractions files_data name chapter_order listing filenames entries :
  foldl (second_loop_body abstractions files_data name chapter_order listing filenames)
    None entries = None.
Proof.
  induction entries as [|[i idx] entries IH]; [done|]. cbn [foldl].
  unfold second_loop_body at 2. simpl. apply IH.
Qed.

End WritePrepEdge.

(** X14. An invalid index after a valid one is not skipped. When the chapter
    order holds an index of an existing abstraction followed at once by an
    index that is out of range, [WriteChapters.prep] raises [KeyError] at
    the lookup of the next chapter's filename, whatever the rest of the
    order is: the branch that would skip the invalid index is not
    reached. *)
Theorem write_prep_key_error
    (before after : list Z) (valid invalid : Z) (abstractions : list WritePrep.details)
    (files_data : list (string * string)) (shared_project_name : string) :
  (0 ≤ valid < Z.of_nat (length abstractions))%Z →
  ¬ (0 ≤ invalid < Z.of_nat (length abstractions))%Z →
  WritePrep.prep (before ++ valid :: invalid :: after) abstractions files_data
    shared_project_name = None.
Proof.
  intros Hvalid Hinvalid. unfold WritePrep.prep.
  pose proof (WritePrepEdge.filenames_in_range abstractions
                (before ++ valid :: invalid :: after) invalid) as Hkeys.
  destruct (WritePrep.first_loop abstractions (before ++ valid :: invalid :: after))
    as [all_chapters filenames].
  cbn [snd] in Hkeys. cbv zeta.
  assert (filenames !! invalid = None) as Hnone.
  { destruct (filenames !! invalid) eqn:H; [|done]. destruct Hinvalid. apply Hkeys. eauto. }
  rewrite imap_app, foldl_app. rewrite imap_cons. cbn [foldl].
  destruct (foldl _ (Some []) (imap pair before)) as [items|].
  2:{ unfold WritePrep.second_loop_body at 2. simpl.
      apply WritePrepEdge.second_loop_None. }
  unfold WritePrep.second_loop_body at 2.
  cbn [mbind option_bind].
  unfold WritePrep.in_range. rewrite bool_decide_eq_true_2 by done.
  destruct (lookup_lt_is_Some_2 abstractions (Z.to_nat valid)) as [a Ha]; [lia|].
  rewrite Ha.
  destruct (if 0 <? length before + 0 then _ else _) as [prev|];
    [|apply WritePrepEdge.second_loop_None].
  cbn [mbind option_bind].
  assert ((length before + 0
           <? length (before ++ valid :: invalid :: after) - 1) = true) as ->.
  { apply Nat.ltb_lt. rewrite List.length_app. simpl. lia. }
  assert ((before ++ valid :: invalid :: after) !! (length before + 0 + 1) = Some invalid)
    as ->.
  { rewrite Nat.add_0_r. rewrite lookup_app_r by lia.
    replace (length before + 1 - length before) with 1 by lia. done. }
  cbn [mbind option_bind]. rewrite Hnone. simpl.
  apply WritePrepEdge.second_loop_None.
Qed.

Lemma write_prep_key_error_witness :
  WritePrep.prep ([] ++ 0%Z :: 7%Z :: [])
    [WritePrep.Details "X" "dx" []] [] "demo" = None.
Proof. apply (write_prep_key_error [] [] 0 7); simpl; lia. Defined.

(** * The diagram and the documents of the tutorial *)

Module TextFacts.
Import Py PyFacts PyText.

(** Replacing a single character walks over the text once. *)
Lemma replace_char c new s :
  replace (String c EmptyString) new s
  = Yaml.concat_map_chars (λ d, if Ascii.eqb c d then new else String d EmptyString) s.
Proof.
  assert (∀ t, String.prefix EmptyString t = true) as Hnil by by intros [].
  unfold replace. induction s as [|d s IH]; [done|].
  cbn [replace_from Yaml.concat_map_chars String.prefix String.length Nat.sub].
  destruct (ascii_dec c d) as [->|Hne].
  - rewrite Ascii.eqb_refl, Hnil. by rewrite IH.
  - apply Ascii.eqb_neq in Hne. rewrite Hne, IH. done.
Qed.

(** What replacing [c] leaves of a character [x]: none of [c] itself when
    [new] holds none, and no [x] that neither the text nor [new] held. *)
Lemma replace_char_removes c new s :
  contains c new = false → contains c (replace (String c EmptyString) new s) = false.
Proof.
  intros Hnew. rewrite replace_char. induction s as [|d s IH]; [done|].
  cbn [Yaml.concat_map_chars]. rewrite contains_app, IH, orb_false_r.
  destruct (Ascii.eqb_spec c d) as [<-|Hne]; [done|].
  simpl. rewrite orb_false_r. by apply Ascii.eqb_neq.
Qed.

Lemma replace_char_keeps_absent x c new s :
  contains x new = false → contains x s = false →
  contains x (replace (String c EmptyString) new s) = false.
Proof.
  intros Hnew. rewrite replace_char. induction s as [|d s IH]; [done|].
  cbn [Yaml.concat_map_chars contains]. rewrite orb_false_iff. intros [Hd Hs].
  rewrite contains_app, IH, orb_false_r by done.
  destruct (Ascii.eqb c d); [done|]. simpl. by rewrite Hd.
Qed.

Lemma contains_take x n s : contains x s = false → contains x (take n s) = false.
Proof.
  revert n. induction s as [|d s IH]; intros [|n]; try done.
  cbn [contains take]. rewrite !orb_false_iff. intros [? ?]. auto.
Qed.

Lemma length_take n s : String.length (take n s) = Nat.min n (String.length s).
Proof.
  revert n. induction s as [|d s IH]; intros [|n]; try done.
  cbn [take String.length]. by rewrite IH.
Qed.

(** A text ends with what was appended last. *)
Lemma endswith_app a b : endswith (a +:+ b) b = true.
Proof.
  induction a as [|c a IH].
  - rewrite app_nil_l. destruct b; simpl; by rewrite ?Ascii.eqb_refl, ?String.eqb_refl.
  - rewrite app_cons. cbn [endswith]. by rewrite IH, orb_true_r.
Qed.

Lemma endswith_app_r a b p : endswith b p = true → endswith (a +:+ b) p = true.
Proof.
  intros H. induction a as [|c a IH]; [done|].
  rewrite app_cons. cbn [endswith]. by rewrite IH, orb_true_r.
Qed.

End TextFacts.

(** X16. The label of an edge of the diagram. Whatever the label of a
    relationship, the edge label written in the diagram holds no double
    quote and no newline and is at most 30 characters long: the label with
    its quotes removed and its newlines turned into spaces when that is at
    most 30 characters, and otherwise the first 27 characters of it
    followed by three dots. *)
Theorem edge_label_fits (label : string) :
  let sanitized :=
    PyText.replace NL " " (PyText.replace CombinePrep.DQ EmptyString label) in
  String.length (CombinePrep.edge_label label) ≤ 30
  ∧ Py.contains Yaml.DQUOTE (CombinePrep.edge_label label) = false
  ∧ Py.contains Py.LF (CombinePrep.edge_label label) = false
  ∧ CombinePrep.edge_label label
    = if 30 <? String.length sanitized
      then PyText.take 27 sanitized +:+ "..."
      else sanitized.
Proof.
  cbv zeta. unfold CombinePrep.edge_label. cbv zeta.
  set (sanitized := PyText.replace NL " " (PyText.replace CombinePrep.DQ EmptyString label)).
  assert (Py.contains Yaml.DQUOTE sanitized = false) as Hq.
  { apply TextFacts.replace_char_keeps_absent; [done|].
    by apply TextFacts.replace_char_removes. }
  assert (Py.contains Py.LF sanitized = false) as Hn.
  { by apply TextFacts.replace_char_removes. }
  change (30 - 3) with 27.
  destruct (Nat.ltb_spec 30 (String.length sanitized)) as [Hlong|Hshort].
  - split_and!; [|..|done].
    + rewrite length_app, TextFacts.length_take.
      change (String.length "...") with 3. lia.
    + rewrite PyFacts.contains_app, TextFacts.contains_take by done. done.
    + rewrite PyFacts.contains_app, TextFacts.contains_take by done. done.
  - by split_and!.
Qed.

(** X17. Every document ends with the attribution. The index document and
    every chapter document that [CombineTutorial.prep] builds end with the
    fixed attribution text, whatever the project, the summary, the
    relationships, the chapter order and the chapter texts are. *)
Theorem documents_end_with_attribution
    (project_name : string) (repo_url : option string) (rels : relationships)
    (chapter_order : list Z) (names : list string) (chapters_content : list string) :
  Py.endswith
    (CombinePrep.index_content project_name repo_url rels chapter_order names
       chapters_content) CombineTutorial.attribution = true
  ∧ Forall (λ file, Py.endswith file.2 CombineTutorial.attribution = true)
      (CombineTutorial.chapter_files chapter_order names chapters_content).
Proof.
  split.
  - unfold CombinePrep.index_content.
    repeat lazymatch goal with
    | |- Py.endswith (_ +:+ CombineTutorial.attribution) _ = true => fail
    | |- Py.endswith (_ +:+ _) _ = true => apply TextFacts.endswith_app_r
    end.
    apply TextFacts.endswith_app.
  - unfold CombineTutorial.chapter_files. generalize 0 as i.
    induction chapter_order as [|idx chapter_order IH]; intros i; [constructor|].
    cbn [CombineTutorial.chapter_files_from]. apply Forall_app. split; [|apply IH].
    case_bool_decide; [|constructor].
    destruct (names !! Z.to_nat idx); [|constructor].
    destruct (chapters_content !! i); [|constructor].
    repeat constructor. apply TextFacts.endswith_app.
Qed.

(** * The files of the tutorial *)

Module FilesFacts.
Import Py PyFacts PyText CombineTutorial.

Lemma chapter_files_from_lookup i chapter_order names chapters_content :
  Forall (λ idx, (0 ≤ idx < Z.of_nat (length names))%Z) chapter_order →
  i + length chapter_order ≤ length chapters_content →
  length (chapter_files_from i chapter_order names chapters_content) = length chapter_order
  ∧ ∀ k idx, chapter_order !! k = Some idx →
      ∃ abstraction_name chapter_content,
        names !! Z.to_nat idx = Some abstraction_name
        ∧ chapters_content !! (i + k) = Some chapter_content
        ∧ chapter_files_from i chapter_order names chapters_content !! k
          = Some (WriteChapters.chapter_filename (i + k) abstraction_name,
                  add_attribution chapter_content).
Proof.
  revert i. induction chapter_order as [|x chapter_order IH]; intros i Hr Hlen; [done|].
  apply Forall_cons in Hr as [Hx Hr]. simpl in Hlen.
  cbn [chapter_files_from]. rewrite bool_decide_eq_true_2 by done.
  destruct (lookup_lt_is_Some_2 names (Z.to_nat x)) as [abstraction_name Hname]; [lia|].
  destruct (lookup_lt_is_Some_2 chapters_content i) as [chapter_content Hc]; [lia|].
  rewrite Hname, Hc.
  destruct (IH (S i) Hr ltac:(lia)) as [IHlen IHlookup].
  split; [simpl; by rewrite IHlen|].
  intros [|k] idx Hk.
  - injection Hk as <-. rewrite Nat.add_0_r. by exists abstraction_name, chapter_content.
  - destruct (IHlookup k idx Hk) as (n & c & Hn & Hcc & Hf).
    replace (i + S k) with (S i + k) by lia. by exists n, c.
Qed.

(** A chapter filename opens with a digit. *)
Lemma chapter_filename_head i chapter_name :
  ∃ c r, WriteChapters.chapter_filename i chapter_name = String c r ∧ isdecimal c = true.
Proof.
  unfold WriteChapters.chapter_filename.
  destruct (format_02d_uint (i + 1)) as (d & Hd & Hf & _).
  pose proof (format_02d_digits (i + 1)) as Hdigits.
  destruct (format_02d (i + 1)) as [|c r] eqn:Heq.
  - by destruct d.
  - simpl in Hdigits. apply andb_true_iff in Hdigits as [Hc _].
    exists c. rewrite app_cons. eauto.
Qed.

Lemma path_join_relative a b c r :
  b = String c r → isdecimal c = true ∨ c = "i"%char →
  ∃ prefix, path_join a b = prefix +:+ b ∧ ∀ b' c' r',
      b' = String c' r' → isdecimal c' = true ∨ c' = "i"%char →
      path_join a b' = prefix +:+ b'.
Proof.
  intros -> Hc. unfold path_join.
  assert (∀ c' r', isdecimal c' = true ∨ c' = "i"%char →
                   startswith (String c' r') "/" = false) as Hrel.
  { intros c' r' [Hd| ->]; [|done]. unfold startswith. cbn [String.prefix].
    destruct (ascii_dec "/" c') as [<-|]; [by vm_compute in Hd|done]. }
  rewrite Hrel by done.
  destruct (String.eqb a EmptyString || endswith a "/").
  - exists a. split; [done|]. intros b' c' r' -> Hc'. by rewrite Hrel.
  - exists (a +:+ "/"). rewrite app_assoc. split; [done|].
    intros b' c' r' -> Hc'. by rewrite Hrel, app_assoc.
Qed.

(** Writing files one after the other under distinct paths. *)
Lemma write_all_lookup (writes : list (string * string)) (fs : gmap string string) :
  NoDup writes.*1 →
  (∀ p v, (p, v) ∈ writes → foldl (λ fs '(p, v), <[p:=v]> fs) fs writes !! p = Some v)
  ∧ (∀ p, p ∉ writes.*1 → foldl (λ fs '(p, v), <[p:=v]> fs) fs writes !! p = fs !! p).
Proof.
  induction writes as [|[q w] writes IH] using rev_ind; intros Hnd.
  - split; [by intros ?? ?%elem_of_nil|done].
  - rewrite fmap_app in Hnd. apply NoDup_app in Hnd as (Hnd & Hfresh & _).
    destruct (IH Hnd) as [IHin IHout]. split.
    + intros p v Hin. rewrite foldl_app. cbn [foldl].
      apply elem_of_app in Hin as [Hin|Hin].
      * rewrite lookup_insert_ne; [by apply IHin|].
        intros ->. apply (Hfresh p); [|by left].
        apply list_elem_of_fmap. by exists (p, v).
      * apply list_elem_of_singleton in Hin. injection Hin as -> ->.
        by rewrite lookup_insert_eq.
    + intros p Hp. rewrite foldl_app. cbn [foldl].
      rewrite fmap_app in Hp. apply not_elem_of_app in Hp as [Hp Hq].
      rewrite lookup_insert_ne; [by apply IHout|].
      intros ->. apply Hq. by left.
Qed.

End FilesFacts.

(** X18. The chapter files of a complete run. When every index of the
    chapter order is the position of an abstraction and there is a chapter
    text for every position, [CombineTutorial.prep] builds one file per
    position, in order, none skipped: at position [k] the filename made of
    [k + 1] and the name of the abstraction that the order names there, and
    the chapter text of position [k] with the attribution appended. *)
Theorem chapter_files_complete
    (chapter_order : list Z) (names : list string) (chapters_content : list string) :
  Forall (λ idx, (0 ≤ idx < Z.of_nat (length names))%Z) chapter_order →
  length chapter_order ≤ length chapters_content →
  length (CombineTutorial.chapter_files chapter_order names chapters_content)
  = length chapter_order
  ∧ ∀ (k : nat) (idx : Z), chapter_order !! k = Some idx →
      ∃ abstraction_name chapter_content,
        names !! Z.to_nat idx = Some abstraction_name
        ∧ chapters_content !! k = Some chapter_content
        ∧ CombineTutorial.chapter_files chapter_order names chapters_content !! k
          = Some (WriteChapters.chapter_filename k abstraction_name,
                  CombineTutorial.add_attribution chapter_content).
Proof.
  intros Hr Hlen. unfold CombineTutorial.chapter_files.
  by apply (FilesFacts.chapter_files_from_lookup 0).
Qed.

Lemma chapter_files_complete_witness :
  length (CombineTutorial.chapter_files [1; 0]%Z ["X"; "Y"] ["c1"; "c2"])
  = length [1; 0]%Z
  ∧ ∀ (k : nat) (idx : Z), [1; 0]%Z !! k = Some idx →
      ∃ abstraction_name chapter_content,
        ["X"; "Y"] !! Z.to_nat idx = Some abstraction_name
        ∧ ["c1"; "c2"] !! k = Some chapter_content
        ∧ CombineTutorial.chapter_files [1; 0]%Z ["X"; "Y"] ["c1"; "c2"] !! k
          = Some (WriteChapters.chapter_filename k abstraction_name,
                  CombineTutorial.add_attribution chapter_content).
Proof.
  apply (chapter_files_complete [1; 0]%Z ["X"; "Y"] ["c1"; "c2"]).
  - repeat constructor; simpl; lia.
  - simpl. lia.
Defined.

(** X19. What [CombineTutorial.exec] leaves on the file system. Writing the
    index and the chapter files that [prep] built, under any output path and
    over any earlier content, leaves the index document at "index.md", every
    chapter document at its own filename, and every other path as it was: no
    chapter file replaces the index or another chapter. *)
Theorem exec_writes_every_document
    (output_path index_content : string) (chapter_order : list Z)
    (names chapters_content : list string) (fs : gmap string string) :
  let chapter_files := CombineTutorial.chapter_files chapter_order names chapters_content in
  let fs' := CombineExec.exec output_path index_content chapter_files fs in
  fs' !! PyText.path_join output_path "index.md" = Some index_content
  ∧ (∀ filename content, (filename, content) ∈ chapter_files →
       fs' !! PyText.path_join output_path filename = Some content)
  ∧ (∀ path, path ≠ PyText.path_join output_path "index.md" →
       (∀ filename content, (filename, content) ∈ chapter_files →
          path ≠ PyText.path_join output_path filename) →
       fs' !! path = fs !! path).
Proof.
  cbv zeta. unfold CombineExec.exec.
  set (chapter_files := CombineTutorial.chapter_files chapter_order names chapters_content).
  destruct (FilesFacts.path_join_relative output_path "index.md" "i" "ndex.md")
    as (prefix & Hindex & Hjoin); [done|by right|].
  assert (∀ filename content, (filename, content) ∈ chapter_files →
            PyText.path_join output_path filename = prefix +:+ filename
            ∧ filename ≠ "index.md") as Hfile.
  { intros filename content Hin.
    apply chapter_files_from_position in Hin as (j & chapter_name & _ & ->).
    destruct (FilesFacts.chapter_filename_head j chapter_name) as (c & r & Heq & Hc).
    split; [by apply (Hjoin _ c r); [|left]|].
    rewrite Heq. intros [= -> _]. done. }
  set (writes := (λ '(filename, content), (prefix +:+ filename, content))
                   <$> chapter_files).
  assert (foldl (λ fs '(filename, content),
                   <[PyText.path_join output_path filename := content]> fs)
            (<[PyText.path_join output_path "index.md" := index_content]> fs)
            chapter_files
          = foldl (λ fs '(p, v), <[p:=v]> fs)
              (<[prefix +:+ "index.md" := index_content]> fs) writes) as ->.
  { rewrite Hindex. unfold writes. generalize (<[prefix +:+ "index.md":=index_content]> fs).
    revert Hfile. generalize chapter_files. clear.
    induction chapter_files as [|[f c] l IH]; intros Hfile m; [done|].
    cbn [foldl fmap list_fmap]. destruct (Hfile f c) as [-> _]; [by left|].
    apply IH. intros f' c' Hin. apply (Hfile f' c'). by right. }
  assert (NoDup writes.*1) as Hnd.
  { unfold writes. rewrite <- list_fmap_compose.
    rewrite (list_fmap_ext _ ((λ f, prefix +:+ f) ∘ fst) chapter_files)
      by (by intros ? [] ?).
    rewrite list_fmap_compose. apply NoDup_fmap; [apply _|].
    apply chapter_files_NoDup. }
  destruct (FilesFacts.write_all_lookup writes
              (<[prefix +:+ "index.md" := index_content]> fs) Hnd) as [Hin Hout].
  rewrite Hindex. split_and!.
  - rewrite Hout; [apply lookup_insert_eq|].
    intros ([p v] & Hp & ([f c] & [= -> ->] & Hf)%list_elem_of_fmap)%list_elem_of_fmap.
    simpl in Hp. apply (inj _) in Hp. by destruct (Hfile f c Hf).
  - intros filename content Hf. destruct (Hfile filename content Hf) as [-> _].
    apply Hin. apply list_elem_of_fmap. by exists (filename, content).
  - intros path Hne Hother. rewrite Hout; [by rewrite lookup_insert_ne|].
    intros ([p v] & -> & ([f c] & [= -> ->] & Hf)%list_elem_of_fmap)%list_elem_of_fmap.
    simpl in Hother. apply (Hother f c Hf). by destruct (Hfile f c Hf) as [-> _].
Qed.

(** * The name of the project *)

Module FetchFacts.
Import Py PyFacts PyText.

Lemma split_pieces_no_sep sep s :
  Forall (λ piece, contains sep piece = false) (split_list sep s).
Proof.
  unfold split_list. induction s as [|c s IH]; [by repeat constructor|].
  cbn [split]. destruct (split sep s) as [h t].
  apply Forall_cons in IH as [Hh Ht].
  destruct (Ascii.eqb c sep) eqn:Hc; repeat constructor; try done.
  simpl. by rewrite Hc, Hh.
Qed.

Lemma split_list_app sep a b :
  split_list sep (a +:+ String sep b) = split_list sep a ++ split_list sep b.
Proof.
  unfold split_list. induction a as [|c a IH].
  - rewrite app_nil_l. cbn [split]. rewrite Ascii.eqb_refl.
    by destruct (split sep b).
  - rewrite app_cons. cbn [split].
    destruct (split sep (a +:+ String sep b)) as [h t].
    destruct (split sep a) as [h' t']. destruct (split sep b) as [h'' t''].
    simpl in IH. injection IH as -> ->.
    by destruct (Ascii.eqb c sep).
Qed.

Lemma last_split_list sep a name :
  contains sep name = false →
  List.last (split_list sep (a +:+ String sep name)) EmptyString = name.
Proof.
  intros Hname. rewrite split_list_app.
  unfold split_list at 2. rewrite split_no_sep by done.
  apply List.last_last.
Qed.

(** Replacing adds nothing that neither the text nor [new] held. *)
Lemma replace_from_keeps_absent x old new skip s :
  contains x new = false → contains x s = false →
  contains x (replace_from old new skip s) = false.
Proof.
  intros Hnew. revert skip. induction s as [|c s IH]; intros skip; [done|].
  cbn [contains]. rewrite orb_false_iff. intros [Hc Hs].
  cbn [replace_from]. destruct skip as [|k]; [|by apply IH].
  destruct (String.prefix old (String c s)).
  - rewrite contains_app, Hnew. by apply IH.
  - cbn [contains]. rewrite Hc. by apply IH.
Qed.

(** A text without a dot, followed by ".git", loses just that ending. *)
Lemma replace_git_suffix s :
  contains "." s = false → replace ".git" EmptyString (s +:+ ".git") = s.
Proof.
  unfold replace. induction s as [|c s IH]; [done|].
  cbn [contains]. rewrite orb_false_iff. intros [Hc Hs].
  rewrite app_cons. cbn [replace_from String.prefix].
  destruct (ascii_dec "." c) as [<-|_]; [done|]. by rewrite IH.
Qed.

Lemma last_elem_of {A} (l : list A) d : l ≠ [] → List.last l d ∈ l.
Proof.
  induction l as [|x [|y l] IH]; [done|by left|].
  intros _. right. by apply IH.
Qed.

Lemma last_piece_no_sep sep s :
  contains sep (List.last (split_list sep s) EmptyString) = false.
Proof.
  pose proof (split_pieces_no_sep sep s) as Hall. rewrite Forall_forall in Hall.
  apply Hall, last_elem_of. unfold split_list. by destruct (split sep s).
Qed.

End FetchFacts.

(** X20. The project name taken from a repository URL. The name is what
    follows the last slash of the URL, with every ".git" removed: it never
    holds a slash; a URL that ends with a slash gives the empty name; and a
    URL that ends with "/<name>.git", where the name holds neither slash
    nor dot, gives that name. *)
Theorem name_from_url_cases (base name : string) :
  Py.contains "/" (FetchRepo.name_from_url base) = false
  ∧ FetchRepo.name_from_url (base +:+ "/") = EmptyString
  ∧ (Py.contains "/" name = false →
     FetchRepo.name_from_url (base +:+ "/" +:+ name)
     = PyText.replace ".git" EmptyString name)
  ∧ (Py.contains "/" name = false → Py.contains "." name = false →
     FetchRepo.name_from_url (base +:+ "/" +:+ name +:+ ".git") = name).
Proof.
  unfold FetchRepo.name_from_url. split_and!.
  - apply FetchFacts.replace_from_keeps_absent; [done|].
    apply FetchFacts.last_piece_no_sep.
  - change (base +:+ "/") with (base +:+ String "/" EmptyString).
    by rewrite FetchFacts.last_split_list.
  - intros Hname. change (base +:+ "/" +:+ name) with (base +:+ String "/" name).
    by rewrite FetchFacts.last_split_list.
  - intros Hslash Hdot.
    change (base +:+ "/" +:+ name +:+ ".git") with (base +:+ String "/" (name +:+ ".git")).
    rewrite FetchFacts.last_split_list.
    + by apply FetchFacts.replace_git_suffix.
    + rewrite PyFacts.contains_app, Hslash. done.
Qed.

Lemma name_from_url_cases_witness :
  FetchRepo.name_from_url ("https://github.com/owner" +:+ "/" +:+ "repo" +:+ ".git")
  = "repo".
Proof.
  apply (proj2 (proj2 (proj2 (name_from_url_cases "https://github.com/owner" "repo"))));
    reflexivity.
Defined.

(** * The local crawl *)

Module CrawlFacts.
Import CrawlLocal.

Section crawl_facts.
Variable fnmatch : string → string → bool.
Variables include_patterns exclude_patterns : list string.
Variable max_file_size : option Z.

Lemma crawl_step_None files_dict f :
  crawl_step fnmatch include_patterns exclude_patterns max_file_size files_dict f = None ↔
  crawl_stopped fnmatch include_patterns exclude_patterns max_file_size f.
Proof.
  unfold crawl_step, crawl_stopped.
  destruct (included _ _ _), (excluded _ _ _); simpl;
    try (split; [done|by intros (? & ? & ?)]).
  destruct (too_large _ _) as [[]|]; simpl.
  - split; [done|by intros (_ & _ & ?)].
  - destruct (file_text f); (split; [done|by intros (_ & _ & ?)]).
  - done.
Qed.

Lemma crawl_step_lookup files_dict files_dict' f path :
  crawl_step fnmatch include_patterns exclude_patterns max_file_size files_dict f
  = Some files_dict' →
  files_dict' !! path
  = match file_text f with
    | Some content =>
        if bool_decide (relpath f = path)
           && included fnmatch include_patterns (relpath f)
           && negb (excluded fnmatch exclude_patterns (relpath f))
           && bool_decide (too_large max_file_size (file_size f) = Some false)
        then Some content else files_dict !! path
    | None => files_dict !! path
    end.
Proof.
  unfold crawl_step.
  destruct (included _ _ _), (excluded _ _ _); simpl;
    try (intros [= <-]; destruct (file_text f); by rewrite ?andb_false_r).
  destruct (too_large _ _) as [[]|]; simpl; [| |done].
  - intros [= <-]. destruct (file_text f); by rewrite ?andb_false_r.
  - destruct (file_text f); intros [= <-]; [|done].
    rewrite andb_true_r. case_bool_decide as Hp; simpl.
    + subst. by rewrite lookup_insert_eq.
    + by rewrite lookup_insert_ne.
Qed.

Lemma crawl_snoc walk f :
  crawl_local_files fnmatch (walk ++ [f]) include_patterns exclude_patterns max_file_size
  = files_dict ←
      crawl_local_files fnmatch walk include_patterns exclude_patterns max_file_size;
    crawl_step fnmatch include_patterns exclude_patterns max_file_size files_dict f.
Proof. unfold crawl_local_files. by rewrite foldl_app. Qed.

(** The crawl raises exactly when the walk reaches a file that stops it. *)
Lemma crawl_None walk :
  crawl_local_files fnmatch walk include_patterns exclude_patterns max_file_size = None ↔
  ∃ f, f ∈ walk
       ∧ crawl_stopped fnmatch include_patterns exclude_patterns max_file_size f.
Proof.
  induction walk as [|f walk IH] using rev_ind.
  - split; [done|by intros (? & ?%elem_of_nil & _)].
  - rewrite crawl_snoc.
    destruct (crawl_local_files fnmatch walk _ _ _) as [files_dict|]; simpl.
    + rewrite crawl_step_None. split.
      * intros Hf. exists f. split; [apply elem_of_app; right; by left|done].
      * intros (g & [Hg| ->%list_elem_of_singleton]%elem_of_app & Hstop); [|done].
        assert (Some files_dict = None) as [=]. apply IH. by exists g.
    + split; [|done]. intros _.
      destruct (proj1 IH eq_refl) as (g & Hg & Hstop).
      exists g. split; [apply elem_of_app; by left|done].
Qed.

Lemma crawl_lookup walk files_dict path content :
  NoDup (relpath <$> walk) →
  crawl_local_files fnmatch walk include_patterns exclude_patterns max_file_size
  = Some files_dict →
  files_dict !! path = Some content ↔
  ∃ f, f ∈ walk ∧ relpath f = path
       ∧ crawl_kept fnmatch include_patterns exclude_patterns max_file_size f content.
Proof.
  revert files_dict.
  induction walk as [|f walk IH] using rev_ind; intros files_dict Hnd.
  - intros [= <-]. rewrite lookup_empty.
    split; [done|by intros (? & ?%elem_of_nil & _)].
  - rewrite fmap_app in Hnd. apply NoDup_app in Hnd as (Hnd & Hfresh & _).
    rewrite crawl_snoc.
    destruct (crawl_local_files fnmatch walk _ _ _) as [before|] eqn:Hwalk; [|done].
    simpl. intros Hstep. rewrite (crawl_step_lookup _ _ _ _ Hstep).
    specialize (IH before Hnd eq_refl).
    assert (∀ g, g ∈ walk → relpath g ≠ relpath f) as Hother.
    { intros g Hg Heq. apply (Hfresh (relpath g)); [by apply list_elem_of_fmap_2|].
      rewrite Heq. by left. }
    unfold crawl_kept in *.
    destruct (file_text f) as [text|] eqn:Htext.
    + destruct (bool_decide (relpath f = path)) eqn:Hp; simpl.
      * apply bool_decide_eq_true in Hp.
        destruct (included _ _ _) eqn:Hi, (excluded _ _ _) eqn:He; simpl.
        all: try (rewrite IH; split;
          [ intros (g & Hg & Hgp & _); destruct (Hother g Hg); congruence
          | intros (g & [Hg| ->%list_elem_of_singleton]%elem_of_app & Hgp & Hk);
            [destruct (Hother g Hg); congruence
            |destruct Hk as (? & ? & ? & ?); congruence] ]).
        case_bool_decide as Hl.
        -- split.
           ++ intros [= <-]. exists f. split; [apply elem_of_app; right; by left|done].
           ++ intros (g & [Hg| ->%list_elem_of_singleton]%elem_of_app & Hgp & Hk).
              ** destruct (Hother g Hg). congruence.
              ** destruct Hk as (_ & _ & _ & Hk). congruence.
        -- rewrite IH. split.
           ++ intros (g & Hg & Hgp & _). destruct (Hother g Hg). congruence.
           ++ intros (g & [Hg| ->%list_elem_of_singleton]%elem_of_app & Hgp & Hk).
              ** destruct (Hother g Hg). congruence.
              ** by destruct Hk as (_ & _ & ? & _).
      * apply bool_decide_eq_false in Hp. rewrite IH. split.
        -- intros (g & Hg & ?). exists g. split; [apply elem_of_app; by left|done].
        -- intros (g & [Hg| ->%list_elem_of_singleton]%elem_of_app & Hgp & Hk);
             [by exists g|done].
    + rewrite IH. split.
      * intros (g & Hg & ?). exists g. split; [apply elem_of_app; by left|done].
      * intros (g & [Hg| ->%list_elem_of_singleton]%elem_of_app & Hgp & Hk);
          [by exists g|]. destruct Hk as (_ & _ & _ & Hk). congruence.
Qed.

Lemma existsb_fnmatch path patterns :
  existsb (fnmatch path) patterns = true ↔
  ∃ pattern, pattern ∈ patterns ∧ fnmatch path pattern = true.
Proof. rewrite existsb_exists. setoid_rewrite list_elem_of_In. done. Qed.

Lemma included_true path :
  included fnmatch include_patterns path = true ↔
  include_patterns = []
  ∨ ∃ pattern, pattern ∈ include_patterns ∧ fnmatch path pattern = true.
Proof.
  unfold included. destruct include_patterns as [|p ps] eqn:Hpat.
  - split; [by left|done].
  - rewrite existsb_fnmatch. split; [by right|by intros [?|?]].
Qed.

Lemma excluded_false path :
  excluded fnmatch exclude_patterns path = false ↔
  ∀ pattern, pattern ∈ exclude_patterns → fnmatch path pattern = false.
Proof.
  unfold excluded. destruct exclude_patterns as [|p ps] eqn:Hpat.
  - split; [by intros _ ? ?%elem_of_nil|done].
  - rewrite <- not_true_iff_false, existsb_fnmatch. split.
    + intros Hno pattern Hin. apply not_true_iff_false. intros Hm. apply Hno. eauto.
    + intros Hall (pattern & Hin & Hm). by rewrite (Hall pattern Hin) in Hm.
Qed.

Lemma too_large_false size :
  too_large max_file_size size = Some false ↔
  max_file_size = None ∨ max_file_size = Some 0%Z
  ∨ ∃ limit bytes, max_file_size = Some limit ∧ size = Some bytes ∧ (bytes ≤ limit)%Z.
Proof.
  unfold too_large. destruct max_file_size as [limit|]; [|split; [by left|done]].
  destruct (Z.eqb_spec limit 0) as [->|Hne].
  - split; [by right; left|done].
  - destruct size as [bytes|]; simpl.
    + split.
      * intros [= Hle%Z.ltb_ge]. right. right. by exists limit, bytes.
      * intros [?|[[= ->]|(l & b & [= <-] & [= <-] & Hle%Z.ltb_ge)]]; try done.
        by rewrite Hle.
    + split; [done|]. by intros [?|[[= ->]|(l & b & _ & ? & _)]].
Qed.

Lemma too_large_None size :
  too_large max_file_size size = None ↔
  size = None ∧ ∃ limit, max_file_size = Some limit ∧ limit ≠ 0%Z.
Proof.
  unfold too_large. destruct max_file_size as [limit|]; [|split; [done|by intros [_ (? & ? & _)]]].
  destruct (Z.eqb_spec limit 0) as [->|Hne].
  - split; [done|]. by intros [_ (l & [= <-] & ?)].
  - destruct size as [bytes|]; simpl.
    + split; [done|by intros [? _]].
    + split; [|done]. intros _. split; [done|]. by exists limit.
Qed.

End crawl_facts.

End CrawlFacts.

(** X21. Which files the local crawl keeps, and when it raises. The walk
    reaches files, no path twice; the size of a file may be out of reach
    ([os.path.getsize] raises for a symbolic link whose target is missing).
    The crawl raises exactly when a size limit other than 0 is set and the
    walk reaches a file that passes the pattern tests and whose size is out
    of reach. Otherwise it returns a map that holds a path with a content
    exactly when the file at that path can be read as that content, matches
    some include pattern (or there is none), matches no exclude pattern,
    and, when a size limit other than 0 is set, is not larger than it. So a
    file that matches an exclude pattern is never returned, even when an
    include pattern matches it, and a limit of 0 is no limit. *)
Theorem crawl_local_files_keeps
    (fnmatch : string → string → bool) (walk : list CrawlLocal.walked_file)
    (include_patterns exclude_patterns : list string) (max_file_size : option Z) :
  NoDup (CrawlLocal.relpath <$> walk) →
  (CrawlLocal.crawl_local_files fnmatch walk include_patterns exclude_patterns max_file_size
   = None ↔
   ∃ f, f ∈ walk
        ∧ (include_patterns = []
           ∨ ∃ pattern, pattern ∈ include_patterns
                        ∧ fnmatch (CrawlLocal.relpath f) pattern = true)
        ∧ (∀ pattern, pattern ∈ exclude_patterns →
                      fnmatch (CrawlLocal.relpath f) pattern = false)
        ∧ CrawlLocal.file_size f = None
        ∧ ∃ limit, max_file_size = Some limit ∧ limit ≠ 0%Z)
  ∧ ∀ files_dict,
      CrawlLocal.crawl_local_files fnmatch walk include_patterns exclude_patterns
        max_file_size = Some files_dict →
      ∀ path content,
        files_dict !! path = Some content ↔
        ∃ f, f ∈ walk ∧ CrawlLocal.relpath f = path
             ∧ CrawlLocal.file_text f = Some content
             ∧ (include_patterns = []
                ∨ ∃ pattern, pattern ∈ include_patterns ∧ fnmatch path pattern = true)
             ∧ (∀ pattern, pattern ∈ exclude_patterns → fnmatch path pattern = false)
             ∧ (max_file_size = None ∨ max_file_size = Some 0%Z
                ∨ ∃ limit bytes, max_file_size = Some limit
                                 ∧ CrawlLocal.file_size f = Some bytes
                                 ∧ (bytes ≤ limit)%Z).
Proof.
  intros Hnd. split.
  - rewrite CrawlFacts.crawl_None. unfold crawl_stopped. split.
    + intros (f & Hf & Hi & He & Hl). exists f.
      apply CrawlFacts.too_large_None in Hl as [Hsize Hlimit].
      split_and!; try done; [by apply CrawlFacts.included_true|by apply CrawlFacts.excluded_false].
    + intros (f & Hf & Hi & He & Hsize & Hlimit). exists f.
      split_and!; try done;
        [by apply CrawlFacts.included_true|by apply CrawlFacts.excluded_false
        |by apply CrawlFacts.too_large_None].
  - intros files_dict Hcrawl path content.
    rewrite (CrawlFacts.crawl_lookup _ _ _ _ _ _ _ _ Hnd Hcrawl). unfold crawl_kept. split.
    + intros (f & Hf & <- & Hi & He & Hl & Ht). exists f.
      split_and!; try done;
        [by apply CrawlFacts.included_true|by apply CrawlFacts.excluded_false
        |by apply CrawlFacts.too_large_false].
    + intros (f & Hf & <- & Ht & Hi & He & Hl). exists f.
      split_and!; try done;
        [by apply CrawlFacts.included_true|by apply CrawlFacts.excluded_false
        |by apply CrawlFacts.too_large_false].
Qed.

Lemma crawl_local_files_keeps_witness :
  CrawlLocal.crawl_local_files String.eqb
    [CrawlLocal.WalkedFile "a.py" (Some 10%Z) (Some "A");
     CrawlLocal.WalkedFile "link" None None]
    [] ["b.py"] (Some 100%Z) = None ↔
  ∃ f, f ∈ [CrawlLocal.WalkedFile "a.py" (Some 10%Z) (Some "A");
            CrawlLocal.WalkedFile "link" None None]
       ∧ ([] = ([] : list string)
          ∨ ∃ pattern, pattern ∈ ([] : list string)
                       ∧ String.eqb (CrawlLocal.relpath f) pattern = true)
       ∧ (∀ pattern, pattern ∈ ["b.py"] →
                     String.eqb (CrawlLocal.relpath f) pattern = false)
       ∧ CrawlLocal.file_size f = None
       ∧ ∃ limit, Some 100%Z = Some limit ∧ limit ≠ 0%Z.
Proof.
  apply (crawl_local_files_keeps String.eqb).
  constructor; [by intros [=]%list_elem_of_singleton|apply NoDup_singleton].
Defined.
